(** * VitalViz: sampling, rate derivation, bounded history and alerting

    A shallow embedding of the three front-ends of the repository

    - [system_dashboard.py]      (terminal dashboard, module [Cli]),
    - [system_dashboard_gui.py]  (basic GUI, module [BasicGui]),
    - [vitalviz_gui.py]          (feature-rich GUI, module [Gui]),

    restricted to the code that samples the counters, derives the network
    rates, keeps the bounded histories and raises the threshold alerts.

    Python values are modelled as the interpreter has them: an [int] is a
    [Z], a [float] is an IEEE 754 binary64 number ([spec_float] of the
    standard library at precision 53 and maximal exponent 1024), a raised
    exception is a [Raise] result.  Attributes of [self] that the update
    loop mutates live in a state record that is threaded through a small
    state-and-exception monad, so that what a tick has already written
    survives an exception raised later in the same tick. *)

From Stdlib Require Import ZArith List String Ascii Bool Lia DecimalString.
From Stdlib Require Import Floats.SpecFloat.
From stdpp Require Import base list.

Local Open Scope Z_scope.

(** ** Python results and exceptions *)

Module Py.

(** The exceptions the modelled code can raise, and [Other] for what a
    call into psutil or the operating system raises, by the name of its
    class ([OSError], [PermissionError], [psutil.AccessDenied], ...). *)
Inductive exn : Type :=
| ZeroDivisionError
| OverflowError
| IndexError
| Other (name : string).

Inductive result (A : Type) : Type :=
| Ok (a : A)
| Raise (e : exn).

Arguments Ok {A} a.
Arguments Raise {A} e.

Definition bind {A B : Type} (r : result A) (k : A -> result B) : result B :=
  match r with
  | Ok a => k a
  | Raise e => Raise e
  end.

End Py.

Import Py.

Declare Scope py_scope.
Delimit Scope py_scope with py.
Notation "x <- c ;; k" := (Py.bind c (fun x => k))
  (at level 100, c at next level, right associativity) : py_scope.

(** ** Binary64 floats *)

Module F64.

Definition prec : Z := 53.
Definition emax : Z := 1024.

Definition float : Type := spec_float.

(** The float nearest to an integer (ties to even); an infinity when the
    integer is out of range. *)
Definition of_Z (z : Z) : float := binary_normalize prec emax z 0 false.

Definition zero : float := S754_zero false.

Definition add (x y : float) : float := SFadd prec emax x y.
Definition sub (x y : float) : float := SFsub prec emax x y.
Definition div (x y : float) : float := SFdiv prec emax x y.

Definition ltb (x y : float) : bool := SFltb x y.
Definition leb (x y : float) : bool := SFleb x y.

(** [x == 0.0], true of both zeros. *)
Definition is_zero (x : float) : bool :=
  match x with
  | S754_zero _ => true
  | _ => false
  end.

(** Exact comparison of a float with an integer, as Python compares a
    [float] with an [int]: no rounding of the integer. *)
Definition compare_Z (x : float) (z : Z) : option comparison :=
  match x with
  | S754_nan => None
  | S754_infinity s => Some (if s then Lt else Gt)
  | S754_zero _ => Some (0 ?= z)
  | S754_finite s m e =>
      let v := if s then Zneg m else Zpos m in
      match e with
      | Zneg p => Some (v ?= z * 2 ^ Zpos p)
      | _ => Some (v * 2 ^ e ?= z)
      end
  end.

Definition ltb_Z (x : float) (z : Z) : bool :=
  match compare_Z x z with
  | Some Lt => true
  | _ => false
  end.

Definition gtb_Z (x : float) (z : Z) : bool :=
  match compare_Z x z with
  | Some Gt => true
  | _ => false
  end.

(** [n / d] rounded to the nearest integer, ties to the even one
    ([0 <= n], [0 < d]). *)
Definition round_half_even_div (n d : Z) : Z :=
  let q := n / d in
  let r := n mod d in
  match 2 * r ?= d with
  | Lt => q
  | Gt => q + 1
  | Eq => if Z.even q then q else q + 1
  end.

(** The hundredths of [m * 2^e], correctly rounded: what the format
    [.2f] prints, without the decimal point. *)
Definition hundredths (m : positive) (e : Z) : Z :=
  match e with
  | Zneg p => round_half_even_div (Zpos m * 100) (2 ^ Zpos p)
  | _ => Zpos m * 100 * 2 ^ e
  end.

Definition digits (n : Z) : string := NilZero.string_of_uint (N.to_uint (Z.to_N n)).

Definition two_digits (n : Z) : string :=
  if n <? 10 then String "0" (digits n) else digits n.

(** A sign and a number of hundredths as [-ddd.dd]. *)
Definition render_hundredths (s : bool) (c : Z) : string :=
  String.append (if s then "-" else "")
    (String.append (digits (c / 100))
       (String "." (two_digits (c mod 100)))).

(** [f"{x:.2f}"] on a float. *)
Definition format_2f (x : float) : string :=
  match x with
  | S754_nan => "nan"
  | S754_infinity s => if s then "-inf" else "inf"
  | S754_zero s => render_hundredths s 0
  | S754_finite s m e => render_hundredths s (hundredths m e)
  end.

(** [x] carries the sign [s], when it has one (a NaN has none). *)
Definition has_sign (s : bool) (x : float) : Prop :=
  match x with
  | S754_zero s' | S754_infinity s' | S754_finite s' _ _ => s' = s
  | S754_nan => True
  end.

(** The 53-bit mantissa of a positive integer of at most 53 bits. *)
Definition normal_mantissa (z : positive) : positive :=
  match (53 - Zpos (digits2_pos z))%Z with
  | Zpos q => Pos.iter xO z q
  | _ => z
  end.

End F64.

(** ** Python numbers: an [int] or a [float] *)

Inductive num : Type :=
| Int (z : Z)
| Float (f : F64.float).

(** [float(z)]: [OverflowError] when the integer rounds out of range. *)
Definition float_of_int (z : Z) : result F64.float :=
  match F64.of_Z z with
  | S754_infinity _ => Raise OverflowError
  | f => Ok f
  end.

Definition to_float (a : num) : result F64.float :=
  match a with
  | Int z => float_of_int z
  | Float f => Ok f
  end.

(** [a / b] where at least one operand is a float: both operands are
    converted, then a zero divisor raises, then the quotient is rounded. *)
Definition truediv (a b : num) : result F64.float :=
  (x <- to_float a ;;
   y <- to_float b ;;
   if F64.is_zero y then Raise ZeroDivisionError else Ok (F64.div x y))%py.

(** [a < b] for [b] a float. *)
Definition lt_float (a : num) (b : F64.float) : bool :=
  match a with
  | Int z => F64.gtb_Z b z
  | Float f => F64.ltb f b
  end.

(** [f"{a:.2f}"]: an [int] is converted to a float first. *)
Definition format_2f (a : num) : result string :=
  (x <- to_float a ;; Ok (F64.format_2f x))%py.

(** [str(z)] on an [int]. *)
Definition str_int (z : Z) : string :=
  match z with
  | Zneg p => String "-" (F64.digits (Zpos p))
  | _ => F64.digits z
  end.

(** ** Readings of the metrics provider *)

(** [psutil.net_io_counters()]: the cumulative counters. *)
Record net_io : Type := {
  bytes_sent : Z;
  bytes_recv : Z;
  packets_sent : Z;
  packets_recv : Z
}.

(** [get_memory_info()]. *)
Record memory_info : Type := {
  total : Z;
  available : Z;
  percent : F64.float;
  used : Z;
  free : Z
}.

(** One entry of [get_disk_info()]. *)
Record disk : Type := {
  device : string;
  mountpoint : string;
  fstype : string;
  disk_total : Z;
  disk_used : Z;
  disk_free : Z;
  disk_percent : F64.float
}.

(** What one pass of a sampling loop reads: the clock, the provider and
    the formatted wall-clock time. *)
Record reading : Type := {
  current_time : F64.float;
  cpu_usage : list F64.float;
  memory : memory_info;
  disk_info : list disk;
  current_net_io : net_io;
  now : string
}.

(** The expression [(current - previous) / time_diff] that every front-end
    writes inline for each counter. *)
Definition per_sec (current previous : Z) (time_diff : F64.float) : result F64.float :=
  truediv (Int (current - previous)) (Float time_diff).

(** The same rate as the specification words it, with the clamp
    [max(0, curr - prev)]; defined from the specification, for comparison
    with [per_sec]. *)
Definition per_sec_clamped (current previous : Z) (elapsed : F64.float) : result F64.float :=
  truediv (Int (Z.max 0 (current - previous))) (Float elapsed).

(** The history capacity [MAX_HISTORY = 60] of both graphical front-ends. *)
Definition MAX_HISTORY : nat := 60.

(** The trimming pattern of every series:
    [if len(h) >= MAX_HISTORY: h.pop(0)] followed by [h.append(v)].
    The guard makes [pop(0)] safe, so the step cannot raise. *)
Definition push {A : Type} (h : list A) (v : A) : list A :=
  (if (MAX_HISTORY <=? length h)%nat then drop 1 h else h) ++ [v].

(** [h.pop(0)] without a guard of its own: [IndexError] on an empty list. *)
Definition pop0 {A : Type} (h : list A) : result (list A) :=
  match h with
  | [] => Raise IndexError
  | _ :: t => Ok t
  end.

(** ** The terminal dashboard, [system_dashboard.py] *)

Module Cli.

Definition f1024 : F64.float := F64.of_Z 1024.

(** The [for unit in [...]] loop of [size_formatter] over the units that
    are left, and the [PB] fall-through after it. *)
Fixpoint size_formatter_from (units : list string) (bytes_value : num) : result string :=
  match units with
  | [] => (s <- format_2f bytes_value ;; Ok (String.append s " PB"))%py
  | unit :: rest =>
      if lt_float bytes_value f1024
      then (s <- format_2f bytes_value ;; Ok (String.append s (String " " unit)))%py
      else (v <- truediv bytes_value (Float f1024) ;; size_formatter_from rest (Float v))%py
  end.

Definition units : list string := ["B"; "KB"; "MB"; "GB"; "TB"]%string.

Definition size_formatter (bytes_value : num) : result string :=
  size_formatter_from units bytes_value.

(** The rows added to the network table. *)
Definition generate_network_table (prev_net_io current_net_io : net_io)
    (time_diff : F64.float) : result (list (list string)) :=
  (bytes_sent_per_sec <- per_sec (bytes_sent current_net_io) (bytes_sent prev_net_io) time_diff ;;
   bytes_recv_per_sec <- per_sec (bytes_recv current_net_io) (bytes_recv prev_net_io) time_diff ;;
   total_sent <- size_formatter (Int (bytes_sent current_net_io)) ;;
   rate_sent <- size_formatter (Float bytes_sent_per_sec) ;;
   total_recv <- size_formatter (Int (bytes_recv current_net_io)) ;;
   rate_recv <- size_formatter (Float bytes_recv_per_sec) ;;
   packets_sent_per_sec <- per_sec (packets_sent current_net_io) (packets_sent prev_net_io) time_diff ;;
   packets_recv_per_sec <- per_sec (packets_recv current_net_io) (packets_recv prev_net_io) time_diff ;;
   Ok [ ["Bytes Sent"; total_sent; String.append rate_sent "/s"];
        ["Bytes Received"; total_recv; String.append rate_recv "/s"];
        ["Packets Sent"; str_int (packets_sent current_net_io);
         String.append (F64.format_2f packets_sent_per_sec) "/s"];
        ["Packets Received"; str_int (packets_recv current_net_io);
         String.append (F64.format_2f packets_recv_per_sec) "/s"] ]%string)%py.

(** The local variables of [main] that survive an iteration. *)
Record state : Type := {
  prev_net_io : net_io;
  prev_time : F64.float
}.

(** The two assignments at the top of [main]: the counters and the clock
    are read once before the loop. *)
Definition main_init (net0 : net_io) (t0 : F64.float) : state :=
  {| prev_net_io := net0; prev_time := t0 |}.

(** One iteration of [while True]: the network panel that is displayed
    and the state for the next iteration.  An exception leaves the loop
    ([main] only handles [KeyboardInterrupt]). *)
Definition main_iteration (r : reading) (st : state) : result (list (list string) * state) :=
  let time_diff := F64.sub (current_time r) (prev_time st) in
  (table <- generate_network_table (prev_net_io st) (current_net_io r) time_diff ;;
   Ok (table, {| prev_net_io := current_net_io r; prev_time := current_time r |}))%py.

End Cli.

(** ** Mutable state with exceptions

    A method body that mutates [self] and may raise: the state reached when
    the exception is raised is kept, as in Python. *)

Module Run.

Definition M (St A : Type) : Type := St -> result A * St.

Definition ret {St A : Type} (a : A) : M St A := fun s => (Ok a, s).

Definition bind {St A B : Type} (c : M St A) (k : A -> M St B) : M St B :=
  fun s =>
    match c s with
    | (Ok a, s') => k a s'
    | (Raise e, s') => (Raise e, s')
    end.

Definition get {St : Type} : M St St := fun s => (Ok s, s).

Definition modify {St : Type} (f : St -> St) : M St unit := fun s => (Ok tt, f s).

(** A computation that does not touch the state. *)
Definition lift {St A : Type} (r : result A) : M St A := fun s => (r, s).

(** [for i, x in enumerate(l)] from index [i] on. *)
Fixpoint for_enumerate {St A : Type} (body : nat -> A -> M St unit)
    (i : nat) (l : list A) : M St unit :=
  match l with
  | [] => ret tt
  | x :: l' => bind (body i x) (fun _ => for_enumerate body (S i) l')
  end.

End Run.

Declare Scope run_scope.
Delimit Scope run_scope with run.
Notation "x <- c ;; k" := (Run.bind c (fun x => k))
  (at level 100, c at next level, right associativity) : run_scope.
Notation "c ;; k" := (Run.bind c (fun _ => k))
  (at level 100, right associativity) : run_scope.

(** [sum(l)] on floats, added from the left starting at [0]: the plain
    sum of CPython up to 3.11.  Later versions compensate the rounding
    errors of the partial sums, which changes nothing where the partial
    sums are exact, as on a list of one element. *)
Definition py_sum (l : list F64.float) : F64.float :=
  fold_left F64.add l F64.zero.

(** [sum(l) / len(l)]; on the empty list this is [0 / 0]. *)
Definition mean (l : list F64.float) : result F64.float :=
  match l with
  | [] => Raise ZeroDivisionError
  | _ => truediv (Float (py_sum l)) (Int (Z.of_nat (length l)))
  end.

(** ** The basic GUI, [system_dashboard_gui.py] *)

Module BasicGui.

(** The calls handed to the Tk event loop with [root.after(0, ...)]. *)
Inductive ui_call : Type :=
| update_ui_cpu (cpu_usage : list F64.float)
| update_ui_memory (memory : memory_info)
| update_ui_disk (disk_info : list disk)
| update_ui_network (net : net_io) (bytes_sent_per_sec bytes_recv_per_sec : F64.float)
| update_ui_system_info.

(** The attributes of [SystemMonitorGUI] that the update thread uses. *)
Record state : Type := {
  cpu_history : list (list F64.float);
  memory_history : list F64.float;
  network_recv_history : list F64.float;
  network_sent_history : list F64.float;
  time_points : list string;
  prev_net_io : net_io;
  prev_time : F64.float;
  scheduled : list ui_call
}.

(** [__init__]: empty histories, one per core, and a first reading of the
    counters and of the clock. *)
Definition init (ncores : nat) (net0 : net_io) (t0 : F64.float) : state :=
  {| cpu_history := replicate ncores [];
     memory_history := [];
     network_recv_history := [];
     network_sent_history := [];
     time_points := [];
     prev_net_io := net0;
     prev_time := t0;
     scheduled := [] |}.

Definition set_time_points (f : list string -> list string) (st : state) : state :=
  {| cpu_history := cpu_history st;
     memory_history := memory_history st;
     network_recv_history := network_recv_history st;
     network_sent_history := network_sent_history st;
     time_points := f (time_points st);
     prev_net_io := prev_net_io st;
     prev_time := prev_time st;
     scheduled := scheduled st |}.

Definition set_cpu_history (f : list (list F64.float) -> list (list F64.float))
    (st : state) : state :=
  {| cpu_history := f (cpu_history st);
     memory_history := memory_history st;
     network_recv_history := network_recv_history st;
     network_sent_history := network_sent_history st;
     time_points := time_points st;
     prev_net_io := prev_net_io st;
     prev_time := prev_time st;
     scheduled := scheduled st |}.

Definition set_memory_history (f : list F64.float -> list F64.float) (st : state) : state :=
  {| cpu_history := cpu_history st;
     memory_history := f (memory_history st);
     network_recv_history := network_recv_history st;
     network_sent_history := network_sent_history st;
     time_points := time_points st;
     prev_net_io := prev_net_io st;
     prev_time := prev_time st;
     scheduled := scheduled st |}.

Definition set_network_recv_history (f : list F64.float -> list F64.float)
    (st : state) : state :=
  {| cpu_history := cpu_history st;
     memory_history := memory_history st;
     network_recv_history := f (network_recv_history st);
     network_sent_history := network_sent_history st;
     time_points := time_points st;
     prev_net_io := prev_net_io st;
     prev_time := prev_time st;
     scheduled := scheduled st |}.

Definition set_network_sent_history (f : list F64.float -> list F64.float)
    (st : state) : state :=
  {| cpu_history := cpu_history st;
     memory_history := memory_history st;
     network_recv_history := network_recv_history st;
     network_sent_history := f (network_sent_history st);
     time_points := time_points st;
     prev_net_io := prev_net_io st;
     prev_time := prev_time st;
     scheduled := scheduled st |}.

Definition set_prev (net : net_io) (t : F64.float) (st : state) : state :=
  {| cpu_history := cpu_history st;
     memory_history := memory_history st;
     network_recv_history := network_recv_history st;
     network_sent_history := network_sent_history st;
     time_points := time_points st;
     prev_net_io := net;
     prev_time := t;
     scheduled := scheduled st |}.

Definition schedule (calls : list ui_call) (st : state) : state :=
  {| cpu_history := cpu_history st;
     memory_history := memory_history st;
     network_recv_history := network_recv_history st;
     network_sent_history := network_sent_history st;
     time_points := time_points st;
     prev_net_io := prev_net_io st;
     prev_time := prev_time st;
     scheduled := scheduled st ++ calls |}.

(** The body of the [for i, usage in enumerate(cpu_usage)] loop:
    [self.cpu_history[i]] raises [IndexError] past the last core. *)
Definition update_cpu_history (i : nat) (usage : F64.float) : Run.M state unit :=
  (st <- Run.get ;;
   match cpu_history st !! i with
   | None => Run.lift (Raise IndexError)
   | Some h => Run.modify (set_cpu_history (fun hs => <[i := push h usage]> hs))
   end)%run.

(** The trimming of the two network series under the one test on the
    send series. *)
Definition trim_network : Run.M state unit :=
  (st <- Run.get ;;
   if (MAX_HISTORY <=? length (network_sent_history st))%nat
   then
     (sent <- Run.lift (pop0 (network_sent_history st)) ;;
      Run.modify (set_network_sent_history (fun _ => sent)) ;;
      recv <- Run.lift (pop0 (network_recv_history st)) ;;
      Run.modify (set_network_recv_history (fun _ => recv)))
   else Run.ret tt)%run.

(** One pass of the [while self.running] loop of [update_data]. *)
Definition update_data_tick (r : reading) : Run.M state unit :=
  (st0 <- Run.get ;;
   let time_diff := F64.sub (current_time r) (prev_time st0) in
   Run.modify (set_time_points (fun h => push h (now r))) ;;
   Run.for_enumerate update_cpu_history 0 (cpu_usage r) ;;
   Run.modify (set_memory_history (fun h => push h (percent (memory r)))) ;;
   bytes_sent_per_sec <-
     Run.lift (per_sec (bytes_sent (current_net_io r)) (bytes_sent (prev_net_io st0)) time_diff) ;;
   bytes_recv_per_sec <-
     Run.lift (per_sec (bytes_recv (current_net_io r)) (bytes_recv (prev_net_io st0)) time_diff) ;;
   trim_network ;;
   Run.modify (set_network_sent_history (fun h => h ++ [bytes_sent_per_sec])) ;;
   Run.modify (set_network_recv_history (fun h => h ++ [bytes_recv_per_sec])) ;;
   Run.modify (schedule
     [ update_ui_cpu (cpu_usage r);
       update_ui_memory (memory r);
       update_ui_disk (disk_info r);
       update_ui_network (current_net_io r) bytes_sent_per_sec bytes_recv_per_sec;
       update_ui_system_info ]) ;;
   Run.modify (set_prev (current_net_io r) (current_time r)))%run.

(** The loop over the readings of successive passes: nothing handles an
    exception, so the first one ends the update thread. *)
Fixpoint update_data (rs : list reading) : Run.M state unit :=
  match rs with
  | [] => Run.ret tt
  | r :: rs' => (update_data_tick r ;; update_data rs')%run
  end.

End BasicGui.

(** ** The feature-rich GUI, [vitalviz_gui.py] *)

Module Gui.

Inductive ui_call : Type :=
| update_ui_cpu (cpu_usage : list F64.float)
| update_ui_memory (memory : memory_info)
| update_ui_disk (disk_info : list disk)
| update_ui_network (net : net_io) (bytes_sent_per_sec bytes_recv_per_sec : F64.float)
| update_ui_system_info
| update_dashboard (cpu_usage : list F64.float) (memory : memory_info) (net : net_io)
    (bytes_sent_per_sec bytes_recv_per_sec : F64.float).

(** A desktop notification: title and message. *)
Record notification : Type := {
  title : string;
  message : string
}.

(** The attributes written by "Initialize settings" and by the settings
    dialog. *)
Record settings : Type := {
  current_theme : string;
  update_interval : Z;
  max_history : Z;
  enable_notifications : bool
}.

(** The attributes of [SystemMonitorGUI] that the update thread, the
    alerting and the menu actions use.  [cpu_notified] and
    [memory_notified] are attributes that exist or not: the boolean is
    [hasattr(self, ...)].  The last three fields record what the code
    sends out: calls scheduled on the event loop, notifications handed
    to the notifier, exceptions printed by the handler of the loop. *)
Record state : Type := {
  config : settings;
  cpu_history : list (list F64.float);
  memory_history : list F64.float;
  network_recv_history : list F64.float;
  network_sent_history : list F64.float;
  time_points : list string;
  prev_net_io : net_io;
  prev_time : F64.float;
  cpu_notified : bool;
  memory_notified : bool;
  scheduled : list ui_call;
  notified : list notification;
  printed : list exn
}.

Definition default_settings : settings :=
  {| current_theme := "dark";
     update_interval := 1;
     max_history := 60;
     enable_notifications := true |}.

(** [__init__]. *)
Definition init (ncores : nat) (net0 : net_io) (t0 : F64.float) : state :=
  {| config := default_settings;
     cpu_history := replicate ncores [];
     memory_history := [];
     network_recv_history := [];
     network_sent_history := [];
     time_points := [];
     prev_net_io := net0;
     prev_time := t0;
     cpu_notified := false;
     memory_notified := false;
     scheduled := [];
     notified := [];
     printed := [] |}.

Definition set_config (c : settings) (st : state) : state :=
  {| config := c;
     cpu_history := cpu_history st;
     memory_history := memory_history st;
     network_recv_history := network_recv_history st;
     network_sent_history := network_sent_history st;
     time_points := time_points st;
     prev_net_io := prev_net_io st;
     prev_time := prev_time st;
     cpu_notified := cpu_notified st;
     memory_notified := memory_notified st;
     scheduled := scheduled st;
     notified := notified st;
     printed := printed st |}.

Definition set_time_points (f : list string -> list string) (st : state) : state :=
  {| config := config st;
     cpu_history := cpu_history st;
     memory_history := memory_history st;
     network_recv_history := network_recv_history st;
     network_sent_history := network_sent_history st;
     time_points := f (time_points st);
     prev_net_io := prev_net_io st;
     prev_time := prev_time st;
     cpu_notified := cpu_notified st;
     memory_notified := memory_notified st;
     scheduled := scheduled st;
     notified := notified st;
     printed := printed st |}.

Definition set_cpu_history (f : list (list F64.float) -> list (list F64.float))
    (st : state) : state :=
  {| config := config st;
     cpu_history := f (cpu_history st);
     memory_history := memory_history st;
     network_recv_history := network_recv_history st;
     network_sent_history := network_sent_history st;
     time_points := time_points st;
     prev_net_io := prev_net_io st;
     prev_time := prev_time st;
     cpu_notified := cpu_notified st;
     memory_notified := memory_notified st;
     scheduled := scheduled st;
     notified := notified st;
     printed := printed st |}.

Definition set_memory_history (f : list F64.float -> list F64.float) (st : state) : state :=
  {| config := config st;
     cpu_history := cpu_history st;
     memory_history := f (memory_history st);
     network_recv_history := network_recv_history st;
     network_sent_history := network_sent_history st;
     time_points := time_points st;
     prev_net_io := prev_net_io st;
     prev_time := prev_time st;
     cpu_notified := cpu_notified st;
     memory_notified := memory_notified st;
     scheduled := scheduled st;
     notified := notified st;
     printed := printed st |}.

Definition set_network_recv_history (f : list F64.float -> list F64.float)
    (st : state) : state :=
  {| config := config st;
     cpu_history := cpu_history st;
     memory_history := memory_history st;
     network_recv_history := f (network_recv_history st);
     network_sent_history := network_sent_history st;
     time_points := time_points st;
     prev_net_io := prev_net_io st;
     prev_time := prev_time st;
     cpu_notified := cpu_notified st;
     memory_notified := memory_notified st;
     scheduled := scheduled st;
     notified := notified st;
     printed := printed st |}.

Definition set_network_sent_history (f : list F64.float -> list F64.float)
    (st : state) : state :=
  {| config := config st;
     cpu_history := cpu_history st;
     memory_history := memory_history st;
     network_recv_history := network_recv_history st;
     network_sent_history := f (network_sent_history st);
     time_points := time_points st;
     prev_net_io := prev_net_io st;
     prev_time := prev_time st;
     cpu_notified := cpu_notified st;
     memory_notified := memory_notified st;
     scheduled := scheduled st;
     notified := notified st;
     printed := printed st |}.

Definition set_prev (net : net_io) (t : F64.float) (st : state) : state :=
  {| config := config st;
     cpu_history := cpu_history st;
     memory_history := memory_history st;
     network_recv_history := network_recv_history st;
     network_sent_history := network_sent_history st;
     time_points := time_points st;
     prev_net_io := net;
     prev_time := t;
     cpu_notified := cpu_notified st;
     memory_notified := memory_notified st;
     scheduled := scheduled st;
     notified := notified st;
     printed := printed st |}.

Definition set_cpu_notified (b : bool) (st : state) : state :=
  {| config := config st;
     cpu_history := cpu_history st;
     memory_history := memory_history st;
     network_recv_history := network_recv_history st;
     network_sent_history := network_sent_history st;
     time_points := time_points st;
     prev_net_io := prev_net_io st;
     prev_time := prev_time st;
     cpu_notified := b;
     memory_notified := memory_notified st;
     scheduled := scheduled st;
     notified := notified st;
     printed := printed st |}.

Definition set_memory_notified (b : bool) (st : state) : state :=
  {| config := config st;
     cpu_history := cpu_history st;
     memory_history := memory_history st;
     network_recv_history := network_recv_history st;
     network_sent_history := network_sent_history st;
     time_points := time_points st;
     prev_net_io := prev_net_io st;
     prev_time := prev_time st;
     cpu_notified := cpu_notified st;
     memory_notified := b;
     scheduled := scheduled st;
     notified := notified st;
     printed := printed st |}.

Definition schedule (calls : list ui_call) (st : state) : state :=
  {| config := config st;
     cpu_history := cpu_history st;
     memory_history := memory_history st;
     network_recv_history := network_recv_history st;
     network_sent_history := network_sent_history st;
     time_points := time_points st;
     prev_net_io := prev_net_io st;
     prev_time := prev_time st;
     cpu_notified := cpu_notified st;
     memory_notified := memory_notified st;
     scheduled := scheduled st ++ calls;
     notified := notified st;
     printed := printed st |}.

Definition deliver (n : notification) (st : state) : state :=
  {| config := config st;
     cpu_history := cpu_history st;
     memory_history := memory_history st;
     network_recv_history := network_recv_history st;
     network_sent_history := network_sent_history st;
     time_points := time_points st;
     prev_net_io := prev_net_io st;
     prev_time := prev_time st;
     cpu_notified := cpu_notified st;
     memory_notified := memory_notified st;
     scheduled := scheduled st;
     notified := notified st ++ [n];
     printed := printed st |}.

Definition print_error (e : exn) (st : state) : state :=
  {| config := config st;
     cpu_history := cpu_history st;
     memory_history := memory_history st;
     network_recv_history := network_recv_history st;
     network_sent_history := network_sent_history st;
     time_points := time_points st;
     prev_net_io := prev_net_io st;
     prev_time := prev_time st;
     cpu_notified := cpu_notified st;
     memory_notified := memory_notified st;
     scheduled := scheduled st;
     notified := notified st;
     printed := printed st ++ [e] |}.

Section WithNotifier.

(** The module flag set by the import of the optional notifier. *)
Variable NOTIFICATIONS_AVAILABLE : bool.

(** [notify(title, message)]: a no-op without the notifier. *)
Definition notify (title message : string) : Run.M state unit :=
  if NOTIFICATIONS_AVAILABLE
  then Run.modify (deliver {| title := title; message := message |})
  else Run.ret tt.

Definition cpu_alert : notification :=
  {| title := "VitalViz Alert"; message := "CPU usage is extremely high (>90%)" |}.

Definition memory_alert : notification :=
  {| title := "VitalViz Alert"; message := "Memory usage is high (>85%)" |}.

(** [check_thresholds(cpu_usage, memory_info)]. *)
Definition check_thresholds (cpu_usage : list F64.float) (memory : memory_info)
    : Run.M state unit :=
  (avg_cpu <- Run.lift (mean cpu_usage) ;;
   st <- Run.get ;;
   (if F64.gtb_Z avg_cpu 90 && negb (cpu_notified st)
    then (notify (title cpu_alert) (message cpu_alert) ;;
          Run.modify (set_cpu_notified true))
    else if F64.ltb_Z avg_cpu 70 && cpu_notified st
    then Run.modify (set_cpu_notified false)
    else Run.ret tt) ;;
   st <- Run.get ;;
   if F64.gtb_Z (percent memory) 85 && negb (memory_notified st)
   then (notify (title memory_alert) (message memory_alert) ;;
         Run.modify (set_memory_notified true))
   else if F64.ltb_Z (percent memory) 75 && memory_notified st
   then Run.modify (set_memory_notified false)
   else Run.ret tt)%run.

Definition update_cpu_history (i : nat) (usage : F64.float) : Run.M state unit :=
  (st <- Run.get ;;
   match cpu_history st !! i with
   | None => Run.lift (Raise IndexError)
   | Some h => Run.modify (set_cpu_history (fun hs => <[i := push h usage]> hs))
   end)%run.

Definition trim_network : Run.M state unit :=
  (st <- Run.get ;;
   if (MAX_HISTORY <=? length (network_sent_history st))%nat
   then
     (sent <- Run.lift (pop0 (network_sent_history st)) ;;
      Run.modify (set_network_sent_history (fun _ => sent)) ;;
      recv <- Run.lift (pop0 (network_recv_history st)) ;;
      Run.modify (set_network_recv_history (fun _ => recv)))
   else Run.ret tt)%run.

(** The body of the [try] of [update_data]. *)
Definition update_data_body (r : reading) : Run.M state unit :=
  (st0 <- Run.get ;;
   let time_diff := F64.sub (current_time r) (prev_time st0) in
   Run.modify (set_time_points (fun h => push h (now r))) ;;
   Run.for_enumerate update_cpu_history 0 (cpu_usage r) ;;
   Run.modify (set_memory_history (fun h => push h (percent (memory r)))) ;;
   bytes_sent_per_sec <-
     Run.lift (per_sec (bytes_sent (current_net_io r)) (bytes_sent (prev_net_io st0)) time_diff) ;;
   bytes_recv_per_sec <-
     Run.lift (per_sec (bytes_recv (current_net_io r)) (bytes_recv (prev_net_io st0)) time_diff) ;;
   trim_network ;;
   Run.modify (set_network_sent_history (fun h => h ++ [bytes_sent_per_sec])) ;;
   Run.modify (set_network_recv_history (fun h => h ++ [bytes_recv_per_sec])) ;;
   Run.modify (schedule
     [ update_ui_cpu (cpu_usage r);
       update_ui_memory (memory r);
       update_ui_disk (disk_info r);
       update_ui_network (current_net_io r) bytes_sent_per_sec bytes_recv_per_sec;
       update_ui_system_info;
       update_dashboard (cpu_usage r) (memory r) (current_net_io r)
         bytes_sent_per_sec bytes_recv_per_sec ]) ;;
   st <- Run.get ;;
   (if NOTIFICATIONS_AVAILABLE && enable_notifications (config st)
    then check_thresholds (cpu_usage r) (memory r)
    else Run.ret tt) ;;
   Run.modify (set_prev (current_net_io r) (current_time r)))%run.

(** One pass of the [while self.running] loop: the body under
    [try], and the handler [except Exception as e: print(...)]. *)
Definition update_data_tick (r : reading) (st : state) : state :=
  match update_data_body r st with
  | (Ok _, st') => st'
  | (Raise e, st') => print_error e st'
  end.

(** The loop over the readings of successive passes. *)
Definition update_data (rs : list reading) (st : state) : state :=
  fold_left (fun s r => update_data_tick r s) rs st.

End WithNotifier.

(** [reset_graphs]: every history is replaced by an empty one;
    [ncores] is [len(get_cpu_usage_per_core())]. *)
Definition reset_graphs (ncores : nat) (st : state) : state :=
  set_time_points (fun _ => [])
    (set_network_sent_history (fun _ => [])
       (set_network_recv_history (fun _ => [])
          (set_memory_history (fun _ => [])
             (set_cpu_history (fun _ => replicate ncores []) st)))).

(** [save_settings] of the settings dialog, on the values read from its
    four variables. *)
Definition save_settings (theme : string) (interval history : Z) (notifications : bool)
    (st : state) : state :=
  set_config
    {| current_theme := theme;
       update_interval := interval;
       max_history := history;
       enable_notifications := notifications |} st.

End Gui.

(** ** The unit selection as the specification words it

    [unit_index v] is the smallest [k] in [0..4] such that
    [v / 1024^k < 1024], and [5] when there is none; the text is
    [v / 1024^k] with two decimals followed by the [k]-th unit.  These
    definitions use exact integer arithmetic only; they are what
    [Cli.size_formatter] is compared with. *)

Fixpoint find_unit (candidates : list nat) (v : Z) : nat :=
  match candidates with
  | [] => 5%nat
  | k :: rest => if v <? 1024 * 1024 ^ Z.of_nat k then k else find_unit rest v
  end.

Definition unit_index (v : Z) : nat := find_unit [0; 1; 2; 3; 4]%nat v.

Definition unit_name (k : nat) : string :=
  nth k (Cli.units ++ ["PB"%string]) ""%string.

(** The hundredths of [v / 1024^k], rounded to nearest, ties to even. *)
Definition scaled_hundredths (v : Z) (k : nat) : Z :=
  F64.round_half_even_div (100 * v) (1024 ^ Z.of_nat k).

Definition size_formatter_spec (v : Z) : string :=
  let k := unit_index v in
  String.append (F64.render_hundredths false (scaled_hundredths v k))
    (String " " (unit_name k)).

(** The float that is exactly [z / 1024^j], for [z] of at most 53 bits. *)
Definition scaled_float (z : positive) (j : nat) : F64.float :=
  S754_finite false (F64.normal_mantissa z)
    (Zpos (digits2_pos z) - 53 - 10 * Z.of_nat j).

(** A float divided [k] times by [1024.0], as the loop of
    [Cli.size_formatter] does. *)
Definition scale_1024 (x : F64.float) (k : nat) : F64.float :=
  Nat.iter k (fun y => F64.div y Cli.f1024) x.

(** What the loop [for i, usage in enumerate(cpu_usage)] of the two
    graphical front-ends leaves in [cpu_history], from index [i] on: one
    push per core, up to the first index that has no series. *)
Fixpoint push_each (i : nat) (usages : list F64.float) (hs : list (list F64.float))
    : list (list F64.float) :=
  match usages with
  | [] => hs
  | u :: us =>
      match hs !! i with
      | Some h => push_each (S i) us (<[i := push h u]> hs)
      | None => hs
      end
  end.

(** ** Sample data for the concrete runs *)

Module Sample.

Definition counters (sent : Z) : net_io :=
  {| bytes_sent := sent; bytes_recv := 0; packets_sent := 0; packets_recv := 0 |}.

Definition memory_at (p : Z) : memory_info :=
  {| total := 0; available := 0; percent := F64.of_Z p; used := 0; free := 0 |}.

(** A reading at time [t] (whole seconds) of a one-core machine at
    [load] percent, memory at 50 percent, [sent] bytes sent so far. *)
Definition at_time (t load sent : Z) : reading :=
  {| current_time := F64.of_Z t;
     cpu_usage := [F64.of_Z load];
     memory := memory_at 50;
     disk_info := [];
     current_net_io := counters sent;
     now := "12:00:00" |}.

(** Start-up at time 0 with 1000 bytes already sent. *)
Definition gui0 : Gui.state := Gui.init 1 (counters 1000) (F64.of_Z 0).
Definition basic0 : BasicGui.state := BasicGui.init 1 (counters 1000) (F64.of_Z 0).
Definition cli0 : Cli.state := Cli.main_init (counters 1000) (F64.of_Z 0).

(** The alerting fed with one mean CPU load. *)
Definition feed (st : Gui.state) (load : Z) : Gui.state :=
  snd (Gui.check_thresholds true [F64.of_Z load] (memory_at 50) st).

(** One second after start-up: 3000 bytes and 30 packets sent, 2000 bytes
    and 20 packets received so far. *)
Definition busy : reading :=
  {| current_time := F64.of_Z 1;
     cpu_usage := [F64.of_Z 10];
     memory := memory_at 50;
     disk_info := [];
     current_net_io :=
       {| bytes_sent := 3000; bytes_recv := 2000; packets_sent := 30; packets_recv := 20 |};
     now := "12:00:01" |}.

End Sample.

(** ** Conversions and formats of the panels and widgets *)

Module Text.

(** The tenths of [m * 2^e], correctly rounded: what the format [.1f]
    prints, without the decimal point. *)
Definition tenths (m : positive) (e : Z) : Z :=
  match e with
  | Zneg p => F64.round_half_even_div (Zpos m * 10) (2 ^ Zpos p)
  | _ => Zpos m * 10 * 2 ^ e
  end.

(** A sign and a number of tenths as [-ddd.d]. *)
Definition render_tenths (s : bool) (c : Z) : string :=
  String.append (if s then "-" else "")
    (String.append (F64.digits (c / 10)) (String "." (F64.digits (c mod 10)))).

(** [f"{x:.1f}"] on a float. *)
Definition format_1f (x : F64.float) : string :=
  match x with
  | S754_nan => "nan"
  | S754_infinity s => if s then "-inf" else "inf"
  | S754_zero s => render_tenths s 0
  | S754_finite s m e => render_tenths s (tenths m e)
  end.

(** [int(x)] on a float: the integer part, towards zero.  [None] stands
    for the exception that a NaN ([ValueError]) and an infinity
    ([OverflowError]) raise. *)
Definition int_of_float (x : F64.float) : option Z :=
  match x with
  | S754_nan | S754_infinity _ => None
  | S754_zero _ => Some 0
  | S754_finite s m e =>
      let a :=
        match e with
        | Zneg p => Zpos m / 2 ^ Zpos p
        | _ => Zpos m * 2 ^ e
        end in
      Some (if s then - a else a)
  end.

Fixpoint repeat_string (s : string) (n : nat) : string :=
  match n with
  | O => ""
  | S n' => String.append s (repeat_string s n')
  end.

(** [s * n] on a string: empty when [n] is not positive. *)
Definition str_mul (s : string) (n : Z) : string := repeat_string s (Z.to_nat n).

End Text.

(** ** The other panels of the terminal dashboard, [system_dashboard.py] *)

Module Panels.

(** One entry of [psutil.disk_partitions()]. *)
Record partition : Type := {
  part_device : string;
  part_mountpoint : string;
  part_fstype : string
}.

(** The result of [psutil.disk_usage(mountpoint)]. *)
Record usage : Type := {
  usage_total : Z;
  usage_used : Z;
  usage_free : Z;
  usage_percent : F64.float
}.

(** The truth value of a string: it is not empty. *)
Definition truthy (s : string) : bool :=
  match s with
  | EmptyString => false
  | String _ _ => true
  end.

Section WithProvider.

(** [psutil.disk_usage]: [None] when it raises (a drive that is not
    ready, a mount point that cannot be read). *)
Variable disk_usage : string -> option usage.

(** [get_disk_info()] over the partitions that the provider lists: the
    first failing [disk_usage] ends the call, nothing is caught. *)
Fixpoint get_disk_info (partitions : list partition) : option (list disk) :=
  match partitions with
  | [] => Some []
  | p :: rest =>
      if truthy (part_fstype p)
      then
        match disk_usage (part_mountpoint p) with
        | None => None
        | Some u =>
            match get_disk_info rest with
            | None => None
            | Some ds =>
                Some ({| device := part_device p;
                         mountpoint := part_mountpoint p;
                         fstype := part_fstype p;
                         disk_total := usage_total u;
                         disk_used := usage_used u;
                         disk_free := usage_free u;
                         disk_percent := usage_percent u |} :: ds)
            end
        end
      else get_disk_info rest
  end.

End WithProvider.

(** The string literal that [generate_cpu_table] repeats to draw a bar,
    by its UTF-8 bytes. *)
Definition block : string :=
  string_of_list_ascii (map ascii_of_nat [195; 162; 226; 128; 147; 203; 134]%nat).

(** The loads that the theorems on the CPU table cover: a zero, or a
    positive binary64 number with a full mantissa that is at most 100. *)
Definition percentage (p : F64.float) : Prop :=
  match p with
  | S754_zero _ => True
  | S754_finite false m e =>
      Zpos (digits2_pos m) = 53 /\ -1072 <= e /\ F64.gtb_Z p 100 = false
  | _ => False
  end.

(** A row of the CPU table: the three cells and the style of the bar. *)
Record cpu_row : Type := {
  core_label : string;
  usage_text : string;
  bar : string;
  bar_style : string
}.

(** ["green" if percentage < 50 else "yellow" if percentage < 80 else "red"]. *)
Definition load_color (percentage : F64.float) : string :=
  if F64.ltb_Z percentage 50 then "green"
  else if F64.ltb_Z percentage 80 then "yellow"
  else "red".

(** The body of the loop of [generate_cpu_table]; [None] when [int]
    raises. *)
Definition cpu_table_row (i : nat) (percentage : F64.float) : option cpu_row :=
  match truediv (Float percentage) (Int 2) with
  | Raise _ => None
  | Ok half =>
      match Text.int_of_float half with
      | None => None
      | Some n =>
          Some {| core_label := String.append "Core " (str_int (Z.of_nat i));
                  usage_text := String.append (Text.format_1f percentage) "%";
                  bar := Text.str_mul block n;
                  bar_style := load_color percentage |}
      end
  end.

Fixpoint generate_cpu_table_from (i : nat) (cpu_usage : list F64.float)
    : option (list cpu_row) :=
  match cpu_usage with
  | [] => Some []
  | percentage :: rest =>
      match cpu_table_row i percentage with
      | None => None
      | Some row =>
          match generate_cpu_table_from (S i) rest with
          | None => None
          | Some rows => Some (row :: rows)
          end
      end
  end.

(** [generate_cpu_table(cpu_usage)]: the rows added to the table. *)
Definition generate_cpu_table (cpu_usage : list F64.float) : option (list cpu_row) :=
  generate_cpu_table_from 0 cpu_usage.

(** The two fields of a [timedelta] that the uptime line reads. *)
Record timedelta : Type := {
  days : Z;
  seconds : Z
}.

Definition uptime_hours (uptime : timedelta) : Z := seconds uptime / 3600.

Definition uptime_minutes (uptime : timedelta) : Z := (seconds uptime / 60) mod 60.

(** The uptime line of [generate_system_info] (the two graphical
    front-ends print the same text after ["Uptime: "]). *)
Definition uptime_text (uptime : timedelta) : string :=
  String.append (str_int (days uptime))
    (String.append " days, "
       (String.append (str_int (uptime_hours uptime))
          (String.append " hours, "
             (String.append (str_int (uptime_minutes uptime)) " minutes")))).

End Panels.

(** ** The loop of [size_formatter] on a float

    The number of divisions by [1024.0] that the loop makes over [n] units
    on a positive float of exponent [e] with a full mantissa: the float is
    under 1024 when its exponent is under -42. *)

Fixpoint divisions (n : nat) (e : Z) : nat :=
  match n with
  | O => O
  | S n' => if e <? -42 then O else S (divisions n' (e - 10))
  end.

(** ** The alert state of [check_thresholds] as a transition function

    What one call of [Gui.check_thresholds] does to the two flags and to
    the notifications, for a mean load [avg] and a memory percentage
    [pct]; these are what the method is compared with. *)

Definition raise_alert (N : bool) (n : Gui.notification) (st : Gui.state) : Gui.state :=
  if N then Gui.deliver n st else st.

Definition cpu_transition (N : bool) (avg : F64.float) (st : Gui.state) : Gui.state :=
  if F64.gtb_Z avg 90 && negb (Gui.cpu_notified st)
  then Gui.set_cpu_notified true (raise_alert N Gui.cpu_alert st)
  else if F64.ltb_Z avg 70 && Gui.cpu_notified st
  then Gui.set_cpu_notified false st
  else st.

Definition memory_transition (N : bool) (pct : F64.float) (st : Gui.state) : Gui.state :=
  if F64.gtb_Z pct 85 && negb (Gui.memory_notified st)
  then Gui.set_memory_notified true (raise_alert N Gui.memory_alert st)
  else if F64.ltb_Z pct 75 && Gui.memory_notified st
  then Gui.set_memory_notified false st
  else st.

(** The number of CPU alerts among the notifications delivered so far. *)
Definition cpu_alerts (st : Gui.state) : nat :=
  length (List.filter (fun n => String.eqb (Gui.message n) (Gui.message Gui.cpu_alert))
            (Gui.notified st)).

(** The number of memory alerts among the notifications delivered so far. *)
Definition memory_alerts (st : Gui.state) : nat :=
  length (List.filter (fun n => String.eqb (Gui.message n) (Gui.message Gui.memory_alert))
            (Gui.notified st)).

(** ** What a tick of the feature-rich GUI leaves, in closed form *)

(** The state when the handler of the loop is entered from the loop over
    the cores. *)
Definition gui_after_cpu (r : reading) (st : Gui.state) : Gui.state :=
  Gui.set_cpu_history (fun hs => push_each 0 (cpu_usage r) hs)
    (Gui.set_time_points (fun h => push h (now r)) st).

Definition gui_after_memory (r : reading) (st : Gui.state) : Gui.state :=
  Gui.set_memory_history (fun h => push h (percent (memory r))) (gui_after_cpu r st).

(** The state when the six display updates have been scheduled. *)
Definition gui_after_schedule (r : reading) (x y : F64.float) (st : Gui.state) : Gui.state :=
  Gui.schedule
    [ Gui.update_ui_cpu (cpu_usage r);
      Gui.update_ui_memory (memory r);
      Gui.update_ui_disk (disk_info r);
      Gui.update_ui_network (current_net_io r) x y;
      Gui.update_ui_system_info;
      Gui.update_dashboard (cpu_usage r) (memory r) (current_net_io r) x y ]
    (Gui.set_network_recv_history (fun h => push h y)
       (Gui.set_network_sent_history (fun h => push h x) (gui_after_memory r st))).

Definition gui_tick_spec (N : bool) (r : reading) (st : Gui.state) : Gui.state :=
  let dt := F64.sub (current_time r) (Gui.prev_time st) in
  if (length (cpu_usage r) <=? length (Gui.cpu_history st))%nat
  then
    match per_sec (bytes_sent (current_net_io r)) (bytes_sent (Gui.prev_net_io st)) dt with
    | Raise e => Gui.print_error e (gui_after_memory r st)
    | Ok x =>
        match per_sec (bytes_recv (current_net_io r)) (bytes_recv (Gui.prev_net_io st)) dt with
        | Raise e => Gui.print_error e (gui_after_memory r st)
        | Ok y =>
            let s := gui_after_schedule r x y st in
            if N && Gui.enable_notifications (Gui.config st)
            then
              match mean (cpu_usage r) with
              | Raise e => Gui.print_error e s
              | Ok avg =>
                  Gui.set_prev (current_net_io r) (current_time r)
                    (memory_transition N (percent (memory r)) (cpu_transition N avg s))
              end
            else Gui.set_prev (current_net_io r) (current_time r) s
        end
    end
  else Gui.print_error IndexError (gui_after_cpu r st).

(** The same for the basic GUI, where an exception ends the loop. *)
Definition basic_after_cpu (r : reading) (st : BasicGui.state) : BasicGui.state :=
  BasicGui.set_cpu_history (fun hs => push_each 0 (cpu_usage r) hs)
    (BasicGui.set_time_points (fun h => push h (now r)) st).

Definition basic_after_memory (r : reading) (st : BasicGui.state) : BasicGui.state :=
  BasicGui.set_memory_history (fun h => push h (percent (memory r))) (basic_after_cpu r st).

Definition basic_tick_spec (r : reading) (st : BasicGui.state)
    : result unit * BasicGui.state :=
  let dt := F64.sub (current_time r) (BasicGui.prev_time st) in
  if (length (cpu_usage r) <=? length (BasicGui.cpu_history st))%nat
  then
    match per_sec (bytes_sent (current_net_io r)) (bytes_sent (BasicGui.prev_net_io st)) dt with
    | Raise e => (Raise e, basic_after_memory r st)
    | Ok x =>
        match per_sec (bytes_recv (current_net_io r)) (bytes_recv (BasicGui.prev_net_io st)) dt
        with
        | Raise e => (Raise e, basic_after_memory r st)
        | Ok y =>
            (Ok tt,
             BasicGui.set_prev (current_net_io r) (current_time r)
               (BasicGui.schedule
                  [ BasicGui.update_ui_cpu (cpu_usage r);
                    BasicGui.update_ui_memory (memory r);
                    BasicGui.update_ui_disk (disk_info r);
                    BasicGui.update_ui_network (current_net_io r) x y;
                    BasicGui.update_ui_system_info ]
                  (BasicGui.set_network_recv_history (fun h => push h y)
                     (BasicGui.set_network_sent_history (fun h => push h x)
                        (basic_after_memory r st)))))
        end
    end
  else (Raise IndexError, basic_after_cpu r st).

(** ** A pass of the update loop, provider calls included

    The body of the loop of [update_data] begins with the four provider
    calls ([get_cpu_usage_per_core], [get_memory_info], [get_disk_info],
    [get_network_info]); nothing is written before them.  [Ok r] is a pass
    in which they return the reading [r], [Raise e] a pass in which one of
    them raises [e]. *)

(** The feature-rich GUI: the provider calls stand in the [try], the
    handler prints what they raise and the loop goes on. *)
Definition gui_update_pass (N : bool) (p : result reading) (st : Gui.state) : Gui.state :=
  match p with
  | Ok r => Gui.update_data_tick N r st
  | Raise e => Gui.print_error e st
  end.

Definition gui_update_loop (N : bool) (ps : list (result reading)) (st : Gui.state)
    : Gui.state :=
  fold_left (fun s p => gui_update_pass N p s) ps st.

(** The basic GUI: nothing catches what the provider calls raise. *)
Definition basic_update_pass (p : result reading) : Run.M BasicGui.state unit :=
  match p with
  | Ok r => BasicGui.update_data_tick r
  | Raise e => Run.lift (Raise e)
  end.

Fixpoint basic_update_loop (ps : list (result reading)) : Run.M BasicGui.state unit :=
  match ps with
  | [] => Run.ret tt
  | p :: ps' => (basic_update_pass p ;; basic_update_loop ps')%run
  end.

(** ** The values that a run of passes pushes *)

(** The rates that successive passes derive for one counter, each from
    the reading of the pass before it; [prev] and [t] are the counters and
    the time that the first pass finds. *)
Fixpoint rates (counter : net_io -> Z) (prev : net_io) (t : F64.float) (rs : list reading)
    : list (result F64.float) :=
  match rs with
  | [] => []
  | r :: rs' =>
      per_sec (counter (current_net_io r)) (counter prev) (F64.sub (current_time r) t)
      :: rates counter (current_net_io r) (current_time r) rs'
  end.

(** The loads of core [i] over the readings. *)
Definition loads_of (i : nat) (rs : list reading) : list F64.float :=
  map (fun r => nth i (cpu_usage r) F64.zero) rs.

(** ** Sessions: passes and menu actions, one at a time *)

(** What changes the state of the feature-rich GUI: a pass of the update
    loop, "Reset Graphs" of the View menu, "Save" of the settings dialog. *)
Inductive action : Type :=
| Pass (p : result reading)
| ResetGraphs (ncores : nat)
| SaveSettings (theme : string) (interval history : Z) (notifications : bool).

Definition perform (N : bool) (st : Gui.state) (a : action) : Gui.state :=
  match a with
  | Pass p => gui_update_pass N p st
  | ResetGraphs ncores => Gui.reset_graphs ncores st
  | SaveSettings theme interval history notifications =>
      Gui.save_settings theme interval history notifications st
  end.

(** The action is not a reset of the graphs. *)
Definition no_reset (a : action) : bool :=
  match a with
  | ResetGraphs _ => false
  | _ => true
  end.

(** The actions run one after the other, none of them while a pass of the
    loop is under way. *)
Definition session (N : bool) (actions : list action) (st : Gui.state) : Gui.state :=
  fold_left (perform N) actions st.

(** ** Invariants of the five histories *)

(** Every series holds at most [MAX_HISTORY] values. *)
Definition series_bounded (time_points : list string) (cpu_history : list (list F64.float))
    (memory_history network_sent_history network_recv_history : list F64.float) : Prop :=
  (length time_points <= MAX_HISTORY)%nat
  /\ Forall (fun h => (length h <= MAX_HISTORY)%nat) cpu_history
  /\ (length memory_history <= MAX_HISTORY)%nat
  /\ (length network_sent_history <= MAX_HISTORY)%nat
  /\ (length network_recv_history <= MAX_HISTORY)%nat.

(** No series is longer than the time series, and the two network series
    are not longer than the memory series. *)
Definition series_aligned (time_points : list string) (cpu_history : list (list F64.float))
    (memory_history network_sent_history network_recv_history : list F64.float) : Prop :=
  length network_sent_history = length network_recv_history
  /\ (length network_sent_history <= length memory_history)%nat
  /\ (length memory_history <= length time_points)%nat
  /\ Forall (fun h => (length h <= length time_points)%nat) cpu_history.

Definition gui_bounded (st : Gui.state) : Prop :=
  series_bounded (Gui.time_points st) (Gui.cpu_history st) (Gui.memory_history st)
    (Gui.network_sent_history st) (Gui.network_recv_history st).

Definition gui_aligned (st : Gui.state) : Prop :=
  series_aligned (Gui.time_points st) (Gui.cpu_history st) (Gui.memory_history st)
    (Gui.network_sent_history st) (Gui.network_recv_history st).

Definition basic_bounded (st : BasicGui.state) : Prop :=
  series_bounded (BasicGui.time_points st) (BasicGui.cpu_history st) (BasicGui.memory_history st)
    (BasicGui.network_sent_history st) (BasicGui.network_recv_history st).

Definition basic_aligned (st : BasicGui.state) : Prop :=
  series_aligned (BasicGui.time_points st) (BasicGui.cpu_history st) (BasicGui.memory_history st)
    (BasicGui.network_sent_history st) (BasicGui.network_recv_history st).

(** ** The CSV export of the feature-rich GUI, [export_to_csv] *)

Module Csv.

(** The dialog that ends the export. *)
Inductive dialog : Type :=
| showinfo_export_successful
| showerror_export_failed (e : exn).

Definition header : list string :=
  [ "Timestamp"; "CPU Avg %"; "Memory %"; "Network Send (B/s)"; "Network Receive (B/s)" ]%string.

(** [for i in range(n)] from index [i] on. *)
Fixpoint for_range {St : Type} (body : nat -> Run.M St unit) (i n : nat) : Run.M St unit :=
  match n with
  | O => Run.ret tt
  | S n' => Run.bind (body i) (fun _ => for_range body (S i) n')
  end.

(** [writer.writerow(row)]: the rows handed to the writer so far are the
    state. *)
Definition writerow (row : list string) : Run.M (list (list string)) unit :=
  Run.modify (fun rows => rows ++ [row]).

(** The generator [history[i] for history in cpu_data if i < len(history)]. *)
Definition cpu_column (i : nat) (cpu_data : list (list F64.float)) : list F64.float :=
  omap (fun history => history !! i) cpu_data.

(** [sum(...) / len(cpu_data)]: the sum of no value is the [int] 0, and
    [0 / n] is [0.0] for every [n] but 0. *)
Definition avg_cpu (i : nat) (cpu_data : list (list F64.float)) : result F64.float :=
  match cpu_column i cpu_data with
  | [] =>
      match cpu_data with
      | [] => Raise ZeroDivisionError
      | _ => Ok F64.zero
      end
  | column => truediv (Float (py_sum column)) (Int (Z.of_nat (length cpu_data)))
  end.

(** [h[i] if i < len(h) else 0]. *)
Definition item_or_0 (h : list F64.float) (i : nat) : num :=
  match h !! i with
  | Some x => Float x
  | None => Int 0
  end.

(** The row written for index [i]; [clock] is the formatted time that
    [datetime.now()] would give. *)
Definition csv_row (clock : string) (st : Gui.state) (i : nat) : result (list string) :=
  let timestamp :=
    match Gui.time_points st !! i with
    | Some t => t
    | None => clock
    end in
  (avg <- avg_cpu i (Gui.cpu_history st) ;;
   cpu_text <- format_2f (Float avg) ;;
   memory_text <- format_2f (item_or_0 (Gui.memory_history st) i) ;;
   send_text <- format_2f (item_or_0 (Gui.network_sent_history st) i) ;;
   recv_text <- format_2f (item_or_0 (Gui.network_recv_history st) i) ;;
   Ok [timestamp; cpu_text; memory_text; send_text; recv_text])%py.

(** The text of a cell [h[i] if i < len(h) else 0] under [.2f]. *)
Definition cell (h : list F64.float) (i : nat) : string :=
  match h !! i with
  | Some x => F64.format_2f x
  | None => "0.00"
  end.

(** The body of the [with open(...)] block. *)
Definition write_csv (clock : nat -> string) (st : Gui.state)
    : Run.M (list (list string)) unit :=
  (writerow header ;;
   for_range
     (fun i => row <- Run.lift (csv_row (clock i) st i) ;; writerow row)
     0 (length (Gui.memory_history st)))%run.

(** [export_to_csv]: [None] when the file dialog is cancelled; otherwise
    the rows that the file holds and the dialog shown.  The file is opened
    for writing before the first row: it exists, and holds what was written
    before an exception.  This is the export on a file system on which
    nothing fails; [export_to_csv_on] below has the failures of [open], of
    the writes and of the closing. *)
Definition export_to_csv (filename : string) (clock : nat -> string) (st : Gui.state)
    : option (list (list string) * dialog) :=
  if Panels.truthy filename
  then
    match write_csv clock st [] with
    | (Ok _, rows) => Some (rows, showinfo_export_successful)
    | (Raise e, rows) => Some (rows, showerror_export_failed e)
    end
  else None.

(** The file system as the export meets it: what [open(filename, 'w')]
    raises, if anything, what the write of the [k]-th row raises (the
    header is row 0), and what closing the file raises. *)
Record file_system : Type := {
  open_file : string -> result unit;
  write_row : nat -> result unit;
  close_file : result unit
}.

(** A file system on which nothing fails. *)
Definition healthy : file_system :=
  {| open_file := fun _ => Ok tt; write_row := fun _ => Ok tt; close_file := Ok tt |}.

(** [writer.writerow(row)] on such a file system. *)
Definition writerow_on (fs : file_system) (row : list string)
    : Run.M (list (list string)) unit :=
  (rows <- Run.get ;;
   Run.lift (write_row fs (length rows)) ;;
   Run.modify (fun rows => rows ++ [row]))%run.

Definition write_csv_on (fs : file_system) (clock : nat -> string) (st : Gui.state)
    : Run.M (list (list string)) unit :=
  (writerow_on fs header ;;
   for_range
     (fun i => row <- Run.lift (csv_row (clock i) st i) ;; writerow_on fs row)
     0 (length (Gui.memory_history st)))%run.

(** [export_to_csv] on such a file system: [open], every [writerow] and
    the closing of the file at the end of the [with] block stand in the
    [try]; whatever is raised there ends in the failure dialog.  When the
    block is left on an exception and the closing raises too, the
    exception of the closing is the one that reaches the handler. *)
Definition export_to_csv_on (fs : file_system) (filename : string) (clock : nat -> string)
    (st : Gui.state) : option (list (list string) * dialog) :=
  if Panels.truthy filename
  then
    match open_file fs filename with
    | Raise e => Some ([], showerror_export_failed e)
    | Ok _ =>
        match write_csv_on fs clock st [], close_file fs with
        | (Ok _, rows), Ok _ => Some (rows, showinfo_export_successful)
        | (Raise e, rows), Ok _ => Some (rows, showerror_export_failed e)
        | (_, rows), Raise e => Some (rows, showerror_export_failed e)
        end
    end
  else None.

End Csv.

(** ** The exception that ends a tick, if any *)

(** [not l] on a list. *)
Definition is_empty {A : Type} (l : list A) : bool :=
  match l with
  | [] => true
  | _ :: _ => false
  end.

(** The integer cannot be converted to a float: [float(z)] raises
    [OverflowError]. *)
Definition too_large (z : Z) : bool :=
  match float_of_int z with
  | Raise _ => true
  | Ok _ => false
  end.

(** What the handler of the loop of the feature-rich GUI prints for a
    reading, in the order in which the body can raise: an index past the
    last CPU series, the conversion of the difference of the send counters,
    the division by a zero elapsed time, the conversion of the difference
    of the receive counters, and in the alerting the mean of no load at
    all or of more loads than a float can count. *)
Definition gui_tick_error (N : bool) (r : reading) (st : Gui.state) : option exn :=
  if negb (length (cpu_usage r) <=? length (Gui.cpu_history st))%nat
  then Some IndexError
  else if too_large (bytes_sent (current_net_io r) - bytes_sent (Gui.prev_net_io st))
  then Some OverflowError
  else if F64.is_zero (F64.sub (current_time r) (Gui.prev_time st))
  then Some ZeroDivisionError
  else if too_large (bytes_recv (current_net_io r) - bytes_recv (Gui.prev_net_io st))
  then Some OverflowError
  else if N && Gui.enable_notifications (Gui.config st)
  then
    if is_empty (cpu_usage r) then Some ZeroDivisionError
    else if too_large (Z.of_nat (length (cpu_usage r))) then Some OverflowError
    else None
  else None.

(** What the handler prints for a pass: what a provider call raised,
    or the exception of the body. *)
Definition gui_pass_error (N : bool) (p : result reading) (st : Gui.state) : option exn :=
  match p with
  | Raise e => Some e
  | Ok r => gui_tick_error N r st
  end.

(** The exception that ends the update thread of the basic GUI. *)
Definition basic_tick_error (r : reading) (st : BasicGui.state) : option exn :=
  if negb (length (cpu_usage r) <=? length (BasicGui.cpu_history st))%nat
  then Some IndexError
  else if too_large (bytes_sent (current_net_io r) - bytes_sent (BasicGui.prev_net_io st))
  then Some OverflowError
  else if F64.is_zero (F64.sub (current_time r) (BasicGui.prev_time st))
  then Some ZeroDivisionError
  else if too_large (bytes_recv (current_net_io r) - bytes_recv (BasicGui.prev_net_io st))
  then Some OverflowError
  else None.

Definition basic_pass_error (p : result reading) (st : BasicGui.state) : option exn :=
  match p with
  | Raise e => Some e
  | Ok r => basic_tick_error r st
  end.

(** ** More sample data *)

Module Cases.

(** A reading at time [t] of a machine that reports the loads [loads],
    memory at [pct] percent, [sent] bytes sent so far. *)
Definition reading_of (t : Z) (loads : list Z) (pct sent : Z) : reading :=
  {| current_time := F64.of_Z t;
     cpu_usage := map F64.of_Z loads;
     memory := Sample.memory_at pct;
     disk_info := [];
     current_net_io := Sample.counters sent;
     now := "12:00:00" |}.

End Cases.

(** ** The update thread with its pause

    [update_data] ends every pass of its loop with
    [time.sleep(self.update_interval)], outside the [try]: when the call
    raises, nothing catches it and the thread ends. *)

Section WithSleep.

(** [time.sleep(interval)] returns.  The library decides: it raises
    [ValueError] on a negative length and [OverflowError] on a length that
    its clock cannot hold; below that, the platform's clock can still
    refuse the deadline ([OSError]). *)
Variable sleep_returns : Z -> bool.

(** The passes of the loop; the boolean tells whether the thread is still
    alive after them. *)
Fixpoint update_thread (N : bool) (ps : list (result reading)) (st : Gui.state)
    : Gui.state * bool :=
  match ps with
  | [] => (st, true)
  | p :: ps' =>
      let st' := gui_update_pass N p st in
      if sleep_returns (Gui.update_interval (Gui.config st'))
      then update_thread N ps' st'
      else (st', false)
  end.

End WithSleep.

(** ** The splash screen of the feature-rich GUI *)

Module Splash.

(** The literal [0.02]: the binary64 number [0x1.47ae147ae147bp-6]. *)
Definition step : F64.float := S754_finite false 5764607523034235 (-58).

(** What a call of [animate_progress] schedules. *)
Inductive scheduled : Type :=
| after_10_animate_progress
| after_500_destroy.

(** [self.progress_value < 1]. *)
Definition below_one (progress_value : num) : bool :=
  match progress_value with
  | Int z => z <? 1
  | Float f => F64.ltb_Z f 1
  end.

(** [self.progress_value += 0.02]. *)
Definition advance (progress_value : num) : result F64.float :=
  (x <- to_float progress_value ;; Ok (F64.add x step))%py.

(** One call of [animate_progress]: the new [progress_value], the value
    handed to [progress.set] if any, and what is scheduled. *)
Definition animate_progress (progress_value : num)
    : result (num * option F64.float * scheduled) :=
  if below_one progress_value
  then (v <- advance progress_value ;; Ok (Float v, Some v, after_10_animate_progress))%py
  else Ok (progress_value, None, after_500_destroy).

(** The calls that follow one another through [after(10, ...)], at most
    [fuel] of them: the values set on the bar, and whether the window was
    scheduled for destruction. *)
Fixpoint run (fuel : nat) (progress_value : num) : result (list F64.float * bool) :=
  match fuel with
  | O => Ok ([], false)
  | S fuel' =>
      (out <- animate_progress progress_value ;;
       match out with
       | (pv, Some v, _) =>
           rest <- run fuel' pv ;; Ok (v :: fst rest, snd rest)
       | (_, None, _) => Ok ([], true)
       end)%py
  end.

End Splash.

(** ** The CPU tab of the feature-rich GUI, [update_ui_cpu] *)

Module CpuTab.

(** The widgets that [update_ui_cpu] writes: the value of every progress
    bar, the text of every label, the lines of the graph with their
    labels, and whether the legend is shown. *)
Record widgets : Type := {
  cpu_bars : list F64.float;
  cpu_labels : list string;
  plotted : list (string * list F64.float);
  legend : bool
}.

Definition set_cpu_bars (f : list F64.float -> list F64.float) (w : widgets) : widgets :=
  {| cpu_bars := f (cpu_bars w);
     cpu_labels := cpu_labels w;
     plotted := plotted w;
     legend := legend w |}.

Definition set_cpu_labels (f : list string -> list string) (w : widgets) : widgets :=
  {| cpu_bars := cpu_bars w;
     cpu_labels := f (cpu_labels w);
     plotted := plotted w;
     legend := legend w |}.

Definition set_graph (lines : list (string * list F64.float)) (shown : bool) (w : widgets)
    : widgets :=
  {| cpu_bars := cpu_bars w;
     cpu_labels := cpu_labels w;
     plotted := lines;
     legend := shown |}.

(** [f"Core {i}"]. *)
Definition core_name (i : nat) : string := String.append "Core " (str_int (Z.of_nat i)).

(** [f"Core {i}: {usage:.1f}%"]. *)
Definition label_text (i : nat) (usage : F64.float) : string :=
  String.append (core_name i)
    (String.append ": " (String.append (Text.format_1f usage) "%")).

(** The body of the loop over the loads: the guard protects the index
    into [cpu_bars], and [cpu_labels] is indexed with the same [i]. *)
Definition update_bar (i : nat) (usage : F64.float) : Run.M widgets unit :=
  (w <- Run.get ;;
   if (i <? length (cpu_bars w))%nat
   then
     (v <- Run.lift (truediv (Float usage) (Int 100)) ;;
      Run.modify (set_cpu_bars (fun bars => <[i := v]> bars)) ;;
      match cpu_labels w !! i with
      | None => Run.lift (Raise IndexError)
      | Some _ => Run.modify (set_cpu_labels (fun labels => <[i := label_text i usage]> labels))
      end)
   else Run.ret tt)%run.

(** The lines plotted: one per series that is not empty, from index [i]. *)
Fixpoint lines_from (i : nat) (cpu_history : list (list F64.float))
    : list (string * list F64.float) :=
  match cpu_history with
  | [] => []
  | history :: rest =>
      if is_empty history then lines_from (S i) rest
      else (core_name i, history) :: lines_from (S i) rest
  end.

(** [update_ui_cpu(cpu_usage)], for the histories that [self] holds when
    the event loop runs the call.  [has_graph] is
    [hasattr(self, 'cpu_subplot') and hasattr(self, 'cpu_canvas')]: the
    window has a graph when matplotlib could be imported.  The graph is
    cleared, then drawn again. *)
Definition update_ui_cpu (has_graph : bool) (cpu_history : list (list F64.float))
    (cpu_usage : list F64.float) : Run.M widgets unit :=
  (Run.for_enumerate update_bar 0 cpu_usage ;;
   if has_graph
   then Run.modify (set_graph (lines_from 0 cpu_history) (length cpu_history <=? 8)%nat)
   else Run.ret tt)%run.

End CpuTab.

(** ** The two graphical front-ends side by side *)

(** The basic GUI and the feature-rich GUI hold the same histories and
    the same previous reading. *)
Definition same_series (b : BasicGui.state) (g : Gui.state) : Prop :=
  BasicGui.time_points b = Gui.time_points g
  /\ BasicGui.cpu_history b = Gui.cpu_history g
  /\ BasicGui.memory_history b = Gui.memory_history g
  /\ BasicGui.network_sent_history b = Gui.network_sent_history g
  /\ BasicGui.network_recv_history b = Gui.network_recv_history g
  /\ BasicGui.prev_net_io b = Gui.prev_net_io g
  /\ BasicGui.prev_time b = Gui.prev_time g.

(** * Facts about binary64 arithmetic *)

Lemma binary_round_aux_sign s m e l :
  F64.has_sign s (binary_round_aux F64.prec F64.emax s m e l).
Proof.
  unfold binary_round_aux.
  destruct (shr_fexp _ _ m e l) as [mrs' e'].
  destruct (shr_fexp _ _ _ e' loc_Exact) as [mrs'' e''].
  destruct (shr_m mrs''); simpl; trivial.
  destruct (e'' <=? _); simpl; trivial.
Qed.

Lemma of_Z_sign z : 0 <= z -> F64.has_sign false (F64.of_Z z).
Proof.
  intros Hz. unfold F64.of_Z, binary_normalize.
  destruct z as [|p|p]; [reflexivity | | lia].
  unfold binary_round. destruct (shl_align _ _ _) as [mz ez].
  apply binary_round_aux_sign.
Qed.

Lemma float_of_int_sign z x : 0 <= z -> float_of_int z = Ok x -> F64.has_sign false x.
Proof.
  intros Hz. unfold float_of_int. generalize (of_Z_sign z Hz).
  destruct (F64.of_Z z); intros Hs [= <-]; exact Hs.
Qed.

(** Dividing a float that is not negative by a positive one gives a
    float that is not negative. *)
Lemma div_sign x y :
  F64.has_sign false x -> F64.ltb F64.zero y = true -> F64.has_sign false (F64.div x y).
Proof.
  intros Hx Hy.
  destruct y as [sy|sy| |sy my ey]; try discriminate Hy;
    destruct sy; try discriminate Hy;
    destruct x as [sx|sx| |sx mx ex]; simpl in Hx; subst; try exact I; try reflexivity.
  unfold F64.div, SFdiv.
  destruct (SFdiv_core_binary _ _ _ _ _ _) as [[mz ez] lz].
  apply binary_round_aux_sign.
Qed.

Lemma sign_false_not_negative x : F64.has_sign false x -> F64.ltb x F64.zero = false.
Proof. destruct x as [s|s| |s m e]; simpl; intros H; subst; reflexivity. Qed.

Lemma positive_not_zero y : F64.ltb F64.zero y = true -> F64.is_zero y = false.
Proof. destruct y as [s|s| |s m e]; simpl; intros H; try reflexivity; discriminate. Qed.


(** ** Bit lengths *)

Lemma digits2_pos_size p : digits2_pos p = Pos.size p.
Proof. induction p; simpl; congruence. Qed.

Lemma digits2_pos_le p n : 0 <= n -> Zpos p < 2 ^ n -> Zpos (digits2_pos p) <= n.
Proof.
  intros Hn Hp. rewrite digits2_pos_size.
  destruct (Z_le_gt_dec (Zpos (Pos.size p)) n) as [H|H]; [exact H|exfalso].
  pose proof (Pos.size_le p) as Hle.
  apply Pos2Z.pos_le_pos in Hle. rewrite Pos2Z.inj_pow in Hle.
  assert (H0 : 2 ^ (n + 1) <= 2 ^ Zpos (Pos.size p)) by (apply Z.pow_le_mono_r; lia).
  rewrite Z.pow_add_r, Z.pow_1_r in H0 by lia.
  change (Z.pos p~0) with (2 * Z.pos p) in Hle. lia.
Qed.

Lemma digits2_pos_gt p : Zpos p < 2 ^ Zpos (digits2_pos p).
Proof.
  rewrite digits2_pos_size. pose proof (Pos.size_gt p) as H.
  apply Pos2Z.pos_lt_pos in H. rewrite Pos2Z.inj_pow in H. exact H.
Qed.

Lemma digits2_pos_iter_xO (m q : positive) :
  Zpos (digits2_pos (Pos.iter xO m q)) = Zpos (digits2_pos m) + Zpos q.
Proof.
  induction q using Pos.peano_ind.
  - simpl. lia.
  - rewrite Pos.iter_succ. simpl digits2_pos. lia.
Qed.

Lemma iter_xO_value (m q : positive) : Zpos (Pos.iter xO m q) = Zpos m * 2 ^ Zpos q.
Proof.
  induction q using Pos.peano_ind.
  - simpl. lia.
  - rewrite Pos.iter_succ, Pos2Z.inj_succ, Z.pow_succ_r by lia.
    change (Z.pos (Pos.iter xO m q)~0) with (2 * Z.pos (Pos.iter xO m q)).
    rewrite IHq. lia.
Qed.

(** ** Operations that are exact *)

(** A 53-bit mantissa at an exponent in range needs no rounding. *)
Lemma round_aux_exact (s : bool) (m : positive) (e : Z) :
  Zpos (digits2_pos m) = 53 -> -1074 <= e <= 971 ->
  binary_round_aux F64.prec F64.emax s (Zpos m) e loc_Exact = S754_finite s m e.
Proof.
  intros Hd He.
  unfold binary_round_aux, shr_fexp. cbn [Zdigits2 shr_record_of_loc].
  rewrite Hd.
  assert (Hf : fexp F64.prec F64.emax (53 + e) - e = 0).
  { unfold fexp, emin, F64.prec, F64.emax. lia. }
  rewrite Hf. cbn [shr shr_m loc_of_shr_record round_nearest_even Zdigits2].
  rewrite Hd, Hf. cbn [shr shr_m].
  replace (e <=? F64.emax - F64.prec) with true; [reflexivity|].
  symmetry. apply Z.leb_le. unfold F64.emax, F64.prec. lia.
Qed.

(** A mantissa of at most 53 bits is only shifted into place. *)
Lemma binary_round_exact (s : bool) (z : positive) :
  Zpos (digits2_pos z) <= 53 ->
  binary_round F64.prec F64.emax s z 0 =
  S754_finite s (F64.normal_mantissa z) (Zpos (digits2_pos z) - 53).
Proof.
  intros Hd. unfold binary_round, F64.normal_mantissa.
  assert (Hf : fexp F64.prec F64.emax (Zpos (digits2_pos z) + 0) = Zpos (digits2_pos z) - 53).
  { unfold fexp, emin, F64.prec, F64.emax. lia. }
  rewrite Hf. unfold shl_align.
  replace (Zpos (digits2_pos z) - 53 - 0) with (- (53 - Zpos (digits2_pos z))) by lia.
  destruct (53 - Zpos (digits2_pos z)) as [|q|q] eqn:Hq; cbn [Z.opp].
  - replace (Zpos (digits2_pos z) - 53) with 0 by lia.
    apply round_aux_exact; lia.
  - apply round_aux_exact.
    + rewrite digits2_pos_iter_xO. lia.
    + lia.
  - lia.
Qed.

(** An integer of at most 53 bits converts without rounding. *)
Lemma of_Z_exact (z : positive) :
  Zpos (digits2_pos z) <= 53 ->
  F64.of_Z (Zpos z) =
  S754_finite false (F64.normal_mantissa z) (Zpos (digits2_pos z) - 53).
Proof. apply binary_round_exact. Qed.

Lemma normal_mantissa_digits (z : positive) :
  Zpos (digits2_pos z) <= 53 -> Zpos (digits2_pos (F64.normal_mantissa z)) = 53.
Proof.
  intros Hd. unfold F64.normal_mantissa.
  destruct (53 - Zpos (digits2_pos z)) as [|q|q] eqn:Hq.
  - lia.
  - rewrite digits2_pos_iter_xO. lia.
  - lia.
Qed.

Lemma normal_mantissa_value (z : positive) :
  Zpos (digits2_pos z) <= 53 ->
  Zpos (F64.normal_mantissa z) = Zpos z * 2 ^ (53 - Zpos (digits2_pos z)).
Proof.
  intros Hd. unfold F64.normal_mantissa.
  destruct (53 - Zpos (digits2_pos z)) as [|q|q] eqn:Hq.
  - simpl. lia.
  - apply iter_xO_value.
  - lia.
Qed.

(** Dividing a normal float by [1024.0] only lowers the exponent. *)
Lemma div_1024_exact (s : bool) (m : positive) (e : Z) :
  Zpos (digits2_pos m) = 53 -> -1063 <= e <= 981 ->
  F64.div (S754_finite s m e) Cli.f1024 = S754_finite s m (e - 10).
Proof.
  intros Hd He.
  change Cli.f1024 with (S754_finite false 4503599627370496 (-42)).
  unfold F64.div, SFdiv, SFdiv_core_binary. cbn [Zdigits2]. rewrite Hd.
  change (Zpos (digits2_pos 4503599627370496)) with 53.
  assert (Hf : Z.min (fexp F64.prec F64.emax (53 + e - (53 + -42))) (e - -42) = e - 11).
  { unfold fexp, emin, F64.prec, F64.emax. lia. }
  rewrite Hf.
  replace (e - -42 - (e - 11)) with 53 by lia.
  cbv iota.
  assert (Hdiv : Z.div_eucl (Z.shiftl (Zpos m) 53) 4503599627370496 = (Zpos m~0, 0)).
  { rewrite Z.shiftl_mul_pow2 by lia.
    generalize (Z.div_eucl_eq (Zpos m * 2 ^ 53) 4503599627370496 ltac:(lia)).
    generalize (Z.mod_pos_bound (Zpos m * 2 ^ 53) 4503599627370496 ltac:(lia)).
    unfold Z.modulo, Z.div.
    destruct (Z.div_eucl (Zpos m * 2 ^ 53) 4503599627370496) as [q r].
    intros Hr Hqr. change (2 ^ 53) with (2 * 4503599627370496) in Hqr.
    assert (q = 2 * Zpos m) by nia. assert (r = 0) by nia. subst. reflexivity. }
  rewrite Hdiv, xorb_false_r.
  change (new_location 4503599627370496 0) with loc_Exact.
  unfold binary_round_aux, shr_fexp. cbn [Zdigits2 shr_record_of_loc digits2_pos].
  rewrite Pos2Z.inj_succ, Hd.
  assert (Hf1 : fexp F64.prec F64.emax (Z.succ 53 + (e - 11)) - (e - 11) = 1).
  { unfold fexp, emin, F64.prec, F64.emax. lia. }
  rewrite Hf1.
  cbn [shr SpecFloat.iter_pos shr_1 shr_m loc_of_shr_record orb round_nearest_even Zdigits2].
  rewrite Hd.
  assert (Hf2 : fexp F64.prec F64.emax (53 + (e - 11 + 1)) - (e - 11 + 1) = 0).
  { unfold fexp, emin, F64.prec, F64.emax. lia. }
  rewrite Hf2. cbn [shr shr_m].
  replace (e - 11 + 1 <=? F64.emax - F64.prec) with true.
  - f_equal. lia.
  - symmetry. apply Z.leb_le. unfold F64.emax, F64.prec. lia.
Qed.

(** ** Conversion of an integer of any size *)

Lemma digits2_pos_lower (p : positive) : 2 ^ (Zpos (digits2_pos p) - 1) <= Zpos p.
Proof.
  rewrite digits2_pos_size. pose proof (Pos.size_le p) as Hle.
  apply Pos2Z.pos_le_pos in Hle. rewrite Pos2Z.inj_pow in Hle.
  change (Z.pos p~0) with (2 * Z.pos p) in Hle.
  replace (Zpos (Pos.size p)) with (Z.succ (Zpos (Pos.size p) - 1)) in Hle by lia.
  rewrite Z.pow_succ_r in Hle by lia. lia.
Qed.

Lemma digits2_pos_eq (p : positive) (n : Z) :
  2 ^ (n - 1) <= Zpos p < 2 ^ n -> Zpos (digits2_pos p) = n.
Proof.
  intros [Hlo Hhi].
  assert (Hn : 0 <= n).
  { destruct (Z_lt_le_dec n 0) as [H|H]; [|exact H].
    rewrite Z.pow_neg_r in Hhi by exact H. lia. }
  pose proof (digits2_pos_le p n Hn Hhi) as Hle.
  pose proof (digits2_pos_gt p) as Hgt.
  destruct (Z_lt_le_dec (Zpos (digits2_pos p)) n) as [H|H]; [exfalso|lia].
  assert (2 ^ Zpos (digits2_pos p) <= 2 ^ (n - 1)) by (apply Z.pow_le_mono_r; lia).
  lia.
Qed.

Lemma shr_1_m (mrs : shr_record) :
  0 <= shr_m mrs -> shr_m (shr_1 mrs) = shr_m mrs / 2.
Proof.
  destruct mrs as [m r s]. cbn [shr_m]. intros Hm. unfold shr_1.
  destruct m as [|[p|p|]|p]; cbn [shr_m]; [reflexivity | | | reflexivity | lia].
  - change (Z.pos p~1) with (2 * Z.pos p + 1).
    apply Z.div_unique with (r := 1); lia.
  - change (Z.pos p~0) with (2 * Z.pos p).
    apply Z.div_unique with (r := 0); lia.
Qed.

Lemma shr_m_iter (p : positive) (mrs : shr_record) :
  0 <= shr_m mrs ->
  shr_m (SpecFloat.iter_pos shr_1 p mrs) = shr_m mrs / 2 ^ Zpos p.
Proof.
  revert mrs. induction p as [p IH|p IH|]; intros mrs Hm; cbn [SpecFloat.iter_pos];
    try assert (Hpow : 0 < 2 ^ Zpos p) by (apply Z.pow_pos_nonneg; lia).
  - assert (H1 : 0 <= shr_m (shr_1 mrs)) by (rewrite shr_1_m by exact Hm; apply Z.div_pos; lia).
    assert (H2 : 0 <= shr_m (SpecFloat.iter_pos shr_1 p (shr_1 mrs)))
      by (rewrite IH by exact H1; apply Z.div_pos; [exact H1 | exact Hpow]).
    rewrite IH by exact H2. rewrite IH by exact H1. rewrite shr_1_m by exact Hm.
    rewrite !Z.div_div by lia.
    f_equal. replace (Zpos p~1) with (Zpos p + Zpos p + 1) by lia.
    rewrite !Z.pow_add_r, Z.pow_1_r by lia. lia.
  - assert (H2 : 0 <= shr_m (SpecFloat.iter_pos shr_1 p mrs))
      by (rewrite IH by exact Hm; apply Z.div_pos; [exact Hm | exact Hpow]).
    rewrite IH by exact H2. rewrite IH by exact Hm.
    rewrite Z.div_div by lia.
    f_equal. replace (Zpos p~0) with (Zpos p + Zpos p) by lia.
    rewrite Z.pow_add_r by lia. reflexivity.
  - rewrite shr_1_m by exact Hm. reflexivity.
Qed.

Lemma round_nearest_even_bounds (m : Z) (l : location) :
  m <= round_nearest_even m l <= m + 1.
Proof.
  unfold round_nearest_even.
  destruct l as [|[| |]]; [| destruct (Z.even m) | |]; lia.
Qed.

(** A mantissa of more than 53 and at most 1023 bits rounds to a normal
    float: a 53-bit mantissa, at an exponent one above the minimal one
    when the rounding carries. *)
Lemma binary_round_large (s : bool) (z : positive) :
  53 < Zpos (digits2_pos z) <= 1023 ->
  exists m e,
    binary_round F64.prec F64.emax s z 0 = S754_finite s m e
    /\ Zpos (digits2_pos m) = 53
    /\ Zpos (digits2_pos z) - 53 <= e <= Zpos (digits2_pos z) - 52.
Proof.
  intros Hd. set (d := Zpos (digits2_pos z)) in *.
  unfold binary_round.
  assert (Hf : fexp F64.prec F64.emax (d + 0) = d - 53).
  { unfold fexp, emin, F64.prec, F64.emax. lia. }
  fold d. rewrite Hf. unfold shl_align.
  destruct (d - 53 - 0) as [|q|q] eqn:Hq; try lia.
  unfold binary_round_aux. unfold shr_fexp at 1. cbn [Zdigits2]. fold d. rewrite Hf.
  replace (d - 53 - 0) with (Zpos q) by lia. cbn [shr shr_record_of_loc].
  set (mrs := SpecFloat.iter_pos shr_1 q _).
  assert (Hm1 : shr_m mrs = Zpos z / 2 ^ Zpos q).
  { unfold mrs. rewrite shr_m_iter by (cbn; lia). reflexivity. }
  assert (Hpow : 0 < 2 ^ Zpos q) by (apply Z.pow_pos_nonneg; lia).
  assert (Hzlo : 2 ^ 52 * 2 ^ Zpos q <= Zpos z).
  { rewrite <- Z.pow_add_r by lia. replace (52 + Zpos q) with (d - 1) by lia.
    apply digits2_pos_lower. }
  assert (Hzhi : Zpos z < 2 ^ 53 * 2 ^ Zpos q).
  { rewrite <- Z.pow_add_r by lia. replace (53 + Zpos q) with d by lia.
    apply digits2_pos_gt. }
  assert (Hlo : 2 ^ 52 <= shr_m mrs)
    by (rewrite Hm1; apply Z.div_le_lower_bound; lia).
  assert (Hhi : shr_m mrs < 2 ^ 53)
    by (rewrite Hm1; apply Z.div_lt_upper_bound; lia).
  pose proof (round_nearest_even_bounds (shr_m mrs) (loc_of_shr_record mrs)) as Hr.
  set (m2 := round_nearest_even (shr_m mrs) (loc_of_shr_record mrs)) in *.
  destruct m2 as [|p2|p2] eqn:Hm2; try lia.
  destruct (Z_lt_le_dec (Zpos p2) (2 ^ 53)) as [Hlt|Hge].
  - assert (Hd2 : Zpos (digits2_pos p2) = 53) by (apply digits2_pos_eq; lia).
    unfold shr_fexp. cbn [Zdigits2 shr_record_of_loc]. rewrite Hd2.
    assert (Hf2 : fexp F64.prec F64.emax (53 + (0 + Zpos q)) - (0 + Zpos q) = 0).
    { unfold fexp, emin, F64.prec, F64.emax. lia. }
    rewrite Hf2. cbn [shr shr_m].
    replace (0 + Zpos q <=? F64.emax - F64.prec) with true
      by (symmetry; apply Z.leb_le; unfold F64.emax, F64.prec; lia).
    exists p2, (0 + Zpos q). split; [reflexivity|]. split; [exact Hd2 | lia].
  - assert (Hp2 : p2 = 9007199254740992%positive).
    { apply Pos2Z.inj. change (Zpos 9007199254740992) with (2 ^ 53). lia. }
    subst p2.
    unfold shr_fexp. cbn [Zdigits2 shr_record_of_loc].
    change (Zpos (digits2_pos 9007199254740992)) with 54.
    assert (Hf2 : fexp F64.prec F64.emax (54 + (0 + Zpos q)) - (0 + Zpos q) = 1).
    { unfold fexp, emin, F64.prec, F64.emax. lia. }
    rewrite Hf2. cbn [shr SpecFloat.iter_pos shr_1 shr_m].
    replace (0 + Zpos q + 1 <=? F64.emax - F64.prec) with true
      by (symmetry; apply Z.leb_le; unfold F64.emax, F64.prec; lia).
    exists 4503599627370496%positive, (0 + Zpos q + 1).
    split; [reflexivity|]. split; [reflexivity | lia].
Qed.

(** Every mantissa below [2^1023] rounds to a normal float. *)
Lemma binary_round_normal (s : bool) (z : positive) :
  Zpos (digits2_pos z) <= 1023 ->
  exists m e,
    binary_round F64.prec F64.emax s z 0 = S754_finite s m e
    /\ Zpos (digits2_pos m) = 53
    /\ Zpos (digits2_pos z) - 53 <= e <= Zpos (digits2_pos z) - 52.
Proof.
  intros Hd. destruct (Z_le_gt_dec (Zpos (digits2_pos z)) 53) as [H|H].
  - exists (F64.normal_mantissa z), (Zpos (digits2_pos z) - 53).
    split; [apply binary_round_exact, H|]. split; [apply normal_mantissa_digits, H | lia].
  - apply binary_round_large. lia.
Qed.

(** Every positive integer below [2^1023] converts to a normal float. *)
Lemma of_Z_normal (z : positive) :
  Zpos (digits2_pos z) <= 1023 ->
  exists m e,
    F64.of_Z (Zpos z) = S754_finite false m e
    /\ Zpos (digits2_pos m) = 53
    /\ Zpos (digits2_pos z) - 53 <= e <= Zpos (digits2_pos z) - 52.
Proof. apply binary_round_normal. Qed.

Lemma float_of_int_ok (z : Z) :
  - 2 ^ 1023 < z < 2 ^ 1023 -> exists x, float_of_int z = Ok x.
Proof.
  intros [H0 H1]. unfold float_of_int, F64.of_Z, binary_normalize.
  destruct z as [|p|p]; [eexists; reflexivity | |].
  - destruct (binary_round_normal false p) as (m & e & -> & _);
      [apply digits2_pos_le; lia|].
    eexists; reflexivity.
  - destruct (binary_round_normal true p) as (m & e & -> & _);
      [apply digits2_pos_le; lia|].
    eexists; reflexivity.
Qed.

(** * Rate derivation *)

(** C1 (as amended): for counters that did not decrease and a positive
    elapsed time, the rate [(curr - prev) / elapsed] that the code computes
    is the rate [max(0, curr - prev) / elapsed] of the specification; it is
    never negative, and it is produced (nothing is raised) for a difference
    below [2^1023]. *)
Theorem C1_rate_of_monotone_counters (prev curr : Z) (elapsed : F64.float) :
  prev <= curr ->
  F64.ltb F64.zero elapsed = true ->
  per_sec curr prev elapsed = per_sec_clamped curr prev elapsed
  /\ (forall r, per_sec curr prev elapsed = Ok r -> F64.ltb r F64.zero = false)
  /\ (curr - prev < 2 ^ 1023 -> exists r, per_sec curr prev elapsed = Ok r).
Proof.
  intros Hle Hpos. split; [|split].
  - unfold per_sec, per_sec_clamped. f_equal. f_equal. lia.
  - intros r. unfold per_sec, truediv. cbn [to_float Py.bind].
    destruct (float_of_int (curr - prev)) as [x|e] eqn:Hx; cbn [Py.bind]; [|discriminate].
    rewrite (positive_not_zero _ Hpos). intros [= <-].
    apply sign_false_not_negative, div_sign; [|exact Hpos].
    apply (float_of_int_sign (curr - prev)); [lia | exact Hx].
  - intros Hsmall. unfold per_sec, truediv. cbn [to_float Py.bind].
    destruct (float_of_int_ok (curr - prev)) as [x ->]; [lia|]. cbn [Py.bind].
    rewrite (positive_not_zero _ Hpos). eexists; reflexivity.
Qed.

Lemma C1_rate_of_monotone_counters_witness :
  1000 <= 3000
  /\ F64.ltb F64.zero (F64.of_Z 1) = true
  /\ per_sec 3000 1000 (F64.of_Z 1) = per_sec_clamped 3000 1000 (F64.of_Z 1)
  /\ F64.ltb (F64.of_Z 2000) F64.zero = false.
Proof.
  assert (H1 : 1000 <= 3000) by lia.
  assert (H2 : F64.ltb F64.zero (F64.of_Z 1) = true) by reflexivity.
  destruct (C1_rate_of_monotone_counters 1000 3000 (F64.of_Z 1) H1 H2) as (E & Hsign & _).
  split; [exact H1 | split; [exact H2 | split; [exact E | apply Hsign; reflexivity]]].
Defined.

(** C1 (as stated) fails when a counter decreases: the reading 3000 then
    500 one second later gives the rate -2500.0, where the clamp of the
    specification would give 0. *)
Lemma C1_counterexample :
  per_sec 500 3000 (F64.of_Z 1) = Ok (F64.of_Z (-2500))
  /\ F64.ltb (F64.of_Z (-2500)) F64.zero = true
  /\ per_sec_clamped 500 3000 (F64.of_Z 1) = Ok F64.zero
  /\ Gui.network_sent_history
       (Gui.update_data_tick true (Sample.at_time 1 10 500)
          (Gui.init 1 (Sample.counters 3000) (F64.of_Z 0))) = [F64.of_Z (-2500)]
  /\ (table <- Cli.generate_network_table (Sample.counters 3000) (Sample.counters 500)
                 (F64.of_Z 1) ;;
      Ok (nth 0 table []))%py = Ok ["Bytes Sent"; "500.00 B"; "-2500.00 B/s"]%string.
Proof. repeat split; reflexivity. Qed.



Lemma per_sec_nonzero_elapsed (curr prev : Z) (dt : F64.float) :
  F64.is_zero dt = false ->
  per_sec curr prev dt = (x <- float_of_int (curr - prev) ;; Ok (F64.div x dt))%py.
Proof.
  intros Hz. unfold per_sec, truediv. cbn [to_float].
  destruct (float_of_int (curr - prev)) as [x|e]; cbn [Py.bind]; [rewrite Hz|]; reflexivity.
Qed.

(** * Bounded histories *)

Lemma push_length {A : Type} (h : list A) (v : A) :
  length (push h v) =
  if (MAX_HISTORY <=? length h)%nat then length h else S (length h).
Proof.
  unfold push. rewrite length_app. cbn [length].
  destruct (Nat.leb_spec MAX_HISTORY (length h)) as [H|H].
  - rewrite length_drop. unfold MAX_HISTORY in H. lia.
  - lia.
Qed.

Lemma push_length_le {A : Type} (h : list A) (v : A) :
  (length h <= MAX_HISTORY)%nat -> (length (push h v) <= MAX_HISTORY)%nat.
Proof.
  intros H. rewrite push_length.
  destruct (Nat.leb_spec MAX_HISTORY (length h)); lia.
Qed.

(** A push onto a series within its capacity keeps the last values. *)
Lemma push_drop {A : Type} (h : list A) (v : A) :
  (length h <= MAX_HISTORY)%nat ->
  push h v = drop (length (h ++ [v]) - MAX_HISTORY) (h ++ [v]).
Proof.
  intros H. unfold push. rewrite length_app. cbn [length].
  destruct (Nat.leb_spec MAX_HISTORY (length h)) as [H'|H'].
  - replace (length h + 1 - MAX_HISTORY)%nat with 1%nat by lia.
    rewrite drop_app_le; [reflexivity|]. unfold MAX_HISTORY in H'. lia.
  - replace (length h + 1 - MAX_HISTORY)%nat with 0%nat by lia. reflexivity.
Qed.

Lemma fold_push_drop {A : Type} (vs h : list A) :
  (length h <= MAX_HISTORY)%nat ->
  fold_left push vs h = drop (length (h ++ vs) - MAX_HISTORY) (h ++ vs).
Proof.
  revert h. induction vs as [|v vs IH]; intros h Hh.
  - cbn [fold_left]. rewrite app_nil_r.
    replace (length h - MAX_HISTORY)%nat with 0%nat by lia. reflexivity.
  - cbn [fold_left]. rewrite IH by (apply push_length_le, Hh).
    rewrite (push_drop h v Hh).
    set (d := (length (h ++ [v]) - MAX_HISTORY)%nat).
    assert (Hd : (d <= length (h ++ [v]))%nat) by (unfold d; lia).
    rewrite <- (drop_app_le (h ++ [v]) vs d Hd).
    rewrite <- app_assoc. cbn [app].
    rewrite drop_drop. f_equal.
    rewrite length_drop.
    assert (Hl : length (h ++ v :: vs) = (length (h ++ [v]) + length vs)%nat).
    { rewrite !length_app. cbn [length]. lia. }
    unfold d in *. rewrite Hl. rewrite length_app in *. cbn [length] in *. lia.
Qed.

(** * The update loops: what a tick writes *)

(** ** Steps of a method body *)

Lemma bind_get {St B : Type} (k : St -> Run.M St B) (s : St) :
  Run.bind Run.get k s = k s s.
Proof. reflexivity. Qed.

Lemma bind_modify {St B : Type} (f : St -> St) (k : unit -> Run.M St B) (s : St) :
  Run.bind (Run.modify f) k s = k tt (f s).
Proof. reflexivity. Qed.

Lemma bind_ret {St A B : Type} (a : A) (k : A -> Run.M St B) (s : St) :
  Run.bind (Run.ret a) k s = k a s.
Proof. reflexivity. Qed.

Lemma bind_lift {St A B : Type} (r : result A) (k : A -> Run.M St B) (s : St) :
  Run.bind (Run.lift r) k s =
  match r with
  | Ok a => k a s
  | Raise e => (Raise e, s)
  end.
Proof. destruct r; reflexivity. Qed.

(** A step whose outcome is known. *)
Lemma bind_outcome {St A B : Type} (c : Run.M St A) (k : A -> Run.M St B) (s s' : St)
    (r : result A) :
  c s = (r, s') ->
  Run.bind c k s =
  match r with
  | Ok a => k a s'
  | Raise e => (Raise e, s')
  end.
Proof. intros H. unfold Run.bind. rewrite H. reflexivity. Qed.

Ltac run_step :=
  first [ rewrite bind_get | rewrite bind_modify | rewrite bind_ret | rewrite bind_lift ];
  cbv beta.

(** ** The feature-rich GUI *)

(** The loop over the cores of the feature-rich GUI. *)
Lemma gui_cpu_loop_state (l : list F64.float) (i : nat) (st : Gui.state) :
  snd (Run.for_enumerate Gui.update_cpu_history i l st) =
  Gui.set_cpu_history (fun _ => push_each i l (Gui.cpu_history st)) st.
Proof.
  revert i st. induction l as [|u l IH]; intros i st.
  - destruct st; reflexivity.
  - cbn [Run.for_enumerate push_each]. unfold Run.bind at 1.
    unfold Gui.update_cpu_history at 1. run_step.
    destruct (Gui.cpu_history st !! i) as [h|] eqn:Hh.
    + unfold Run.modify at 1. cbv beta iota. rewrite IH. reflexivity.
    + unfold Run.lift. destruct st; reflexivity.
Qed.

Lemma gui_cpu_loop_ok (l : list F64.float) (i : nat) (st : Gui.state) :
  (i + length l <= length (Gui.cpu_history st))%nat ->
  fst (Run.for_enumerate Gui.update_cpu_history i l st) = Ok tt.
Proof.
  revert i st. induction l as [|u l IH]; intros i st Hlen.
  - reflexivity.
  - cbn [Run.for_enumerate length] in *. unfold Run.bind at 1.
    unfold Gui.update_cpu_history at 1. run_step.
    destruct (lookup_lt_is_Some_2 (Gui.cpu_history st) i ltac:(lia)) as [h Hh].
    rewrite Hh. unfold Run.modify at 1. cbv beta iota.
    apply IH. cbn [Gui.cpu_history Gui.set_cpu_history].
    rewrite length_insert. lia.
Qed.

Lemma gui_cpu_loop (l : list F64.float) (st : Gui.state) :
  (length l <= length (Gui.cpu_history st))%nat ->
  Run.for_enumerate Gui.update_cpu_history 0 l st =
  (Ok tt, Gui.set_cpu_history (fun _ => push_each 0 l (Gui.cpu_history st)) st).
Proof.
  intros Hlen.
  rewrite <- (gui_cpu_loop_state l 0 st), <- (gui_cpu_loop_ok l 0 st) by (cbn; lia).
  destruct (Run.for_enumerate _ _ _ _); reflexivity.
Qed.

(** The alerting writes the two flags and the notifications only. *)
Lemma gui_check_thresholds_frame (N : bool) (cpu : list F64.float) (mem : memory_info)
    (st : Gui.state) :
  let st' := snd (Gui.check_thresholds N cpu mem st) in
  Gui.cpu_history st' = Gui.cpu_history st
  /\ Gui.memory_history st' = Gui.memory_history st
  /\ Gui.network_recv_history st' = Gui.network_recv_history st
  /\ Gui.network_sent_history st' = Gui.network_sent_history st
  /\ Gui.time_points st' = Gui.time_points st
  /\ Gui.scheduled st' = Gui.scheduled st
  /\ Gui.printed st' = Gui.printed st
  /\ Gui.config st' = Gui.config st.
Proof.
  unfold Gui.check_thresholds, Gui.notify.
  unfold Run.bind, Run.lift, Run.get, Run.modify, Run.ret.
  destruct (mean cpu) as [avg|e]; [|repeat split].
  destruct (F64.gtb_Z avg 90), (Gui.cpu_notified st), (F64.ltb_Z avg 70), N;
    cbn;
    destruct (F64.gtb_Z (percent mem) 85), (Gui.memory_notified st),
      (F64.ltb_Z (percent mem) 75);
    cbn; repeat split.
Qed.

(** The trimming of the two network series, when they are equally long. *)
Lemma gui_trim_network (st : Gui.state) :
  length (Gui.network_sent_history st) = length (Gui.network_recv_history st) ->
  let full := (MAX_HISTORY <=? length (Gui.network_sent_history st))%nat in
  Gui.trim_network st =
  (Ok tt,
   Gui.set_network_recv_history (fun h => if full then drop 1 h else h)
     (Gui.set_network_sent_history (fun h => if full then drop 1 h else h) st)).
Proof.
  intros Hlen full. unfold Gui.trim_network. run_step. fold full.
  destruct (Nat.leb_spec MAX_HISTORY (length (Gui.network_sent_history st))) as [H|H];
    subst full; cbv iota.
  - destruct (Gui.network_sent_history st) as [|s0 sent] eqn:Hs;
      [cbn in H; unfold MAX_HISTORY in H; lia|].
    destruct (Gui.network_recv_history st) as [|r0 recv] eqn:Hr; [discriminate Hlen|].
    run_step. cbn [pop0]. run_step.
    run_step. unfold Run.lift, Run.modify.
    destruct st; cbn in *; subst; reflexivity.
  - unfold Run.ret. destruct st; reflexivity.
Qed.

(** The end of a tick of the feature-rich GUI, from the alerting on: the
    series and the scheduled calls are those reached before it. *)
Ltac gui_finish_tick N Q Hlen :=
  unfold Run.bind at 1;
  match goal with
  | |- context [ (if ?c then Gui.check_thresholds N ?u ?m else Run.ret tt) ?s ] =>
      let Hframe := fresh "Hframe" in
      assert (Hframe :
        let st' := snd ((if c then Gui.check_thresholds N u m else Run.ret tt) s) in
        Gui.cpu_history st' = Gui.cpu_history s
        /\ Gui.memory_history st' = Gui.memory_history s
        /\ Gui.network_recv_history st' = Gui.network_recv_history s
        /\ Gui.network_sent_history st' = Gui.network_sent_history s
        /\ Gui.time_points st' = Gui.time_points s
        /\ Gui.scheduled st' = Gui.scheduled s
        /\ Gui.printed st' = Gui.printed s
        /\ Gui.config st' = Gui.config s)
        by (destruct c; [apply gui_check_thresholds_frame | repeat split]);
      destruct ((if c then Gui.check_thresholds N u m else Run.ret tt) s) as [[[]|?] ?];
      cbn [snd] in Hframe;
      let Hc := fresh in let Hm := fresh in let Hr := fresh in
      let Hs := fresh in let Ht := fresh in let Hsch := fresh in
      destruct Hframe as (Hc & Hm & Hr & Hs & Ht & Hsch & _);
      subst Q; cbv beta; unfold Run.modify;
      cbn [Gui.time_points Gui.cpu_history Gui.memory_history Gui.network_sent_history
           Gui.network_recv_history Gui.scheduled Gui.set_prev Gui.print_error];
      rewrite ?Hc, ?Hm, ?Hr, ?Hs, ?Ht, ?Hsch;
      cbn [Gui.time_points Gui.cpu_history Gui.memory_history Gui.network_sent_history
           Gui.network_recv_history Gui.scheduled Gui.schedule Gui.set_time_points
           Gui.set_cpu_history Gui.set_memory_history Gui.set_network_sent_history
           Gui.set_network_recv_history];
      unfold push; try rewrite <- Hlen
  end.

(** A tick of the feature-rich GUI whose rates are computed: every series
    receives its push, and the six display updates are scheduled. *)
Lemma gui_tick_ok (N : bool) (r : reading) (st : Gui.state) (x y : F64.float) :
  (length (cpu_usage r) <= length (Gui.cpu_history st))%nat ->
  per_sec (bytes_sent (current_net_io r)) (bytes_sent (Gui.prev_net_io st))
    (F64.sub (current_time r) (Gui.prev_time st)) = Ok x ->
  per_sec (bytes_recv (current_net_io r)) (bytes_recv (Gui.prev_net_io st))
    (F64.sub (current_time r) (Gui.prev_time st)) = Ok y ->
  length (Gui.network_sent_history st) = length (Gui.network_recv_history st) ->
  let st' := Gui.update_data_tick N r st in
  Gui.time_points st' = push (Gui.time_points st) (now r)
  /\ Gui.cpu_history st' = push_each 0 (cpu_usage r) (Gui.cpu_history st)
  /\ Gui.memory_history st' = push (Gui.memory_history st) (percent (memory r))
  /\ Gui.network_sent_history st' = push (Gui.network_sent_history st) x
  /\ Gui.network_recv_history st' = push (Gui.network_recv_history st) y
  /\ Gui.scheduled st' =
     Gui.scheduled st ++
     [ Gui.update_ui_cpu (cpu_usage r);
       Gui.update_ui_memory (memory r);
       Gui.update_ui_disk (disk_info r);
       Gui.update_ui_network (current_net_io r) x y;
       Gui.update_ui_system_info;
       Gui.update_dashboard (cpu_usage r) (memory r) (current_net_io r) x y ].
Proof.
  intros Hcpu Hx Hy Hlen st'. subst st'.
  pattern (Gui.update_data_tick N r st).
  match goal with |- ?P _ => set (Q := P) end.
  unfold Gui.update_data_tick, Gui.update_data_body.
  run_step. cbv zeta. run_step.
  erewrite bind_outcome by (apply gui_cpu_loop; exact Hcpu).
  run_step. run_step. rewrite Hx.
  run_step. rewrite Hy.
  erewrite bind_outcome by (apply gui_trim_network; exact Hlen).
  run_step. run_step. run_step. run_step.
  gui_finish_tick N Q Hlen; repeat split.
Qed.

(** Whatever happens in a tick of the feature-rich GUI, the two network
    series are left as they were or receive one push each. *)
Lemma gui_tick_network (N : bool) (r : reading) (st : Gui.state) :
  length (Gui.network_sent_history st) = length (Gui.network_recv_history st) ->
  let st' := Gui.update_data_tick N r st in
  (Gui.network_sent_history st' = Gui.network_sent_history st
   /\ Gui.network_recv_history st' = Gui.network_recv_history st)
  \/ (exists x y,
        Gui.network_sent_history st' = push (Gui.network_sent_history st) x
        /\ Gui.network_recv_history st' = push (Gui.network_recv_history st) y).
Proof.
  intros Hlen st'. subst st'.
  pattern (Gui.update_data_tick N r st).
  match goal with |- ?P _ => set (Q := P) end.
  unfold Gui.update_data_tick, Gui.update_data_body.
  run_step. cbv zeta. run_step.
  pose proof (gui_cpu_loop_state (cpu_usage r) 0
                (Gui.set_time_points (fun h => push h (now r)) st)) as Hstate.
  destruct (Run.for_enumerate Gui.update_cpu_history 0 (cpu_usage r) _) as [res s2] eqn:Hloop.
  cbn [snd] in Hstate. subst s2.
  erewrite bind_outcome by exact Hloop.
  destruct res as [[]|e]; [|subst Q; left; split; reflexivity].
  run_step. run_step.
  destruct (per_sec (bytes_sent _) _ _) as [x|e]; [|subst Q; left; split; reflexivity].
  run_step.
  destruct (per_sec (bytes_recv _) _ _) as [y|e]; [|subst Q; left; split; reflexivity].
  erewrite bind_outcome by (apply gui_trim_network; exact Hlen).
  run_step. run_step. run_step. run_step.
  gui_finish_tick N Q Hlen; right; exists x, y; split; reflexivity.
Qed.

(** ** The time series *)

(** The trimming only writes the two network series. *)
Lemma gui_trim_network_frame (st : Gui.state) :
  exists res sent recv,
    Gui.trim_network st =
    (res, Gui.set_network_recv_history (fun _ => recv)
            (Gui.set_network_sent_history (fun _ => sent) st)).
Proof.
  unfold Gui.trim_network. run_step.
  destruct (MAX_HISTORY <=? length (Gui.network_sent_history st))%nat.
  - run_step. destruct (pop0 (Gui.network_sent_history st)) as [sent|e].
    + run_step. run_step.
      cbn [Gui.network_recv_history Gui.set_network_sent_history].
      destruct (pop0 (Gui.network_recv_history st)) as [recv|e].
      * exists (Ok tt), sent, recv. reflexivity.
      * exists (Raise e), sent, (Gui.network_recv_history st).
        destruct st; reflexivity.
    + exists (Raise e), (Gui.network_sent_history st), (Gui.network_recv_history st).
      destruct st; reflexivity.
  - exists (Ok tt), (Gui.network_sent_history st), (Gui.network_recv_history st).
    destruct st; reflexivity.
Qed.

(** The time series receives its push in every tick, whatever happens
    afterwards. *)
Lemma gui_tick_time_points (N : bool) (r : reading) (st : Gui.state) :
  Gui.time_points (Gui.update_data_tick N r st) = push (Gui.time_points st) (now r).
Proof.
  pattern (Gui.update_data_tick N r st).
  match goal with |- ?P _ => set (Q := P) end.
  unfold Gui.update_data_tick, Gui.update_data_body.
  run_step. cbv zeta. run_step.
  pose proof (gui_cpu_loop_state (cpu_usage r) 0
                (Gui.set_time_points (fun h => push h (now r)) st)) as Hstate.
  destruct (Run.for_enumerate Gui.update_cpu_history 0 (cpu_usage r) _) as [res s2] eqn:Hloop.
  cbn [snd] in Hstate. subst s2.
  erewrite bind_outcome by exact Hloop.
  destruct res as [[]|e]; [|subst Q; reflexivity].
  run_step. run_step.
  destruct (per_sec (bytes_sent _) _ _) as [x|e]; [|subst Q; reflexivity].
  run_step.
  destruct (per_sec (bytes_recv _) _ _) as [y|e]; [|subst Q; reflexivity].
  match goal with
  | |- context [Run.bind Gui.trim_network _ ?s] =>
      destruct (gui_trim_network_frame s) as (res & sent & recv & Htrim)
  end.
  erewrite bind_outcome by exact Htrim.
  destruct res as [[]|e]; [|subst Q; reflexivity].
  run_step. run_step. run_step. run_step.
  gui_finish_tick N Q (eq_refl (length (Gui.network_sent_history st))); reflexivity.
Qed.

Lemma gui_update_data_time_points (N : bool) (rs : list reading) (st : Gui.state) :
  Gui.time_points (Gui.update_data N rs st) =
  fold_left push (map now rs) (Gui.time_points st).
Proof.
  revert st. induction rs as [|r rs IH]; intros st; [reflexivity|].
  cbn [Gui.update_data fold_left map].
  change (fold_left (fun s r0 => Gui.update_data_tick N r0 s) rs (Gui.update_data_tick N r st))
    with (Gui.update_data N rs (Gui.update_data_tick N r st)).
  rewrite IH, gui_tick_time_points. reflexivity.
Qed.

(** ** The basic GUI *)

Lemma basic_cpu_loop_state (l : list F64.float) (i : nat) (st : BasicGui.state) :
  snd (Run.for_enumerate BasicGui.update_cpu_history i l st) =
  BasicGui.set_cpu_history (fun _ => push_each i l (BasicGui.cpu_history st)) st.
Proof.
  revert i st. induction l as [|u l IH]; intros i st.
  - destruct st; reflexivity.
  - cbn [Run.for_enumerate push_each]. unfold Run.bind at 1.
    unfold BasicGui.update_cpu_history at 1. run_step.
    destruct (BasicGui.cpu_history st !! i) as [h|] eqn:Hh.
    + unfold Run.modify at 1. cbv beta iota. rewrite IH. reflexivity.
    + unfold Run.lift. destruct st; reflexivity.
Qed.

Lemma basic_cpu_loop_ok (l : list F64.float) (i : nat) (st : BasicGui.state) :
  (i + length l <= length (BasicGui.cpu_history st))%nat ->
  fst (Run.for_enumerate BasicGui.update_cpu_history i l st) = Ok tt.
Proof.
  revert i st. induction l as [|u l IH]; intros i st Hlen.
  - reflexivity.
  - cbn [Run.for_enumerate length] in *. unfold Run.bind at 1.
    unfold BasicGui.update_cpu_history at 1. run_step.
    destruct (lookup_lt_is_Some_2 (BasicGui.cpu_history st) i ltac:(lia)) as [h Hh].
    rewrite Hh. unfold Run.modify at 1. cbv beta iota.
    apply IH. cbn [BasicGui.cpu_history BasicGui.set_cpu_history].
    rewrite length_insert. lia.
Qed.

Lemma basic_cpu_loop (l : list F64.float) (st : BasicGui.state) :
  (length l <= length (BasicGui.cpu_history st))%nat ->
  Run.for_enumerate BasicGui.update_cpu_history 0 l st =
  (Ok tt, BasicGui.set_cpu_history (fun _ => push_each 0 l (BasicGui.cpu_history st)) st).
Proof.
  intros Hlen.
  rewrite <- (basic_cpu_loop_state l 0 st), <- (basic_cpu_loop_ok l 0 st) by (cbn; lia).
  destruct (Run.for_enumerate _ _ _ _); reflexivity.
Qed.

Lemma basic_trim_network (st : BasicGui.state) :
  length (BasicGui.network_sent_history st) = length (BasicGui.network_recv_history st) ->
  let full := (MAX_HISTORY <=? length (BasicGui.network_sent_history st))%nat in
  BasicGui.trim_network st =
  (Ok tt,
   BasicGui.set_network_recv_history (fun h => if full then drop 1 h else h)
     (BasicGui.set_network_sent_history (fun h => if full then drop 1 h else h) st)).
Proof.
  intros Hlen full. unfold BasicGui.trim_network. run_step. fold full.
  destruct (Nat.leb_spec MAX_HISTORY (length (BasicGui.network_sent_history st))) as [H|H];
    subst full; cbv iota.
  - destruct (BasicGui.network_sent_history st) as [|s0 sent] eqn:Hs;
      [cbn in H; unfold MAX_HISTORY in H; lia|].
    destruct (BasicGui.network_recv_history st) as [|r0 recv] eqn:Hr; [discriminate Hlen|].
    run_step. cbn [pop0]. run_step.
    run_step. unfold Run.lift, Run.modify.
    destruct st; cbn in *; subst; reflexivity.
  - unfold Run.ret. destruct st; reflexivity.
Qed.

(** A tick of the basic GUI whose rates are computed completes; every
    series receives its push, the five display updates are scheduled and
    the reading becomes the previous one. *)
Lemma basic_tick_ok (r : reading) (st : BasicGui.state) (x y : F64.float) :
  (length (cpu_usage r) <= length (BasicGui.cpu_history st))%nat ->
  per_sec (bytes_sent (current_net_io r)) (bytes_sent (BasicGui.prev_net_io st))
    (F64.sub (current_time r) (BasicGui.prev_time st)) = Ok x ->
  per_sec (bytes_recv (current_net_io r)) (bytes_recv (BasicGui.prev_net_io st))
    (F64.sub (current_time r) (BasicGui.prev_time st)) = Ok y ->
  length (BasicGui.network_sent_history st) = length (BasicGui.network_recv_history st) ->
  BasicGui.update_data_tick r st =
  (Ok tt,
   {| BasicGui.cpu_history := push_each 0 (cpu_usage r) (BasicGui.cpu_history st);
      BasicGui.memory_history := push (BasicGui.memory_history st) (percent (memory r));
      BasicGui.network_recv_history := push (BasicGui.network_recv_history st) y;
      BasicGui.network_sent_history := push (BasicGui.network_sent_history st) x;
      BasicGui.time_points := push (BasicGui.time_points st) (now r);
      BasicGui.prev_net_io := current_net_io r;
      BasicGui.prev_time := current_time r;
      BasicGui.scheduled :=
        BasicGui.scheduled st ++
        [ BasicGui.update_ui_cpu (cpu_usage r);
          BasicGui.update_ui_memory (memory r);
          BasicGui.update_ui_disk (disk_info r);
          BasicGui.update_ui_network (current_net_io r) x y;
          BasicGui.update_ui_system_info ] |}).
Proof.
  intros Hcpu Hx Hy Hlen.
  unfold BasicGui.update_data_tick.
  run_step. cbv zeta. run_step.
  erewrite bind_outcome by (apply basic_cpu_loop; exact Hcpu).
  run_step. run_step. rewrite Hx.
  run_step. rewrite Hy.
  erewrite bind_outcome by (apply basic_trim_network; exact Hlen).
  run_step. run_step. run_step. unfold Run.modify.
  cbn [BasicGui.time_points BasicGui.cpu_history BasicGui.memory_history
       BasicGui.network_sent_history BasicGui.network_recv_history BasicGui.scheduled
       BasicGui.prev_net_io BasicGui.prev_time
       BasicGui.set_prev BasicGui.schedule BasicGui.set_time_points
       BasicGui.set_cpu_history BasicGui.set_memory_history
       BasicGui.set_network_sent_history BasicGui.set_network_recv_history].
  unfold push. rewrite <- Hlen. reflexivity.
Qed.


(** ** The invariant of the two network series *)

Lemma push_same_length {A : Type} (h1 h2 : list A) (x y : A) :
  length h1 = length h2 -> length (push h1 x) = length (push h2 y).
Proof. intros H. rewrite !push_length, H. reflexivity. Qed.

Lemma gui_tick_equal_length (N : bool) (r : reading) (st : Gui.state) :
  length (Gui.network_sent_history st) = length (Gui.network_recv_history st) ->
  length (Gui.network_sent_history (Gui.update_data_tick N r st)) =
  length (Gui.network_recv_history (Gui.update_data_tick N r st)).
Proof.
  intros Hlen.
  destruct (gui_tick_network N r st Hlen) as [[-> ->]|(x & y & -> & ->)].
  - exact Hlen.
  - apply push_same_length, Hlen.
Qed.





(** * Reset *)

Lemma push_each_fresh (l : list F64.float) (done : list (list F64.float)) :
  push_each (length done) l (done ++ replicate (length l) []) =
  done ++ map (fun u => [u]) l.
Proof.
  revert done. induction l as [|u l IH]; intros done.
  - cbn. reflexivity.
  - cbn [push_each length replicate map].
    rewrite list_lookup_middle by reflexivity.
    rewrite insert_app_r_alt, Nat.sub_diag by lia. cbn [insert list_insert].
    change (push [] u) with [u].
    rewrite (cons_middle [u] done), app_assoc.
    specialize (IH (done ++ [[u]])).
    rewrite length_app in IH. cbn [length] in IH.
    replace (length done + 1)%nat with (S (length done)) in IH by lia.
    rewrite IH, <- app_assoc. reflexivity.
Qed.

(** C8: after [reset_graphs] every series is empty (there is one CPU series
    per core); a push into an empty series gives a series of length 1, and
    so does the next tick for every series, when it reads one load per core
    and its two rates are computed. *)
Theorem C8_reset_then_push (N : bool) (ncores : nat) (st : Gui.state) (r : reading)
    (x y : F64.float) :
  length (cpu_usage r) = ncores ->
  per_sec (bytes_sent (current_net_io r)) (bytes_sent (Gui.prev_net_io st))
    (F64.sub (current_time r) (Gui.prev_time st)) = Ok x ->
  per_sec (bytes_recv (current_net_io r)) (bytes_recv (Gui.prev_net_io st))
    (F64.sub (current_time r) (Gui.prev_time st)) = Ok y ->
  let st0 := Gui.reset_graphs ncores st in
  let st1 := Gui.update_data_tick N r st0 in
  (length (Gui.cpu_history st0) = ncores
   /\ Forall (fun h => length h = 0%nat) (Gui.cpu_history st0)
   /\ length (Gui.memory_history st0) = 0%nat
   /\ length (Gui.network_sent_history st0) = 0%nat
   /\ length (Gui.network_recv_history st0) = 0%nat
   /\ length (Gui.time_points st0) = 0%nat)
  /\ (forall (A : Type) (v : A), length (push [] v) = 1%nat)
  /\ (length (Gui.cpu_history st1) = ncores
      /\ Forall (fun h => length h = 1%nat) (Gui.cpu_history st1)
      /\ length (Gui.memory_history st1) = 1%nat
      /\ length (Gui.network_sent_history st1) = 1%nat
      /\ length (Gui.network_recv_history st1) = 1%nat
      /\ length (Gui.time_points st1) = 1%nat).
Proof.
  intros Hcores Hx Hy st0 st1. split; [|split].
  - cbn. rewrite length_replicate. repeat split.
    apply Forall_replicate. reflexivity.
  - reflexivity.
  - destruct (gui_tick_ok N r st0 x y) as (Ht & Hc & Hm & Hs & Hr & _).
    + cbn. rewrite length_replicate. lia.
    + exact Hx.
    + exact Hy.
    + reflexivity.
    + fold st1 in Ht, Hc, Hm, Hs, Hr. rewrite Ht, Hc, Hm, Hs, Hr.
      cbn [st0 Gui.reset_graphs Gui.cpu_history Gui.memory_history
           Gui.network_sent_history Gui.network_recv_history Gui.time_points
           Gui.set_time_points Gui.set_cpu_history Gui.set_memory_history
           Gui.set_network_sent_history Gui.set_network_recv_history].
      rewrite <- Hcores.
      pose proof (push_each_fresh (cpu_usage r) []) as Hfresh.
      cbn [app length] in Hfresh. rewrite Hfresh.
      rewrite length_map. repeat split.
      apply Forall_map, Forall_forall. intros u _. reflexivity.
Qed.

Lemma C8_reset_then_push_witness :
  let st := Gui.update_data_tick true (Sample.at_time 1 10 3000) Sample.gui0 in
  let r := Sample.at_time 2 20 4000 in
  length (cpu_usage r) = 1%nat
  /\ per_sec (bytes_sent (current_net_io r)) (bytes_sent (Gui.prev_net_io st))
       (F64.sub (current_time r) (Gui.prev_time st)) = Ok (F64.of_Z 1000)
  /\ per_sec (bytes_recv (current_net_io r)) (bytes_recv (Gui.prev_net_io st))
       (F64.sub (current_time r) (Gui.prev_time st)) = Ok F64.zero
  /\ Gui.cpu_history (Gui.reset_graphs 1 st) = [[]]
  /\ Gui.cpu_history (Gui.update_data_tick true r (Gui.reset_graphs 1 st)) = [[F64.of_Z 20]]
  /\ length (Gui.network_sent_history (Gui.update_data_tick true r (Gui.reset_graphs 1 st)))
     = 1%nat.
Proof.
  intros st r.
  assert (H1 : length (cpu_usage r) = 1%nat) by reflexivity.
  assert (H2 : per_sec (bytes_sent (current_net_io r)) (bytes_sent (Gui.prev_net_io st))
                 (F64.sub (current_time r) (Gui.prev_time st)) = Ok (F64.of_Z 1000))
    by reflexivity.
  assert (H3 : per_sec (bytes_recv (current_net_io r)) (bytes_recv (Gui.prev_net_io st))
                 (F64.sub (current_time r) (Gui.prev_time st)) = Ok F64.zero)
    by reflexivity.
  destruct (C8_reset_then_push true 1 st r _ _ H1 H2 H3) as (_ & _ & _ & _ & _ & Hs & _).
  split; [exact H1 | split; [exact H2 | split; [exact H3 |]]].
  split; [reflexivity | split; [reflexivity | exact Hs]].
Defined.

(** * Threshold alerting *)

Lemma gui_check_thresholds_clear (N : bool) (cpu : list F64.float) (mem : memory_info)
    (st : Gui.state) (avg : F64.float) :
  mean cpu = Ok avg ->
  Gui.cpu_notified st = true ->
  F64.ltb_Z avg 70 = true ->
  exists st',
    Gui.check_thresholds N cpu mem st = (Ok tt, st')
    /\ Gui.cpu_notified st' = false
    /\ (Gui.notified st' = Gui.notified st
        \/ Gui.notified st' = Gui.notified st ++ [Gui.memory_alert]).
Proof.
  intros Hmean Hflag Hlow. unfold Gui.check_thresholds.
  unfold Run.bind at 1, Run.lift at 1. rewrite Hmean.
  unfold Run.bind at 1, Run.get at 1.
  rewrite Hflag, andb_false_r, Hlow. cbn [andb].
  unfold Run.bind at 1, Run.modify at 1.
  unfold Run.bind at 1, Run.get at 1.
  cbn [Gui.memory_notified Gui.set_cpu_notified].
  destruct (F64.gtb_Z (percent mem) 85 && negb (Gui.memory_notified st)).
  - unfold Gui.notify. destruct N.
    + eexists. split; [reflexivity|]. split; [reflexivity|]. right. reflexivity.
    + eexists. split; [reflexivity|]. split; [reflexivity|]. left. reflexivity.
  - destruct (F64.ltb_Z (percent mem) 75 && Gui.memory_notified st).
    + eexists. split; [reflexivity|]. split; [reflexivity|]. left. reflexivity.
    + eexists. split; [reflexivity|]. split; [reflexivity|]. left. reflexivity.
Qed.

(** C3 (as amended): with the thresholds 90 and 70 and the state Normal,
    the mean loads 95, 85, 75, 65 raise the alert at 95, change nothing at
    85 and at 75, and return to Normal at 65 without any notification.  In
    general, when the state is Alerted and the mean load is below 70 the
    state becomes Normal and no CPU event is emitted: the only
    notification the step can deliver is the memory alert. *)
Theorem C3_hysteresis_clears_silently (N : bool) (cpu : list F64.float)
    (mem : memory_info) (st : Gui.state) (avg : F64.float) :
  mean cpu = Ok avg ->
  Gui.cpu_notified st = true ->
  F64.ltb_Z avg 70 = true ->
  (let s1 := Sample.feed Sample.gui0 95 in
   let s2 := Sample.feed s1 85 in
   let s3 := Sample.feed s2 75 in
   let s4 := Sample.feed s3 65 in
   Gui.cpu_notified Sample.gui0 = false
   /\ (Gui.cpu_notified s1 = true /\ Gui.notified s1 = [Gui.cpu_alert])
   /\ s2 = s1
   /\ s3 = s2
   /\ (Gui.cpu_notified s4 = false /\ Gui.notified s4 = Gui.notified s3))
  /\ exists st',
      Gui.check_thresholds N cpu mem st = (Ok tt, st')
      /\ Gui.cpu_notified st' = false
      /\ (Gui.notified st' = Gui.notified st
          \/ Gui.notified st' = Gui.notified st ++ [Gui.memory_alert]).
Proof.
  intros Hmean Hflag Hlow. split.
  - repeat split; reflexivity.
  - exact (gui_check_thresholds_clear N cpu mem st avg Hmean Hflag Hlow).
Qed.

Lemma C3_hysteresis_clears_silently_witness :
  let st := Sample.feed Sample.gui0 95 in
  mean [F64.of_Z 65] = Ok (F64.of_Z 65)
  /\ Gui.cpu_notified st = true
  /\ F64.ltb_Z (F64.of_Z 65) 70 = true
  /\ exists st',
      Gui.check_thresholds true [F64.of_Z 65] (Sample.memory_at 50) st = (Ok tt, st')
      /\ Gui.cpu_notified st' = false
      /\ (Gui.notified st' = Gui.notified st
          \/ Gui.notified st' = Gui.notified st ++ [Gui.memory_alert]).
Proof.
  intros st.
  assert (H1 : mean [F64.of_Z 65] = Ok (F64.of_Z 65)) by reflexivity.
  assert (H2 : Gui.cpu_notified st = true) by reflexivity.
  assert (H3 : F64.ltb_Z (F64.of_Z 65) 70 = true) by reflexivity.
  destruct (C3_hysteresis_clears_silently true [F64.of_Z 65] (Sample.memory_at 50) st
              (F64.of_Z 65) H1 H2 H3) as [_ H].
  split; [exact H1 | split; [exact H2 | split; [exact H3 | exact H]]].
Defined.

(** C3 (as stated) fails at the last value: the step at 65 leaves the
    Alerted state and delivers nothing, so no cleared event exists. *)
Lemma C3_counterexample :
  let s3 := Sample.feed (Sample.feed (Sample.feed Sample.gui0 95) 85) 75 in
  let s4 := Sample.feed s3 65 in
  Gui.cpu_notified s3 = true
  /\ Gui.cpu_notified s4 = false
  /\ Gui.notified s4 = Gui.notified s3
  /\ Gui.notified s4 = [Gui.cpu_alert].
Proof. repeat split; reflexivity. Qed.

(** * The size formatter *)

Lemma lt_float_int_1024 (v : Z) : lt_float (Int v) Cli.f1024 = (v <? 1024).
Proof.
  change Cli.f1024 with (S754_finite false 4503599627370496 (-42)).
  unfold lt_float, F64.gtb_Z, F64.compare_Z.
  destruct (Z.ltb_spec v 1024) as [H|H];
    destruct (Z.compare_spec 4503599627370496 (v * 2 ^ 42)) as [C|C|C];
    try reflexivity; exfalso; change (2 ^ 42) with 4398046511104 in C; lia.
Qed.

Lemma normal_mantissa_ge (m : positive) :
  Zpos (digits2_pos m) = 53 -> 4503599627370496 <= Zpos m.
Proof.
  intros Hd. rewrite digits2_pos_size in Hd.
  pose proof (Pos.size_le m) as Hle.
  apply Pos2Z.pos_le_pos in Hle. rewrite Pos2Z.inj_pow, Hd in Hle.
  change (Z.pos m~0) with (2 * Z.pos m) in Hle.
  change (Z.pos 2 ^ 53) with (2 * 4503599627370496) in Hle. lia.
Qed.

Lemma compare_cont_ge (m c : positive) :
  Zpos c <= Zpos m -> Pos.compare_cont Eq m c <> Lt.
Proof.
  intros Hge. change (Pos.compare_cont Eq m c) with (Pos.compare m c).
  rewrite Pos.compare_lt_iff. intros Hlt. apply Pos2Z.pos_lt_pos in Hlt. lia.
Qed.

Lemma ltb_normal_1024 (m : positive) (e : Z) :
  Zpos (digits2_pos m) = 53 ->
  F64.ltb (S754_finite false m e) Cli.f1024 = (e <? -42).
Proof.
  intros Hd. change Cli.f1024 with (S754_finite false 4503599627370496 (-42)).
  unfold F64.ltb, SFltb, SFcompare.
  destruct (Z.ltb_spec e (-42)) as [H|H]; destruct (Z.compare_spec e (-42)) as [C|C|C];
    try reflexivity; try lia.
  destruct (Pos.compare_cont Eq m 4503599627370496) eqn:E; try reflexivity.
  exfalso. apply (compare_cont_ge m 4503599627370496); [|exact E].
  apply normal_mantissa_ge, Hd.
Qed.

Lemma round_half_even_div_scale (n d c : Z) :
  0 < d -> 0 < c ->
  F64.round_half_even_div (n * c) (d * c) = F64.round_half_even_div n d.
Proof.
  intros Hd Hc. unfold F64.round_half_even_div.
  rewrite Z.div_mul_cancel_r by lia.
  rewrite Zmult_mod_distr_r.
  replace (2 * (n mod d * c)) with (2 * (n mod d) * c) by lia.
  rewrite <- Zmult_compare_compat_r by lia. reflexivity.
Qed.

Lemma digits2_pos_le_iff (z : positive) (n : Z) :
  0 <= n -> (Zpos (digits2_pos z) <= n <-> Zpos z < 2 ^ n).
Proof.
  intros Hn. split.
  - intros Hd. pose proof (digits2_pos_gt z) as Hgt.
    assert (2 ^ Zpos (digits2_pos z) <= 2 ^ n) by (apply Z.pow_le_mono_r; lia). lia.
  - apply digits2_pos_le, Hn.
Qed.

Lemma pow_1024 (j : nat) : 1024 * 1024 ^ Z.of_nat j = 2 ^ (10 + 10 * Z.of_nat j).
Proof.
  change 1024 with (2 ^ 10). rewrite <- Z.pow_mul_r, <- Z.pow_add_r by lia. reflexivity.
Qed.

(** ** The floats [z / 1024^j] *)

Lemma scaled_float_0 (z : positive) :
  Zpos (digits2_pos z) <= 53 -> float_of_int (Zpos z) = Ok (scaled_float z 0).
Proof.
  intros Hd. unfold float_of_int. rewrite of_Z_exact by exact Hd.
  unfold scaled_float. do 2 f_equal. lia.
Qed.

Lemma scaled_float_lt (z : positive) (j : nat) :
  Zpos (digits2_pos z) <= 53 ->
  lt_float (Float (scaled_float z j)) Cli.f1024 = (Zpos z <? 1024 * 1024 ^ Z.of_nat j).
Proof.
  intros Hd. unfold lt_float, scaled_float.
  rewrite ltb_normal_1024 by (apply normal_mantissa_digits, Hd).
  rewrite pow_1024.
  pose proof (digits2_pos_le_iff z (10 + 10 * Z.of_nat j) ltac:(lia)) as Hiff.
  destruct (Z.ltb_spec (Zpos (digits2_pos z) - 53 - 10 * Z.of_nat j) (-42));
    destruct (Z.ltb_spec (Zpos z) (2 ^ (10 + 10 * Z.of_nat j))); try reflexivity;
    exfalso; lia.
Qed.

Lemma scaled_float_div (z : positive) (j : nat) :
  Zpos (digits2_pos z) <= 53 -> (j <= 100)%nat ->
  truediv (Float (scaled_float z j)) (Float Cli.f1024) = Ok (scaled_float z (S j)).
Proof.
  intros Hd Hj. unfold truediv. cbn [to_float Py.bind].
  change (F64.is_zero Cli.f1024) with false. cbv iota.
  unfold scaled_float. rewrite div_1024_exact.
  - do 2 f_equal. lia.
  - apply normal_mantissa_digits, Hd.
  - pose proof (Pos2Z.is_pos (digits2_pos z)). lia.
Qed.

Lemma scaled_float_hundredths (z : positive) (j : nat) :
  Zpos (digits2_pos z) <= 53 ->
  F64.format_2f (scaled_float z j) =
  F64.render_hundredths false (scaled_hundredths (Zpos z) j).
Proof.
  intros Hd. unfold scaled_float. cbn [F64.format_2f]. f_equal.
  unfold F64.hundredths, scaled_hundredths.
  pose proof (normal_mantissa_value z Hd) as Hv.
  pose proof (Pos2Z.is_pos (digits2_pos z)) as Hpos.
  destruct (Zpos (digits2_pos z) - 53 - 10 * Z.of_nat j) as [|p|p] eqn:He.
  - assert (Hj : j = 0%nat) by lia. subst j.
    replace (53 - Zpos (digits2_pos z)) with 0 in Hv by lia.
    rewrite Hv. unfold F64.round_half_even_div.
    change (1024 ^ Z.of_nat 0) with 1. rewrite Z.div_1_r, Z.mod_1_r.
    change (2 * 0 ?= 1) with Lt. cbv iota. change (2 ^ 0) with 1. lia.
  - lia.
  - rewrite Hv.
    replace (Zpos z * 2 ^ (53 - Zpos (digits2_pos z)) * 100)
      with (100 * Zpos z * 2 ^ (53 - Zpos (digits2_pos z))) by lia.
    replace (2 ^ Zpos p)
      with (1024 ^ Z.of_nat j * 2 ^ (53 - Zpos (digits2_pos z))).
    + apply round_half_even_div_scale; apply Z.pow_pos_nonneg; lia.
    + change 1024 with (2 ^ 10). rewrite <- Z.pow_mul_r, <- Z.pow_add_r by lia.
      f_equal. lia.
Qed.

Lemma truediv_int_1024 (z : positive) :
  Zpos (digits2_pos z) <= 53 ->
  truediv (Int (Zpos z)) (Float Cli.f1024) = Ok (scaled_float z 1).
Proof.
  intros Hd. rewrite <- (scaled_float_div z 0 Hd) by lia.
  unfold truediv. cbn [to_float]. rewrite (scaled_float_0 z Hd). reflexivity.
Qed.

Lemma format_scaled_float (z : positive) (j : nat) :
  Zpos (digits2_pos z) <= 53 ->
  format_2f (Float (scaled_float z j)) =
  Ok (F64.render_hundredths false (scaled_hundredths (Zpos z) j)).
Proof.
  intros Hd. unfold format_2f. cbn [to_float Py.bind].
  rewrite (scaled_float_hundredths z j Hd). reflexivity.
Qed.

(** On an integer that a float holds exactly, the loop of [size_formatter]
    computes what the specification describes. *)
Lemma size_formatter_exact (v : Z) :
  0 <= v < 2 ^ 53 -> Cli.size_formatter (Int v) = Ok (size_formatter_spec v).
Proof.
  intros [H0 H53]. destruct v as [|z|z]; [vm_compute; reflexivity | | lia].
  assert (Hd : Zpos (digits2_pos z) <= 53) by (apply digits2_pos_le; lia).
  unfold Cli.size_formatter, Cli.units, size_formatter_spec, unit_index.
  cbn [Cli.size_formatter_from find_unit].
  rewrite lt_float_int_1024.
  change (1024 * 1024 ^ Z.of_nat 0) with 1024.
  destruct (Zpos z <? 1024).
  { unfold format_2f. cbn [to_float]. rewrite (scaled_float_0 z Hd). cbn [Py.bind].
    rewrite (scaled_float_hundredths z 0 Hd). reflexivity. }
  rewrite (truediv_int_1024 z Hd). cbn [Py.bind].
  rewrite (scaled_float_lt z 1 Hd).
  destruct (Zpos z <? 1024 * 1024 ^ Z.of_nat 1).
  { rewrite (format_scaled_float z 1 Hd). reflexivity. }
  rewrite (scaled_float_div z 1 Hd) by lia. cbn [Py.bind].
  rewrite (scaled_float_lt z 2 Hd).
  destruct (Zpos z <? 1024 * 1024 ^ Z.of_nat 2).
  { rewrite (format_scaled_float z 2 Hd). reflexivity. }
  rewrite (scaled_float_div z 2 Hd) by lia. cbn [Py.bind].
  rewrite (scaled_float_lt z 3 Hd).
  destruct (Zpos z <? 1024 * 1024 ^ Z.of_nat 3).
  { rewrite (format_scaled_float z 3 Hd). reflexivity. }
  rewrite (scaled_float_div z 3 Hd) by lia. cbn [Py.bind].
  rewrite (scaled_float_lt z 4 Hd).
  destruct (Zpos z <? 1024 * 1024 ^ Z.of_nat 4).
  { rewrite (format_scaled_float z 4 Hd). reflexivity. }
  rewrite (scaled_float_div z 4 Hd) by lia. cbn [Py.bind].
  rewrite (format_scaled_float z 5 Hd). reflexivity.
Qed.

Lemma round_half_even_div_bounds (n d : Z) :
  0 <= n -> 0 < d ->
  n / d <= F64.round_half_even_div n d <= n / d + 1.
Proof.
  intros Hn Hd. unfold F64.round_half_even_div.
  destruct (2 * (n mod d) ?= d); [destruct (Z.even (n / d))| |]; lia.
Qed.

Ltac compute_powers :=
  repeat match goal with
  | |- context [1024 ^ Z.of_nat ?n] =>
      let x := eval vm_compute in (1024 ^ Z.of_nat n) in
      progress change (1024 ^ Z.of_nat n) with x
  | H : context [1024 ^ Z.of_nat ?n] |- _ =>
      let x := eval vm_compute in (1024 ^ Z.of_nat n) in
      progress change (1024 ^ Z.of_nat n) with x in H
  end.

(** The index chosen is at most 5, no smaller index fits, and up to 4 the
    value fits under 1024. *)
Lemma unit_index_spec (v : Z) :
  0 <= v ->
  (unit_index v <= 5)%nat
  /\ (forall j, (j < unit_index v)%nat -> 1024 * 1024 ^ Z.of_nat j <= v)
  /\ ((unit_index v <= 4)%nat -> v < 1024 * 1024 ^ Z.of_nat (unit_index v)).
Proof.
  intros Hv. unfold unit_index, find_unit.
  repeat match goal with
  | |- context [if ?a <? ?b then _ else _] => destruct (Z.ltb_spec a b)
  end;
  (split; [lia|]; split;
   [ intros j Hj;
     do 5 (destruct j as [|j]; [compute_powers; lia|]); lia
   | intros Hk; try lia; compute_powers; lia ]).
Qed.

(** ** Division by powers of 1024 *)

Lemma scale_1024_normal (m : positive) (e : Z) (k : nat) :
  Zpos (digits2_pos m) = 53 ->
  -1073 + 10 * Z.of_nat k <= e <= 981 ->
  scale_1024 (S754_finite false m e) k = S754_finite false m (e - 10 * Z.of_nat k).
Proof.
  intros Hd. induction k as [|k IH]; intros He.
  - cbn. f_equal. lia.
  - change (scale_1024 (S754_finite false m e) (S k))
      with (F64.div (scale_1024 (S754_finite false m e) k) Cli.f1024).
    rewrite IH by lia.
    rewrite div_1024_exact by (try exact Hd; lia). f_equal. lia.
Qed.

Lemma scale_1024_small (z : positive) (k : nat) :
  Zpos (digits2_pos z) <= 53 -> (k <= 100)%nat ->
  scale_1024 (F64.of_Z (Zpos z)) k = scaled_float z k.
Proof.
  intros Hd Hk. rewrite of_Z_exact by exact Hd.
  pose proof (Pos2Z.is_pos (digits2_pos z)).
  rewrite scale_1024_normal by (try apply normal_mantissa_digits; lia).
  reflexivity.
Qed.

(** From [2^53] on the unit is PB, and the number that is rendered is the
    float nearest to the byte count, divided five times by 1024. *)
Lemma size_formatter_large (z : positive) :
  53 < Zpos (digits2_pos z) <= 1023 ->
  Cli.size_formatter (Int (Zpos z)) =
  Ok (String.append (F64.format_2f (scale_1024 (F64.of_Z (Zpos z)) 5)) " PB").
Proof.
  intros Hd.
  destruct (of_Z_normal z) as (m & e & Hof & Hm & He); [lia|].
  assert (Hbig : 2 ^ 53 <= Zpos z).
  { pose proof (digits2_pos_lower z) as Hlo.
    assert (2 ^ 53 <= 2 ^ (Zpos (digits2_pos z) - 1)) by (apply Z.pow_le_mono_r; lia).
    lia. }
  rewrite Hof, scale_1024_normal by (try exact Hm; lia).
  unfold Cli.size_formatter, Cli.units. cbn [Cli.size_formatter_from].
  rewrite lt_float_int_1024.
  replace (Zpos z <? 1024) with false
    by (symmetry; apply Z.ltb_ge; change (2 ^ 53) with 9007199254740992 in Hbig; lia).
  unfold truediv at 1. cbn [to_float]. unfold float_of_int. rewrite Hof. cbn [Py.bind].
  change (F64.is_zero Cli.f1024) with false. cbv iota. cbn [Py.bind].
  rewrite div_1024_exact by (try exact Hm; lia).
  do 4 (cbn [Cli.size_formatter_from lt_float];
        rewrite ltb_normal_1024 by exact Hm;
        match goal with
        | |- context [?a <? -42] =>
            replace (a <? -42) with false by (symmetry; apply Z.ltb_ge; lia)
        end;
        unfold truediv at 1; cbn [to_float Py.bind];
        change (F64.is_zero Cli.f1024) with false; cbv iota; cbn [Py.bind];
        rewrite div_1024_exact by (try exact Hm; lia)).
  cbn [Cli.size_formatter_from]. unfold format_2f. cbn [to_float Py.bind].
  replace (e - 10 - 10 - 10 - 10 - 10) with (e - 10 * Z.of_nat 5) by lia.
  reflexivity.
Qed.

Lemma unit_index_large (v : Z) : 2 ^ 53 <= v -> unit_index v = 5%nat.
Proof.
  intros Hv. change (2 ^ 53) with 9007199254740992 in Hv.
  unfold unit_index, find_unit.
  repeat match goal with
  | |- context [if ?a <? ?b then _ else _] =>
      destruct (Z.ltb_spec a b) as [H|H]; [exfalso; compute_powers; lia | clear H]
  end.
  reflexivity.
Qed.

(** On every byte count below [2^1023] the loop renders the float nearest
    to the count, divided by 1024 as many times as the unit says. *)
Lemma size_formatter_int (v : Z) :
  0 <= v < 2 ^ 1023 ->
  Cli.size_formatter (Int v) =
  Ok (String.append (F64.format_2f (scale_1024 (F64.of_Z v) (unit_index v)))
        (String " " (unit_name (unit_index v)))).
Proof.
  intros [H0 H1]. destruct v as [|z|z]; [vm_compute; reflexivity | | lia].
  destruct (Z_le_gt_dec (Zpos (digits2_pos z)) 53) as [Hd|Hd].
  - pose proof (digits2_pos_gt z) as Hgt.
    assert (2 ^ Zpos (digits2_pos z) <= 2 ^ 53) by (apply Z.pow_le_mono_r; lia).
    rewrite size_formatter_exact by lia.
    assert (Hk : (unit_index (Zpos z) <= 5)%nat) by (apply unit_index_spec; lia).
    rewrite scale_1024_small by (try exact Hd; lia).
    rewrite scaled_float_hundredths by exact Hd. reflexivity.
  - assert (Hd' : Zpos (digits2_pos z) <= 1023) by (apply digits2_pos_le; lia).
    rewrite size_formatter_large by lia.
    rewrite unit_index_large; [reflexivity|].
    pose proof (digits2_pos_lower z) as Hlo.
    assert (2 ^ 53 <= 2 ^ (Zpos (digits2_pos z) - 1)) by (apply Z.pow_le_mono_r; lia).
    lia.
Qed.

(** C10 (as amended): for a byte count [0 <= v < 2^1023], [size_formatter]
    returns the two-decimal rendering of [x] followed by the [k]-th unit of
    B, KB, MB, GB, TB, PB, where [k] is the smallest index in [0..4] with
    [v / 1024^k < 1024], and 5 when there is none, and [x] is the float
    nearest to [v] divided [k] times by 1024.  For the units up to TB the
    value [v / 1024^k] is in [0, 1024).  Below [2^53] the float is [v]
    itself, the numeric part is [v / 1024^k] rounded to two decimals (to
    nearest, ties to even), and for the units up to TB the number
    displayed, in hundredths, is in [0, 102400]: it can read 1024.00. *)
Theorem C10_size_formatter_units (v : Z) :
  0 <= v < 2 ^ 1023 ->
  let k := unit_index v in
  let x := scale_1024 (F64.of_Z v) k in
  Cli.size_formatter (Int v)
  = Ok (String.append (F64.format_2f x) (String " " (unit_name k)))
  /\ (k <= 5)%nat
  /\ (forall j, (j < k)%nat -> 1024 * 1024 ^ Z.of_nat j <= v)
  /\ ((k <= 4)%nat -> v < 1024 * 1024 ^ Z.of_nat k)
  /\ (v < 2 ^ 53 ->
      F64.format_2f x = F64.render_hundredths false (scaled_hundredths v k)
      /\ ((k <= 4)%nat -> 0 <= scaled_hundredths v k <= 102400)).
Proof.
  intros Hv k x.
  destruct (unit_index_spec v (proj1 Hv)) as (Hk5 & Hmin & Hfit).
  split; [exact (size_formatter_int v Hv)|].
  split; [exact Hk5|]. split; [exact Hmin|]. split; [exact Hfit|].
  intros H53. split.
  - subst x. destruct v as [|z|z]; [reflexivity | | lia].
    assert (Hd : Zpos (digits2_pos z) <= 53) by (apply digits2_pos_le; lia).
    rewrite scale_1024_small by (try exact Hd; fold k; lia).
    apply scaled_float_hundredths, Hd.
  - intros Hk4. specialize (Hfit Hk4). fold k in Hfit.
    unfold scaled_hundredths.
    assert (Hd : 0 < 1024 ^ Z.of_nat k) by (apply Z.pow_pos_nonneg; lia).
    pose proof (round_half_even_div_bounds (100 * v) (1024 ^ Z.of_nat k) ltac:(lia) Hd)
      as [Hlo Hhi].
    assert (Hq : 100 * v / 1024 ^ Z.of_nat k < 102400)
      by (apply Z.div_lt_upper_bound; [exact Hd | nia]).
    assert (0 <= 100 * v / 1024 ^ Z.of_nat k) by (apply Z.div_pos; lia).
    lia.
Qed.

Lemma C10_size_formatter_units_witness :
  0 <= 123456789 < 2 ^ 1023
  /\ unit_index 123456789 = 2%nat
  /\ scaled_hundredths 123456789 2 = 11774
  /\ Cli.size_formatter (Int 123456789) = Ok "117.74 MB"%string.
Proof.
  assert (H : 0 <= 123456789 < 2 ^ 1023) by (split; [lia | reflexivity]).
  destruct (C10_size_formatter_units 123456789 H) as (E & _).
  split; [exact H | split; [reflexivity | split; [reflexivity | exact E]]].
Defined.

(** C10 (as stated) fails.  The byte count 1048575 is shown as
    "1024.00 KB": the value 1023.999... is under 1024 but the number
    displayed is not.  The byte count 67 * 2^47 - 1 is shown as "8.38 PB",
    where [v / 1024^5] with two decimals is 8.37: the count is rounded to a
    float before it is divided.  And a count of [2^1024] has no float at
    all: the first division raises. *)
Lemma C10_counterexample :
  Cli.size_formatter (Int 1048575) = Ok "1024.00 KB"%string
  /\ unit_index 1048575 = 1%nat
  /\ scaled_hundredths 1048575 1 = 102400
  /\ ~ (102400 < 1024 * 100)
  /\ Cli.size_formatter (Int (67 * 2 ^ 47 - 1)) = Ok "8.38 PB"%string
  /\ size_formatter_spec (67 * 2 ^ 47 - 1) = "8.37 PB"%string
  /\ Cli.size_formatter (Int (2 ^ 1024)) = Raise OverflowError.
Proof.
  split; [vm_compute; reflexivity|].
  split; [vm_compute; reflexivity|].
  split; [vm_compute; reflexivity|].
  split; [lia|].
  split; [vm_compute; reflexivity|].
  split; vm_compute; reflexivity.
Qed.

(** * The first tick *)

Lemma size_formatter_float_ok (us : list string) (f : F64.float) :
  exists s, Cli.size_formatter_from us (Float f) = Ok s.
Proof.
  revert f. induction us as [|u us IH]; intros f; cbn [Cli.size_formatter_from].
  - eexists. reflexivity.
  - destruct (lt_float (Float f) Cli.f1024).
    + eexists. reflexivity.
    + unfold truediv. cbn [to_float Py.bind].
      change (F64.is_zero Cli.f1024) with false. cbv iota. cbn [Py.bind]. apply IH.
Qed.

(** The network panel of the terminal dashboard, when its four rates are
    computed and the two totals are not negative and below [2^1023]. *)
Lemma cli_generate_network_table (prev cur : net_io) (dt x y p q : F64.float) :
  0 <= bytes_sent cur < 2 ^ 1023 ->
  0 <= bytes_recv cur < 2 ^ 1023 ->
  per_sec (bytes_sent cur) (bytes_sent prev) dt = Ok x ->
  per_sec (bytes_recv cur) (bytes_recv prev) dt = Ok y ->
  per_sec (packets_sent cur) (packets_sent prev) dt = Ok p ->
  per_sec (packets_recv cur) (packets_recv prev) dt = Ok q ->
  exists total_sent total_recv sx sy,
    Cli.size_formatter (Float x) = Ok sx
    /\ Cli.size_formatter (Float y) = Ok sy
    /\ Cli.generate_network_table prev cur dt =
       Ok [ ["Bytes Sent"; total_sent; String.append sx "/s"];
            ["Bytes Received"; total_recv; String.append sy "/s"];
            ["Packets Sent"; str_int (packets_sent cur);
             String.append (F64.format_2f p) "/s"];
            ["Packets Received"; str_int (packets_recv cur);
             String.append (F64.format_2f q) "/s"] ]%string.
Proof.
  intros Hs Hr Hx Hy Hp Hq.
  destruct (size_formatter_float_ok Cli.units x) as [sx Hsx].
  destruct (size_formatter_float_ok Cli.units y) as [sy Hsy].
  eexists _, _, sx, sy. split; [exact Hsx|]. split; [exact Hsy|].
  unfold Cli.generate_network_table.
  rewrite Hx, Hy. cbn [Py.bind].
  rewrite (size_formatter_int _ Hs). cbn [Py.bind].
  unfold Cli.size_formatter in Hsx, Hsy |- * at 1. rewrite Hsx. cbn [Py.bind].
  rewrite (size_formatter_int _ Hr). cbn [Py.bind].
  unfold Cli.size_formatter. rewrite Hsy. cbn [Py.bind].
  rewrite Hp, Hq. reflexivity.
Qed.

(** C5 (as amended): on the first tick the previous reading is the one
    taken at start-up, and the rates are computed like on any tick, from
    the counters and the clock read at start-up: the two byte rates are
    recorded and displayed by both graphical front-ends, and the terminal
    dashboard displays the two byte rates and the two packet rates. *)
Theorem C5_first_tick_uses_startup_reading (N : bool) (ncores : nat) (net0 : net_io)
    (t0 : F64.float) (r : reading) (x y p q : F64.float) :
  (length (cpu_usage r) <= ncores)%nat ->
  0 <= bytes_sent (current_net_io r) < 2 ^ 1023 ->
  0 <= bytes_recv (current_net_io r) < 2 ^ 1023 ->
  let dt := F64.sub (current_time r) t0 in
  per_sec (bytes_sent (current_net_io r)) (bytes_sent net0) dt = Ok x ->
  per_sec (bytes_recv (current_net_io r)) (bytes_recv net0) dt = Ok y ->
  per_sec (packets_sent (current_net_io r)) (packets_sent net0) dt = Ok p ->
  per_sec (packets_recv (current_net_io r)) (packets_recv net0) dt = Ok q ->
  let b := BasicGui.update_data_tick r (BasicGui.init ncores net0 t0) in
  let g := Gui.update_data_tick N r (Gui.init ncores net0 t0) in
  (fst b = Ok tt
   /\ BasicGui.network_sent_history (snd b) = [x]
   /\ BasicGui.network_recv_history (snd b) = [y]
   /\ In (BasicGui.update_ui_network (current_net_io r) x y) (BasicGui.scheduled (snd b)))
  /\ (Gui.network_sent_history g = [x]
      /\ Gui.network_recv_history g = [y]
      /\ In (Gui.update_ui_network (current_net_io r) x y) (Gui.scheduled g))
  /\ exists total_sent total_recv sx sy,
      Cli.size_formatter (Float x) = Ok sx
      /\ Cli.size_formatter (Float y) = Ok sy
      /\ Cli.main_iteration r (Cli.main_init net0 t0) =
         Ok ([ ["Bytes Sent"; total_sent; String.append sx "/s"];
               ["Bytes Received"; total_recv; String.append sy "/s"];
               ["Packets Sent"; str_int (packets_sent (current_net_io r));
                String.append (F64.format_2f p) "/s"];
               ["Packets Received"; str_int (packets_recv (current_net_io r));
                String.append (F64.format_2f q) "/s"] ]%string,
             {| Cli.prev_net_io := current_net_io r; Cli.prev_time := current_time r |}).
Proof.
  intros Hcpu Hs Hr dt Hx Hy Hp Hq b g. split; [|split].
  - subst b. rewrite (basic_tick_ok r (BasicGui.init ncores net0 t0) x y).
    + cbn. repeat split. right. right. right. left. reflexivity.
    + cbn. rewrite length_replicate. exact Hcpu.
    + exact Hx.
    + exact Hy.
    + reflexivity.
  - destruct (gui_tick_ok N r (Gui.init ncores net0 t0) x y)
      as (_ & _ & _ & Hsent & Hrecv & Hsch).
    + cbn. rewrite length_replicate. exact Hcpu.
    + exact Hx.
    + exact Hy.
    + reflexivity.
    + fold g in Hsent, Hrecv, Hsch. rewrite Hsent, Hrecv, Hsch.
      repeat split. cbn. right. right. right. left. reflexivity.
  - destruct (cli_generate_network_table net0 (current_net_io r) dt x y p q
                Hs Hr Hx Hy Hp Hq) as (ts & tr & sx & sy & Hsx & Hsy & Htable).
    exists ts, tr, sx, sy. split; [exact Hsx|]. split; [exact Hsy|].
    unfold Cli.main_iteration, Cli.main_init. cbn [Cli.prev_net_io Cli.prev_time].
    fold dt. rewrite Htable. reflexivity.
Qed.

Lemma C5_first_tick_uses_startup_reading_witness :
  let r := Sample.busy in
  let net0 := Sample.counters 1000 in
  let dt := F64.sub (current_time r) (F64.of_Z 0) in
  (length (cpu_usage r) <= 1)%nat
  /\ 0 <= bytes_sent (current_net_io r) < 2 ^ 1023
  /\ 0 <= bytes_recv (current_net_io r) < 2 ^ 1023
  /\ per_sec (bytes_sent (current_net_io r)) (bytes_sent net0) dt = Ok (F64.of_Z 2000)
  /\ per_sec (bytes_recv (current_net_io r)) (bytes_recv net0) dt = Ok (F64.of_Z 2000)
  /\ per_sec (packets_sent (current_net_io r)) (packets_sent net0) dt = Ok (F64.of_Z 30)
  /\ per_sec (packets_recv (current_net_io r)) (packets_recv net0) dt = Ok (F64.of_Z 20)
  /\ BasicGui.network_sent_history (snd (BasicGui.update_data_tick r Sample.basic0))
     = [F64.of_Z 2000]
  /\ Gui.network_sent_history (Gui.update_data_tick true r Sample.gui0) = [F64.of_Z 2000].
Proof.
  intros r net0 dt.
  assert (H1 : (length (cpu_usage r) <= 1)%nat) by (cbn; lia).
  assert (H2 : 0 <= bytes_sent (current_net_io r) < 2 ^ 1023)
    by (split; [cbn; lia | reflexivity]).
  assert (H3 : 0 <= bytes_recv (current_net_io r) < 2 ^ 1023)
    by (split; [cbn; lia | reflexivity]).
  assert (H4 : per_sec (bytes_sent (current_net_io r)) (bytes_sent net0) dt
               = Ok (F64.of_Z 2000)) by reflexivity.
  assert (H5 : per_sec (bytes_recv (current_net_io r)) (bytes_recv net0) dt
               = Ok (F64.of_Z 2000)) by reflexivity.
  assert (H6 : per_sec (packets_sent (current_net_io r)) (packets_sent net0) dt
               = Ok (F64.of_Z 30)) by reflexivity.
  assert (H7 : per_sec (packets_recv (current_net_io r)) (packets_recv net0) dt
               = Ok (F64.of_Z 20)) by reflexivity.
  destruct (C5_first_tick_uses_startup_reading true 1 net0 (F64.of_Z 0) r _ _ _ _
              H1 H2 H3 H4 H5 H6 H7) as ((_ & Hb & _) & (Hg & _) & _).
  split; [exact H1 | split; [exact H2 | split; [exact H3 | split; [exact H4 |]]]].
  split; [exact H5 | split; [exact H6 | split; [exact H7 | split; [exact Hb | exact Hg]]]].
Defined.

(** C5 (as stated) fails: the first tick, one second after a start-up that
    read 1000 bytes sent and no packets, reports 2000.0 bytes per second
    sent and 30.0 packets per second sent, not 0. *)
Lemma C5_counterexample :
  BasicGui.network_sent_history (snd (BasicGui.update_data_tick Sample.busy Sample.basic0))
  = [F64.of_Z 2000]
  /\ F64.is_zero (F64.of_Z 2000) = false
  /\ Gui.network_sent_history (Gui.update_data_tick true Sample.busy Sample.gui0)
     = [F64.of_Z 2000]
  /\ (out <- Cli.main_iteration Sample.busy Sample.cli0 ;; Ok (fst out))%py
     = Ok [ ["Bytes Sent"; "2.93 KB"; "1.95 KB/s"];
            ["Bytes Received"; "1.95 KB"; "1.95 KB/s"];
            ["Packets Sent"; "30"; "30.00/s"];
            ["Packets Received"; "20"; "20.00/s"] ]%string.
Proof. repeat split; vm_compute; reflexivity. Qed.

(** * The capacity setting *)

(** C6 (as amended): saving the settings stores the new history capacity
    in [max_history] and leaves every series as it is: nothing is
    truncated when the capacity changes. *)
Theorem C6_capacity_change_keeps_series (theme : string) (interval history : Z)
    (notifications : bool) (st : Gui.state) :
  let st' := Gui.save_settings theme interval history notifications st in
  Gui.max_history (Gui.config st') = history
  /\ Gui.cpu_history st' = Gui.cpu_history st
  /\ Gui.memory_history st' = Gui.memory_history st
  /\ Gui.network_sent_history st' = Gui.network_sent_history st
  /\ Gui.network_recv_history st' = Gui.network_recv_history st
  /\ Gui.time_points st' = Gui.time_points st.
Proof. repeat split. Qed.

(** C6 (as stated) fails: with three values in every series, setting the
    capacity to 2 drops nothing, and the next tick brings the series to
    four values. *)
Lemma C6_counterexample :
  let st := Gui.update_data true
              [Sample.at_time 1 10 2000; Sample.at_time 2 20 3000; Sample.at_time 3 30 4000]
              Sample.gui0 in
  let st' := Gui.save_settings "dark" 1 2 true st in
  Gui.max_history (Gui.config st') = 2
  /\ Gui.memory_history st' = [F64.of_Z 50; F64.of_Z 50; F64.of_Z 50]
  /\ Gui.network_sent_history st' = [F64.of_Z 1000; F64.of_Z 1000; F64.of_Z 1000]
  /\ ~ (length (Gui.network_sent_history st') <= 2)%nat
  /\ length (Gui.network_sent_history
               (Gui.update_data_tick true (Sample.at_time 4 40 5000) st')) = 4%nat.
Proof.
  split; [reflexivity|]. split; [reflexivity|]. split; [reflexivity|].
  split; [|reflexivity].
  intros H. vm_compute in H. lia.
Qed.
(** * The update loops in closed form *)

Lemma gui_cpu_loop_result (l : list F64.float) (i : nat) (st : Gui.state) :
  (i <= length (Gui.cpu_history st))%nat ->
  fst (Run.for_enumerate Gui.update_cpu_history i l st) =
  if (i + length l <=? length (Gui.cpu_history st))%nat then Ok tt else Raise IndexError.
Proof.
  revert i st. induction l as [|u l IH]; intros i st Hi.
  - cbn [Run.for_enumerate length fst Run.ret].
    destruct (Nat.leb_spec (i + 0) (length (Gui.cpu_history st))) as [H|H]; [reflexivity|lia].
  - cbn [Run.for_enumerate length]. unfold Run.bind at 1.
    unfold Gui.update_cpu_history at 1. run_step.
    destruct (Gui.cpu_history st !! i) as [h|] eqn:Hh.
    + unfold Run.modify at 1. cbv beta iota.
      apply lookup_lt_Some in Hh.
      rewrite IH by (cbn [Gui.cpu_history Gui.set_cpu_history]; rewrite length_insert; lia).
      cbn [Gui.cpu_history Gui.set_cpu_history]. rewrite length_insert.
      replace (S i + length l)%nat with (i + S (length l))%nat by lia. reflexivity.
    + apply lookup_ge_None in Hh. unfold Run.lift. cbn [fst].
      destruct (Nat.leb_spec (i + S (length l)) (length (Gui.cpu_history st))); [lia|reflexivity].
Qed.

Lemma gui_check_thresholds_eq (N : bool) (cpu : list F64.float) (mem : memory_info)
    (st : Gui.state) :
  Gui.check_thresholds N cpu mem st =
  match mean cpu with
  | Raise e => (Raise e, st)
  | Ok avg => (Ok tt, memory_transition N (percent mem) (cpu_transition N avg st))
  end.
Proof.
  unfold Gui.check_thresholds, Gui.notify, memory_transition, cpu_transition, raise_alert.
  unfold Run.bind, Run.lift, Run.get, Run.modify, Run.ret.
  destruct (mean cpu) as [avg|e]; [|reflexivity].
  destruct (F64.gtb_Z avg 90), (Gui.cpu_notified st), (F64.ltb_Z avg 70), N;
    cbn;
    destruct (F64.gtb_Z (percent mem) 85), (Gui.memory_notified st),
      (F64.ltb_Z (percent mem) 75);
    reflexivity.
Qed.

Lemma gui_state_ext (s1 s2 : Gui.state) :
  Gui.config s1 = Gui.config s2 ->
  Gui.cpu_history s1 = Gui.cpu_history s2 ->
  Gui.memory_history s1 = Gui.memory_history s2 ->
  Gui.network_recv_history s1 = Gui.network_recv_history s2 ->
  Gui.network_sent_history s1 = Gui.network_sent_history s2 ->
  Gui.time_points s1 = Gui.time_points s2 ->
  Gui.prev_net_io s1 = Gui.prev_net_io s2 ->
  Gui.prev_time s1 = Gui.prev_time s2 ->
  Gui.cpu_notified s1 = Gui.cpu_notified s2 ->
  Gui.memory_notified s1 = Gui.memory_notified s2 ->
  Gui.scheduled s1 = Gui.scheduled s2 ->
  Gui.notified s1 = Gui.notified s2 ->
  Gui.printed s1 = Gui.printed s2 ->
  s1 = s2.
Proof. destruct s1, s2. cbn. intros. subst. reflexivity. Qed.

(** The fields of a state built with the setters. *)
Ltac gui_fields :=
  cbn [Gui.config Gui.cpu_history Gui.memory_history Gui.network_recv_history
       Gui.network_sent_history Gui.time_points Gui.prev_net_io Gui.prev_time
       Gui.cpu_notified Gui.memory_notified Gui.scheduled Gui.notified Gui.printed
       Gui.set_config Gui.set_time_points Gui.set_cpu_history Gui.set_memory_history
       Gui.set_network_recv_history Gui.set_network_sent_history Gui.set_prev
       Gui.set_cpu_notified Gui.set_memory_notified Gui.schedule Gui.deliver
       Gui.print_error].

Lemma gui_tick_eq (N : bool) (r : reading) (st : Gui.state) :
  length (Gui.network_sent_history st) = length (Gui.network_recv_history st) ->
  Gui.update_data_tick N r st = gui_tick_spec N r st.
Proof.
  intros Hlen. unfold Gui.update_data_tick, gui_tick_spec, Gui.update_data_body.
  run_step. cbv zeta. run_step.
  pose proof (gui_cpu_loop_state (cpu_usage r) 0
                (Gui.set_time_points (fun h => push h (now r)) st)) as Hstate.
  pose proof (gui_cpu_loop_result (cpu_usage r) 0
                (Gui.set_time_points (fun h => push h (now r)) st) ltac:(lia)) as Hres.
  destruct (Run.for_enumerate Gui.update_cpu_history 0 (cpu_usage r) _) as [res s2] eqn:Hloop.
  cbn [fst snd Gui.cpu_history Gui.set_time_points Nat.add] in Hstate, Hres. subst s2 res.
  erewrite bind_outcome by exact Hloop.
  destruct (length (cpu_usage r) <=? length (Gui.cpu_history st))%nat.
  - run_step. run_step.
    destruct (per_sec (bytes_sent _) _ _) as [x|e].
    + run_step. destruct (per_sec (bytes_recv _) _ _) as [y|e].
      * erewrite bind_outcome by (apply gui_trim_network; exact Hlen).
        run_step. run_step. run_step. run_step.
        unfold Run.bind at 1.
        cbn [Gui.config Gui.schedule Gui.set_network_recv_history Gui.set_network_sent_history
             Gui.set_memory_history Gui.set_cpu_history Gui.set_time_points].
        match goal with
        | |- context [(if _ then _ else Run.ret tt) ?s] =>
            replace s with (gui_after_schedule r x y st)
        end.
        2:{ unfold gui_after_schedule, gui_after_memory, gui_after_cpu, push.
            apply gui_state_ext; gui_fields; try reflexivity.
            unfold push. rewrite Hlen. reflexivity. }
        destruct (N && Gui.enable_notifications (Gui.config st)).
        -- rewrite gui_check_thresholds_eq. destruct (mean (cpu_usage r)); reflexivity.
        -- reflexivity.
      * apply gui_state_ext; reflexivity.
    + apply gui_state_ext; reflexivity.
  - apply gui_state_ext; reflexivity.
Qed.

Lemma push_each_length (us : list F64.float) (i : nat) (hs : list (list F64.float)) :
  length (push_each i us hs) = length hs.
Proof.
  revert i hs. induction us as [|u us IH]; intros i hs; cbn [push_each]; [reflexivity|].
  destruct (hs !! i); [|reflexivity]. rewrite IH, length_insert. reflexivity.
Qed.

Lemma push_each_lookup (us : list F64.float) (i j : nat) (hs : list (list F64.float)) :
  push_each i us hs !! j =
  if (j <? i)%nat then hs !! j
  else match hs !! j with
       | None => None
       | Some h =>
           match us !! (j - i)%nat with
           | Some u => Some (push h u)
           | None => Some h
           end
       end.
Proof.
  revert i hs. induction us as [|u us IH]; intros i hs; cbn [push_each].
  - destruct (j <? i)%nat; [reflexivity|]. destruct (hs !! j); reflexivity.
  - destruct (hs !! i) as [h0|] eqn:Hi.
    + rewrite IH. pose proof (lookup_lt_Some _ _ _ Hi) as Hlt.
      destruct (Nat.ltb_spec j (S i)) as [H1|H1]; destruct (Nat.ltb_spec j i) as [H2|H2];
        try lia.
      * rewrite list_lookup_insert_ne by lia. reflexivity.
      * assert (j = i) by lia. subst j.
        rewrite list_lookup_insert_eq by lia. rewrite Hi, Nat.sub_diag. reflexivity.
      * rewrite list_lookup_insert_ne by lia.
        replace (j - i)%nat with (S (j - S i)) by lia. reflexivity.
    + apply lookup_ge_None in Hi.
      destruct (Nat.ltb_spec j i) as [H2|H2]; [reflexivity|].
      rewrite (proj2 (lookup_ge_None hs j)) by lia. reflexivity.
Qed.

(** Every series that the loop over the cores leaves is a series it found,
    or one push onto it. *)
Lemma push_each_Forall (P Q : list F64.float -> Prop) (us : list F64.float) (i : nat)
    (hs : list (list F64.float)) :
  (forall h, P h -> Q h) ->
  (forall h u, P h -> Q (push h u)) ->
  Forall P hs -> Forall Q (push_each i us hs).
Proof.
  intros Hkeep Hpush HP. apply Forall_lookup. intros j h' Hj.
  rewrite push_each_lookup in Hj.
  destruct (j <? i)%nat.
  - apply Hkeep. exact (proj1 (Forall_lookup _ _) HP j h' Hj).
  - destruct (hs !! j) as [h|] eqn:Hh; [|discriminate].
    pose proof (proj1 (Forall_lookup _ _) HP j h Hh) as Ph.
    destruct (us !! (j - i)%nat) as [u|]; injection Hj as <-; auto.
Qed.

Lemma push_length_ge {A : Type} (h : list A) (v : A) : (length h <= length (push h v))%nat.
Proof. rewrite push_length. destruct (MAX_HISTORY <=? length h)%nat; lia. Qed.

Lemma push_length_mono {A B : Type} (h1 : list A) (h2 : list B) (x : A) (y : B) :
  (length h1 <= length h2)%nat -> (length (push h1 x) <= length (push h2 y))%nat.
Proof.
  intros H. rewrite !push_length.
  destruct (Nat.leb_spec MAX_HISTORY (length h1)), (Nat.leb_spec MAX_HISTORY (length h2)); lia.
Qed.

(** ** The basic GUI in closed form *)

Lemma basic_state_ext (s1 s2 : BasicGui.state) :
  BasicGui.cpu_history s1 = BasicGui.cpu_history s2 ->
  BasicGui.memory_history s1 = BasicGui.memory_history s2 ->
  BasicGui.network_recv_history s1 = BasicGui.network_recv_history s2 ->
  BasicGui.network_sent_history s1 = BasicGui.network_sent_history s2 ->
  BasicGui.time_points s1 = BasicGui.time_points s2 ->
  BasicGui.prev_net_io s1 = BasicGui.prev_net_io s2 ->
  BasicGui.prev_time s1 = BasicGui.prev_time s2 ->
  BasicGui.scheduled s1 = BasicGui.scheduled s2 ->
  s1 = s2.
Proof. destruct s1, s2. cbn. intros. subst. reflexivity. Qed.

Ltac basic_fields :=
  cbn [BasicGui.cpu_history BasicGui.memory_history BasicGui.network_recv_history
       BasicGui.network_sent_history BasicGui.time_points BasicGui.prev_net_io
       BasicGui.prev_time BasicGui.scheduled
       BasicGui.set_time_points BasicGui.set_cpu_history BasicGui.set_memory_history
       BasicGui.set_network_recv_history BasicGui.set_network_sent_history BasicGui.set_prev
       BasicGui.schedule].

Lemma basic_cpu_loop_result (l : list F64.float) (i : nat) (st : BasicGui.state) :
  (i <= length (BasicGui.cpu_history st))%nat ->
  fst (Run.for_enumerate BasicGui.update_cpu_history i l st) =
  if (i + length l <=? length (BasicGui.cpu_history st))%nat then Ok tt else Raise IndexError.
Proof.
  revert i st. induction l as [|u l IH]; intros i st Hi.
  - cbn [Run.for_enumerate length fst Run.ret].
    destruct (Nat.leb_spec (i + 0) (length (BasicGui.cpu_history st))) as [H|H];
      [reflexivity|lia].
  - cbn [Run.for_enumerate length]. unfold Run.bind at 1.
    unfold BasicGui.update_cpu_history at 1. run_step.
    destruct (BasicGui.cpu_history st !! i) as [h|] eqn:Hh.
    + unfold Run.modify at 1. cbv beta iota.
      apply lookup_lt_Some in Hh.
      rewrite IH
        by (cbn [BasicGui.cpu_history BasicGui.set_cpu_history]; rewrite length_insert; lia).
      cbn [BasicGui.cpu_history BasicGui.set_cpu_history]. rewrite length_insert.
      replace (S i + length l)%nat with (i + S (length l))%nat by lia. reflexivity.
    + apply lookup_ge_None in Hh. unfold Run.lift. cbn [fst].
      destruct (Nat.leb_spec (i + S (length l)) (length (BasicGui.cpu_history st)));
        [lia|reflexivity].
Qed.

Lemma basic_tick_eq (r : reading) (st : BasicGui.state) :
  length (BasicGui.network_sent_history st) = length (BasicGui.network_recv_history st) ->
  BasicGui.update_data_tick r st = basic_tick_spec r st.
Proof.
  intros Hlen. unfold BasicGui.update_data_tick, basic_tick_spec.
  run_step. cbv zeta. run_step.
  pose proof (basic_cpu_loop_state (cpu_usage r) 0
                (BasicGui.set_time_points (fun h => push h (now r)) st)) as Hstate.
  pose proof (basic_cpu_loop_result (cpu_usage r) 0
                (BasicGui.set_time_points (fun h => push h (now r)) st) ltac:(lia)) as Hres.
  destruct (Run.for_enumerate BasicGui.update_cpu_history 0 (cpu_usage r) _)
    as [res s2] eqn:Hloop.
  cbn [fst snd BasicGui.cpu_history BasicGui.set_time_points Nat.add] in Hstate, Hres.
  subst s2 res.
  erewrite bind_outcome by exact Hloop.
  destruct (length (cpu_usage r) <=? length (BasicGui.cpu_history st))%nat.
  - run_step. run_step.
    destruct (per_sec (bytes_sent _) _ _) as [x|e].
    + run_step. destruct (per_sec (bytes_recv _) _ _) as [y|e].
      * erewrite bind_outcome by (apply basic_trim_network; exact Hlen).
        run_step. run_step. run_step. unfold Run.modify. f_equal.
        apply basic_state_ext; unfold basic_after_memory, basic_after_cpu; basic_fields;
          try reflexivity.
        unfold push. rewrite Hlen. reflexivity.
      * reflexivity.
    + reflexivity.
  - reflexivity.
Qed.

(** ** Rates and means that are produced *)

Lemma of_Z_pos_not_zero (p : positive) :
  Zpos p < 2 ^ 1023 -> exists x, float_of_int (Zpos p) = Ok x /\ F64.is_zero x = false.
Proof.
  intros Hp. unfold float_of_int.
  destruct (of_Z_normal p) as (m & e & -> & _); [apply digits2_pos_le; lia|].
  eexists. split; reflexivity.
Qed.

Lemma mean_ok (l : list F64.float) :
  l <> [] -> Z.of_nat (length l) < 2 ^ 1023 -> exists avg, mean l = Ok avg.
Proof.
  intros Hne Hlen. destruct l as [|u l]; [congruence|].
  unfold mean, truediv. cbn [to_float Py.bind].
  destruct (Z.of_nat (length (u :: l))) as [|p|p] eqn:Hn; [cbn in Hn; lia | | lia].
  destruct (of_Z_pos_not_zero p Hlen) as (y & -> & Hy). cbn [Py.bind]. rewrite Hy.
  eexists. reflexivity.
Qed.

Lemma per_sec_ok (curr prev : Z) (dt : F64.float) :
  F64.is_zero dt = false -> - 2 ^ 1023 < curr - prev < 2 ^ 1023 ->
  exists x, per_sec curr prev dt = Ok x.
Proof.
  intros Hz Hsmall. rewrite per_sec_nonzero_elapsed by exact Hz.
  destruct (float_of_int_ok (curr - prev) Hsmall) as [x ->]. eexists. reflexivity.
Qed.

(** A mantissa of more than 53 bits rounds to a normal float or, out of
    range, to an infinity: never to a zero. *)
Lemma binary_round_large_any (s : bool) (z : positive) :
  53 < Zpos (digits2_pos z) ->
  match binary_round F64.prec F64.emax s z 0 with
  | S754_finite _ _ _ | S754_infinity _ => True
  | _ => False
  end.
Proof.
  intros Hd. set (d := Zpos (digits2_pos z)) in *.
  unfold binary_round.
  assert (Hf : fexp F64.prec F64.emax (d + 0) = d - 53).
  { unfold fexp, emin, F64.prec, F64.emax. lia. }
  fold d. rewrite Hf. unfold shl_align.
  destruct (d - 53 - 0) as [|q|q] eqn:Hq; try lia.
  unfold binary_round_aux. unfold shr_fexp at 1. cbn [Zdigits2]. fold d. rewrite Hf.
  replace (d - 53 - 0) with (Zpos q) by lia. cbn [shr shr_record_of_loc].
  set (mrs := SpecFloat.iter_pos shr_1 q _).
  assert (Hm1 : shr_m mrs = Zpos z / 2 ^ Zpos q).
  { unfold mrs. rewrite shr_m_iter by (cbn; lia). reflexivity. }
  assert (Hpow : 0 < 2 ^ Zpos q) by (apply Z.pow_pos_nonneg; lia).
  assert (Hzlo : 2 ^ 52 * 2 ^ Zpos q <= Zpos z).
  { rewrite <- Z.pow_add_r by lia. replace (52 + Zpos q) with (d - 1) by lia.
    apply digits2_pos_lower. }
  assert (Hzhi : Zpos z < 2 ^ 53 * 2 ^ Zpos q).
  { rewrite <- Z.pow_add_r by lia. replace (53 + Zpos q) with d by lia.
    apply digits2_pos_gt. }
  assert (Hlo : 2 ^ 52 <= shr_m mrs)
    by (rewrite Hm1; apply Z.div_le_lower_bound; lia).
  assert (Hhi : shr_m mrs < 2 ^ 53)
    by (rewrite Hm1; apply Z.div_lt_upper_bound; lia).
  pose proof (round_nearest_even_bounds (shr_m mrs) (loc_of_shr_record mrs)) as Hr.
  set (m2 := round_nearest_even (shr_m mrs) (loc_of_shr_record mrs)) in *.
  destruct m2 as [|p2|p2] eqn:Hm2; try lia.
  destruct (Z_lt_le_dec (Zpos p2) (2 ^ 53)) as [Hlt|Hge].
  - assert (Hd2 : Zpos (digits2_pos p2) = 53) by (apply digits2_pos_eq; lia).
    unfold shr_fexp. cbn [Zdigits2 shr_record_of_loc]. rewrite Hd2.
    assert (Hf2 : fexp F64.prec F64.emax (53 + (0 + Zpos q)) - (0 + Zpos q) = 0).
    { unfold fexp, emin, F64.prec, F64.emax. lia. }
    rewrite Hf2. cbn [shr shr_m].
    destruct (0 + Zpos q <=? F64.emax - F64.prec); exact I.
  - assert (Hp2 : p2 = 9007199254740992%positive).
    { apply Pos2Z.inj. change (Zpos 9007199254740992) with (2 ^ 53). lia. }
    subst p2.
    unfold shr_fexp. cbn [Zdigits2 shr_record_of_loc].
    change (Zpos (digits2_pos 9007199254740992)) with 54.
    assert (Hf2 : fexp F64.prec F64.emax (54 + (0 + Zpos q)) - (0 + Zpos q) = 1).
    { unfold fexp, emin, F64.prec, F64.emax. lia. }
    rewrite Hf2. cbn [shr SpecFloat.iter_pos shr_1 shr_m].
    destruct (0 + Zpos q + 1 <=? F64.emax - F64.prec); exact I.
Qed.

(** A converted integer is a zero only when the integer is 0. *)
Lemma float_of_int_not_zero (z : Z) (x : F64.float) :
  z <> 0 -> float_of_int z = Ok x -> F64.is_zero x = false.
Proof.
  intros Hz. unfold float_of_int, F64.of_Z, binary_normalize.
  assert (H : forall s p y,
             match binary_round F64.prec F64.emax s p 0 with
             | S754_infinity _ => Raise OverflowError
             | f => Ok f
             end = Ok y -> F64.is_zero y = false).
  { intros s p y. destruct (Z_le_gt_dec (Zpos (digits2_pos p)) 53) as [Hd|Hd].
    - rewrite binary_round_exact by exact Hd. intros [= <-]. reflexivity.
    - pose proof (binary_round_large_any s p ltac:(lia)) as Hl.
      destruct (binary_round F64.prec F64.emax s p 0); try contradiction;
        [discriminate | intros [= <-]; reflexivity]. }
  destruct z as [|p|p]; [congruence | apply H | apply H].
Qed.

(** The alerting leaves everything but its two flags and the notifications. *)
Lemma transitions_frame (N : bool) (avg pct : F64.float) (st : Gui.state) :
  let st' := memory_transition N pct (cpu_transition N avg st) in
  Gui.config st' = Gui.config st
  /\ Gui.cpu_history st' = Gui.cpu_history st
  /\ Gui.memory_history st' = Gui.memory_history st
  /\ Gui.network_recv_history st' = Gui.network_recv_history st
  /\ Gui.network_sent_history st' = Gui.network_sent_history st
  /\ Gui.time_points st' = Gui.time_points st
  /\ Gui.prev_net_io st' = Gui.prev_net_io st
  /\ Gui.prev_time st' = Gui.prev_time st
  /\ Gui.scheduled st' = Gui.scheduled st
  /\ Gui.printed st' = Gui.printed st.
Proof.
  unfold memory_transition, cpu_transition, raise_alert.
  destruct (F64.gtb_Z avg 90), (Gui.cpu_notified st), (F64.ltb_Z avg 70), N;
    cbn;
    destruct (F64.gtb_Z pct 85), (Gui.memory_notified st), (F64.ltb_Z pct 75);
    cbn; repeat split.
Qed.

(** * Bounded histories in the two update loops *)

(** A pass that completes: every series receives its push and the reading
    becomes the previous one. *)
Lemma gui_tick_completes (N : bool) (r : reading) (st : Gui.state) (x y avg : F64.float) :
  length (Gui.network_sent_history st) = length (Gui.network_recv_history st) ->
  (length (cpu_usage r) <= length (Gui.cpu_history st))%nat ->
  per_sec (bytes_sent (current_net_io r)) (bytes_sent (Gui.prev_net_io st))
    (F64.sub (current_time r) (Gui.prev_time st)) = Ok x ->
  per_sec (bytes_recv (current_net_io r)) (bytes_recv (Gui.prev_net_io st))
    (F64.sub (current_time r) (Gui.prev_time st)) = Ok y ->
  mean (cpu_usage r) = Ok avg ->
  let st' := Gui.update_data_tick N r st in
  Gui.time_points st' = push (Gui.time_points st) (now r)
  /\ Gui.cpu_history st' = push_each 0 (cpu_usage r) (Gui.cpu_history st)
  /\ Gui.memory_history st' = push (Gui.memory_history st) (percent (memory r))
  /\ Gui.network_sent_history st' = push (Gui.network_sent_history st) x
  /\ Gui.network_recv_history st' = push (Gui.network_recv_history st) y
  /\ Gui.prev_net_io st' = current_net_io r
  /\ Gui.prev_time st' = current_time r.
Proof.
  intros Hlen Hfit Hx Hy Havg st'. subst st'.
  rewrite (gui_tick_eq N r st Hlen). unfold gui_tick_spec.
  rewrite (proj2 (Nat.leb_le _ _) Hfit), Hx, Hy, Havg. cbv zeta.
  destruct (N && Gui.enable_notifications (Gui.config st)).
  - destruct (transitions_frame N avg (percent (memory r)) (gui_after_schedule r x y st))
      as (_ & Hc & Hm & Hr & Hs & Ht & _).
    gui_fields. rewrite Hc, Hm, Hr, Hs, Ht.
    unfold gui_after_schedule, gui_after_memory, gui_after_cpu. gui_fields. repeat split.
  - unfold gui_after_schedule, gui_after_memory, gui_after_cpu. gui_fields. repeat split.
Qed.

Lemma basic_tick_completes (r : reading) (st : BasicGui.state) (x y : F64.float) :
  length (BasicGui.network_sent_history st) = length (BasicGui.network_recv_history st) ->
  (length (cpu_usage r) <= length (BasicGui.cpu_history st))%nat ->
  per_sec (bytes_sent (current_net_io r)) (bytes_sent (BasicGui.prev_net_io st))
    (F64.sub (current_time r) (BasicGui.prev_time st)) = Ok x ->
  per_sec (bytes_recv (current_net_io r)) (bytes_recv (BasicGui.prev_net_io st))
    (F64.sub (current_time r) (BasicGui.prev_time st)) = Ok y ->
  exists st',
    BasicGui.update_data_tick r st = (Ok tt, st')
    /\ BasicGui.time_points st' = push (BasicGui.time_points st) (now r)
    /\ BasicGui.cpu_history st' = push_each 0 (cpu_usage r) (BasicGui.cpu_history st)
    /\ BasicGui.memory_history st' = push (BasicGui.memory_history st) (percent (memory r))
    /\ BasicGui.network_sent_history st' = push (BasicGui.network_sent_history st) x
    /\ BasicGui.network_recv_history st' = push (BasicGui.network_recv_history st) y
    /\ BasicGui.prev_net_io st' = current_net_io r
    /\ BasicGui.prev_time st' = current_time r.
Proof.
  intros Hlen Hfit Hx Hy.
  rewrite (basic_tick_eq r st Hlen). unfold basic_tick_spec.
  rewrite (proj2 (Nat.leb_le _ _) Hfit), Hx, Hy.
  eexists. split; [reflexivity|].
  unfold basic_after_memory, basic_after_cpu. basic_fields. repeat split.
Qed.

(** The loop over the cores, pass after pass, seen from one series. *)
Lemma fold_push_each_length (rs : list reading) (hs : list (list F64.float)) :
  length (fold_left (fun hs r => push_each 0 (cpu_usage r) hs) rs hs) = length hs.
Proof.
  revert hs. induction rs as [|r rs IH]; intros hs; [reflexivity|].
  cbn [fold_left]. rewrite IH. apply push_each_length.
Qed.

Lemma fold_push_each_lookup (rs : list reading) (hs : list (list F64.float)) (i : nat)
    (h : list F64.float) :
  hs !! i = Some h ->
  Forall (fun r => length (cpu_usage r) = length hs) rs ->
  fold_left (fun hs r => push_each 0 (cpu_usage r) hs) rs hs !! i
  = Some (fold_left push (loads_of i rs) h).
Proof.
  revert hs h. induction rs as [|r rs IH]; intros hs h Hi Hall; [exact Hi|].
  apply Forall_cons in Hall as [Hr Hall].
  cbn [fold_left loads_of map]. apply IH.
  - rewrite push_each_lookup. cbn [Nat.ltb Nat.leb]. rewrite Hi, Nat.sub_0_r.
    pose proof (lookup_lt_Some _ _ _ Hi) as Hlt.
    destruct (lookup_lt_is_Some_2 (cpu_usage r) i ltac:(lia)) as [u Hu].
    rewrite Hu. f_equal. f_equal. symmetry. apply nth_lookup_Some with (d := F64.zero) in Hu.
    exact Hu.
  - rewrite push_each_length. exact Hall.
Qed.

(** What a run of passes that all complete leaves in the five series of
    the feature-rich GUI. *)
Lemma gui_run_pushes (N : bool) (rs : list reading) (st : Gui.state)
    (xs ys : list F64.float) :
  length (Gui.network_sent_history st) = length (Gui.network_recv_history st) ->
  Forall (fun r => length (cpu_usage r) = length (Gui.cpu_history st)
                   /\ exists avg, mean (cpu_usage r) = Ok avg) rs ->
  rates bytes_sent (Gui.prev_net_io st) (Gui.prev_time st) rs = map Ok xs ->
  rates bytes_recv (Gui.prev_net_io st) (Gui.prev_time st) rs = map Ok ys ->
  let st' := Gui.update_data N rs st in
  Gui.time_points st' = fold_left push (map now rs) (Gui.time_points st)
  /\ Gui.cpu_history st'
     = fold_left (fun hs r => push_each 0 (cpu_usage r) hs) rs (Gui.cpu_history st)
  /\ Gui.memory_history st'
     = fold_left push (map (fun r => percent (memory r)) rs) (Gui.memory_history st)
  /\ Gui.network_sent_history st' = fold_left push xs (Gui.network_sent_history st)
  /\ Gui.network_recv_history st' = fold_left push ys (Gui.network_recv_history st).
Proof.
  revert st xs ys. induction rs as [|r rs IH]; intros st xs ys Hlen Hall Hxs Hys.
  - destruct xs; [|discriminate]. destruct ys; [|discriminate]. repeat split.
  - apply Forall_cons in Hall as [[Hfit [avg Havg]] Hall].
    destruct xs as [|x xs]; [discriminate|]. destruct ys as [|y ys]; [discriminate|].
    cbn [rates map] in Hxs, Hys. injection Hxs as Hx Hxs. injection Hys as Hy Hys.
    destruct (gui_tick_completes N r st x y avg Hlen ltac:(lia) Hx Hy Havg)
      as (Et & Ec & Em & Es & Er & Epn & Ept).
    cbn [Gui.update_data fold_left map].
    change (fold_left (fun s r0 => Gui.update_data_tick N r0 s) rs (Gui.update_data_tick N r st))
      with (Gui.update_data N rs (Gui.update_data_tick N r st)).
    specialize (IH (Gui.update_data_tick N r st) xs ys).
    rewrite Et, Ec, Em, Es, Er, Epn, Ept in IH. rewrite push_each_length in IH.
    apply IH; [apply push_same_length, Hlen | exact Hall | exact Hxs | exact Hys].
Qed.

Lemma basic_run_pushes (rs : list reading) (st : BasicGui.state) (xs ys : list F64.float) :
  length (BasicGui.network_sent_history st) = length (BasicGui.network_recv_history st) ->
  Forall (fun r => length (cpu_usage r) = length (BasicGui.cpu_history st)) rs ->
  rates bytes_sent (BasicGui.prev_net_io st) (BasicGui.prev_time st) rs = map Ok xs ->
  rates bytes_recv (BasicGui.prev_net_io st) (BasicGui.prev_time st) rs = map Ok ys ->
  exists st',
    BasicGui.update_data rs st = (Ok tt, st')
    /\ BasicGui.time_points st' = fold_left push (map now rs) (BasicGui.time_points st)
    /\ BasicGui.cpu_history st'
       = fold_left (fun hs r => push_each 0 (cpu_usage r) hs) rs (BasicGui.cpu_history st)
    /\ BasicGui.memory_history st'
       = fold_left push (map (fun r => percent (memory r)) rs) (BasicGui.memory_history st)
    /\ BasicGui.network_sent_history st' = fold_left push xs (BasicGui.network_sent_history st)
    /\ BasicGui.network_recv_history st' = fold_left push ys (BasicGui.network_recv_history st).
Proof.
  revert st xs ys. induction rs as [|r rs IH]; intros st xs ys Hlen Hall Hxs Hys.
  - destruct xs; [|discriminate]. destruct ys; [|discriminate].
    exists st. repeat split.
  - apply Forall_cons in Hall as [Hfit Hall].
    destruct xs as [|x xs]; [discriminate|]. destruct ys as [|y ys]; [discriminate|].
    cbn [rates map] in Hxs, Hys. injection Hxs as Hx Hxs. injection Hys as Hy Hys.
    destruct (basic_tick_completes r st x y Hlen ltac:(lia) Hx Hy)
      as (st1 & Etick & Et & Ec & Em & Es & Er & Epn & Ept).
    cbn [BasicGui.update_data fold_left map].
    erewrite bind_outcome by exact Etick.
    specialize (IH st1 xs ys).
    rewrite Et, Ec, Em, Es, Er, Epn, Ept in IH. rewrite push_each_length in IH.
    apply IH; [apply push_same_length, Hlen | exact Hall | exact Hxs | exact Hys].
Qed.

(** From empty series, [60 + k] pushes leave the last 60 values. *)
Lemma fold_push_last {A : Type} (l : list A) (k : nat) :
  length l = (MAX_HISTORY + k)%nat -> fold_left push l [] = drop k l.
Proof.
  intros Hl. rewrite fold_push_drop by (cbn; lia). cbn [app]. f_equal. lia.
Qed.

Lemma cpu_series_last (rs : list reading) (ncores k : nat) :
  length rs = (MAX_HISTORY + k)%nat ->
  Forall (fun r => length (cpu_usage r) = ncores) rs ->
  fold_left (fun hs r => push_each 0 (cpu_usage r) hs) rs (replicate ncores [])
  = map (fun i => drop k (loads_of i rs)) (seq 0 ncores).
Proof.
  intros Hrs Hall. apply list_eq. intros i.
  destruct (Nat.lt_ge_cases i ncores) as [Hi|Hi].
  - rewrite (fold_push_each_lookup rs _ i []).
    + rewrite list_lookup_fmap, lookup_seq_lt by exact Hi.
      cbn [fmap option_fmap option_map Nat.add].
      f_equal. apply fold_push_last. unfold loads_of. rewrite length_map. exact Hrs.
    + apply lookup_replicate_2. exact Hi.
    + rewrite length_replicate. exact Hall.
  - rewrite (proj2 (lookup_ge_None _ i))
      by (rewrite fold_push_each_length, length_replicate; exact Hi).
    symmetry. apply lookup_ge_None. rewrite length_map, length_seq. exact Hi.
Qed.
(** C4: with the capacity 60, pushing [60 + k] values, [k >= 1], into an
    empty series leaves exactly 60 values, the last 60 pushed, in push
    order, and every push keeps a series of at most 60 values within 60.
    So it is for every series of the two update loops: after [60 + k]
    passes from start-up that all complete, on a machine of [ncores] cores
    ([1 <= ncores < 2^1023]), the time series, every CPU series, the memory
    series and the two network series of the feature-rich GUI and of the
    basic GUI hold the values of the last 60 passes, in order. *)
Theorem C4_history_keeps_last_values {A : Type} (vs : list A) (k : nat)
    (N : bool) (ncores : nat) (net0 : net_io) (t0 : F64.float) (rs : list reading)
    (sent recv : list F64.float) :
  (1 <= k)%nat ->
  length vs = (MAX_HISTORY + k)%nat ->
  length rs = (MAX_HISTORY + k)%nat ->
  (1 <= ncores)%nat ->
  Z.of_nat ncores < 2 ^ 1023 ->
  Forall (fun r => length (cpu_usage r) = ncores) rs ->
  rates bytes_sent net0 t0 rs = map Ok sent ->
  rates bytes_recv net0 t0 rs = map Ok recv ->
  (MAX_HISTORY = 60%nat
   /\ fold_left push vs [] = drop k vs
   /\ length (fold_left push vs []) = MAX_HISTORY
   /\ (forall (h : list A) (v : A),
         (length h <= MAX_HISTORY)%nat -> (length (push h v) <= MAX_HISTORY)%nat))
  /\ (let st := Gui.update_data N rs (Gui.init ncores net0 t0) in
      Gui.time_points st = drop k (map now rs)
      /\ Gui.cpu_history st = map (fun i => drop k (loads_of i rs)) (seq 0 ncores)
      /\ Gui.memory_history st = drop k (map (fun r => percent (memory r)) rs)
      /\ Gui.network_sent_history st = drop k sent
      /\ Gui.network_recv_history st = drop k recv)
  /\ (exists st,
        BasicGui.update_data rs (BasicGui.init ncores net0 t0) = (Ok tt, st)
        /\ BasicGui.time_points st = drop k (map now rs)
        /\ BasicGui.cpu_history st = map (fun i => drop k (loads_of i rs)) (seq 0 ncores)
        /\ BasicGui.memory_history st = drop k (map (fun r => percent (memory r)) rs)
        /\ BasicGui.network_sent_history st = drop k sent
        /\ BasicGui.network_recv_history st = drop k recv).
Proof.
  intros Hk Hlen Hrs Hcores Hsmall Hall Hsent Hrecv.
  assert (Ls : length sent = (MAX_HISTORY + k)%nat).
  { rewrite <- Hrs, <- (length_map Ok sent), <- Hsent. clear.
    generalize net0 t0. induction rs as [|r l IH]; intros n t; [reflexivity|].
    cbn [rates length]. f_equal. apply IH. }
  assert (Lr : length recv = (MAX_HISTORY + k)%nat).
  { rewrite <- Hrs, <- (length_map Ok recv), <- Hrecv. clear.
    generalize net0 t0. induction rs as [|r l IH]; intros n t; [reflexivity|].
    cbn [rates length]. f_equal. apply IH. }
  split; [|split].
  - split; [reflexivity|]. split; [exact (fold_push_last vs k Hlen)|]. split.
    + rewrite (fold_push_last vs k Hlen), length_drop. lia.
    + intros h v. apply push_length_le.
  - assert (Hall' : Forall (fun r => length (cpu_usage r)
                                     = length (Gui.cpu_history (Gui.init ncores net0 t0))
                                     /\ exists avg, mean (cpu_usage r) = Ok avg) rs).
    { eapply Forall_impl; [exact Hall|]. intros r Hr. cbv beta in Hr.
      cbn [Gui.cpu_history Gui.init].
      rewrite length_replicate. split; [exact Hr|].
      apply mean_ok; [intros E; rewrite E in Hr; cbn in Hr; lia | rewrite Hr; exact Hsmall]. }
    destruct (gui_run_pushes N rs (Gui.init ncores net0 t0) sent recv eq_refl Hall'
                Hsent Hrecv) as (Et & Ec & Em & Es & Er).
    cbv zeta. rewrite Et, Ec, Em, Es, Er. cbn [Gui.time_points Gui.cpu_history
      Gui.memory_history Gui.network_sent_history Gui.network_recv_history Gui.init].
    split; [apply fold_push_last; rewrite length_map; exact Hrs|].
    split; [apply cpu_series_last; assumption|].
    split; [apply fold_push_last; rewrite length_map; exact Hrs|].
    split; apply fold_push_last; assumption.
  - assert (Hall' : Forall (fun r => length (cpu_usage r)
                                     = length (BasicGui.cpu_history
                                                 (BasicGui.init ncores net0 t0))) rs).
    { eapply Forall_impl; [exact Hall|]. intros r Hr. cbv beta in Hr.
      cbn [BasicGui.cpu_history BasicGui.init].
      rewrite length_replicate. exact Hr. }
    destruct (basic_run_pushes rs (BasicGui.init ncores net0 t0) sent recv eq_refl Hall'
                Hsent Hrecv) as (st & Erun & Et & Ec & Em & Es & Er).
    exists st. split; [exact Erun|]. rewrite Et, Ec, Em, Es, Er.
    cbn [BasicGui.time_points BasicGui.cpu_history BasicGui.memory_history
         BasicGui.network_sent_history BasicGui.network_recv_history BasicGui.init].
    split; [apply fold_push_last; rewrite length_map; exact Hrs|].
    split; [apply cpu_series_last; assumption|].
    split; [apply fold_push_last; rewrite length_map; exact Hrs|].
    split; apply fold_push_last; assumption.
Qed.

Lemma C4_history_keeps_last_values_witness :
  let vs := seq 0 62 in
  let rs := map (fun t => Sample.at_time (Z.of_nat t) 10 (1000 * Z.of_nat t)) (seq 1 62) in
  let sent := replicate 62 (F64.of_Z 1000) in
  let recv := replicate 62 F64.zero in
  (1 <= 2)%nat
  /\ length vs = (MAX_HISTORY + 2)%nat
  /\ length rs = (MAX_HISTORY + 2)%nat
  /\ Forall (fun r => length (cpu_usage r) = 1%nat) rs
  /\ rates bytes_sent (Sample.counters 0) (F64.of_Z 0) rs = map Ok sent
  /\ rates bytes_recv (Sample.counters 0) (F64.of_Z 0) rs = map Ok recv
  /\ fold_left push vs [] = seq 2 60
  /\ Gui.cpu_history (Gui.update_data true rs (Gui.init 1 (Sample.counters 0) (F64.of_Z 0)))
     = [replicate 60 (F64.of_Z 10)]
  /\ Gui.network_sent_history
       (Gui.update_data true rs (Gui.init 1 (Sample.counters 0) (F64.of_Z 0)))
     = replicate 60 (F64.of_Z 1000)
  /\ (exists st,
        BasicGui.update_data rs (BasicGui.init 1 (Sample.counters 0) (F64.of_Z 0)) = (Ok tt, st)
        /\ BasicGui.network_recv_history st = replicate 60 F64.zero).
Proof.
  intros vs rs sent recv.
  assert (H1 : (1 <= 2)%nat) by lia.
  assert (H2 : length vs = (MAX_HISTORY + 2)%nat) by reflexivity.
  assert (H3 : length rs = (MAX_HISTORY + 2)%nat) by reflexivity.
  assert (H4 : (1 <= 1)%nat) by lia.
  assert (H5 : Z.of_nat 1 < 2 ^ 1023) by reflexivity.
  assert (H6 : Forall (fun r => length (cpu_usage r) = 1%nat) rs).
  { subst rs. apply Forall_map. apply Forall_forall. intros t _. reflexivity. }
  assert (H7 : rates bytes_sent (Sample.counters 0) (F64.of_Z 0) rs = map Ok sent)
    by (vm_compute; reflexivity).
  assert (H8 : rates bytes_recv (Sample.counters 0) (F64.of_Z 0) rs = map Ok recv)
    by (vm_compute; reflexivity).
  destruct (C4_history_keeps_last_values vs 2 true 1 (Sample.counters 0) (F64.of_Z 0) rs
              sent recv H1 H2 H3 H4 H5 H6 H7 H8)
    as ((_ & E & _) & (_ & Ec & _ & Es & _) & (st & Eb & _ & _ & _ & _ & Er)).
  split; [exact H1 | split; [exact H2 | split; [exact H3 | split; [exact H6 |]]]].
  split; [exact H7 | split; [exact H8 | split; [exact E |]]].
  split; [rewrite Ec; vm_compute; reflexivity|].
  split; [rewrite Es; reflexivity|].
  exists st. split; [exact Eb | rewrite Er; reflexivity].
Defined.
(** * Ticks with a zero or a negative elapsed time *)



(** * The histories stay bounded and aligned *)

Lemma series_bounded_tick (tp : list string) (hs : list (list F64.float)) (mh sh rh : list F64.float)
    (t : string) (us : list F64.float) :
  series_bounded tp hs mh sh rh ->
  forall mh' sh' rh',
    (mh' = mh \/ exists v, mh' = push mh v) ->
    (sh' = sh \/ exists v, sh' = push sh v) ->
    (rh' = rh \/ exists v, rh' = push rh v) ->
    series_bounded (push tp t) (push_each 0 us hs) mh' sh' rh'.
Proof.
  intros (Ht & Hc & Hm & Hs & Hr) mh' sh' rh' Em Es Er.
  split; [apply push_length_le, Ht|]. split.
  { apply (push_each_Forall (fun h => (length h <= MAX_HISTORY)%nat)); auto.
    intros h u. apply push_length_le. }
  split; [destruct Em as [->|[v ->]]; [exact Hm | apply push_length_le, Hm]|].
  split; [destruct Es as [->|[v ->]]; [exact Hs | apply push_length_le, Hs]|].
  destruct Er as [->|[v ->]]; [exact Hr | apply push_length_le, Hr].
Qed.

Lemma series_aligned_tick (tp : list string) (hs : list (list F64.float)) (mh sh rh : list F64.float)
    (t : string) (us : list F64.float) :
  series_aligned tp hs mh sh rh ->
  forall mh' sh' rh',
    (mh' = mh /\ sh' = sh /\ rh' = rh)
    \/ (exists v, mh' = push mh v /\ sh' = sh /\ rh' = rh)
    \/ (exists v x y, mh' = push mh v /\ sh' = push sh x /\ rh' = push rh y) ->
    series_aligned (push tp t) (push_each 0 us hs) mh' sh' rh'.
Proof.
  intros (Hsr & Hsm & Hmt & Hc) mh' sh' rh' E.
  assert (Hcpu : Forall (fun h => (length h <= length (push tp t))%nat) (push_each 0 us hs)).
  { apply (push_each_Forall (fun h => (length h <= length tp)%nat)).
    - intros h Hh. pose proof (push_length_ge tp t). lia.
    - intros h u Hh. apply push_length_mono, Hh.
    - exact Hc. }
  pose proof (push_length_ge tp t) as Hge.
  destruct E as [(-> & -> & ->)|[(v & -> & -> & ->)|(v & x & y & -> & -> & ->)]].
  - repeat split; try assumption; lia.
  - pose proof (push_length_ge mh v).
    repeat split; try assumption; try lia. apply push_length_mono, Hmt.
  - repeat split; try assumption.
    + apply push_same_length, Hsr.
    + apply push_length_mono, Hsm.
    + apply push_length_mono, Hmt.
Qed.

(** The five histories after a tick, whatever the tick does. *)
Lemma gui_tick_histories (N : bool) (r : reading) (st : Gui.state) :
  length (Gui.network_sent_history st) = length (Gui.network_recv_history st) ->
  let st' := Gui.update_data_tick N r st in
  Gui.time_points st' = push (Gui.time_points st) (now r)
  /\ Gui.cpu_history st' = push_each 0 (cpu_usage r) (Gui.cpu_history st)
  /\ ((Gui.memory_history st' = Gui.memory_history st
       /\ Gui.network_sent_history st' = Gui.network_sent_history st
       /\ Gui.network_recv_history st' = Gui.network_recv_history st)
      \/ (exists v, Gui.memory_history st' = push (Gui.memory_history st) v
                    /\ Gui.network_sent_history st' = Gui.network_sent_history st
                    /\ Gui.network_recv_history st' = Gui.network_recv_history st)
      \/ (exists v x y, Gui.memory_history st' = push (Gui.memory_history st) v
                        /\ Gui.network_sent_history st' = push (Gui.network_sent_history st) x
                        /\ Gui.network_recv_history st' = push (Gui.network_recv_history st) y)).
Proof.
  intros Hlen st'. subst st'. rewrite (gui_tick_eq N r st Hlen). unfold gui_tick_spec.
  destruct (length (cpu_usage r) <=? length (Gui.cpu_history st))%nat.
  2:{ split; [reflexivity|]. split; [reflexivity|]. left. repeat split. }
  destruct (per_sec (bytes_sent _) _ _) as [x|e].
  2:{ split; [reflexivity|]. split; [reflexivity|]. right. left. eexists. repeat split. }
  destruct (per_sec (bytes_recv _) _ _) as [y|e].
  2:{ split; [reflexivity|]. split; [reflexivity|]. right. left. eexists. repeat split. }
  cbv zeta.
  assert (Hdone : forall s,
            Gui.time_points s = Gui.time_points (gui_after_schedule r x y st) ->
            Gui.cpu_history s = Gui.cpu_history (gui_after_schedule r x y st) ->
            Gui.memory_history s = Gui.memory_history (gui_after_schedule r x y st) ->
            Gui.network_sent_history s = Gui.network_sent_history (gui_after_schedule r x y st) ->
            Gui.network_recv_history s = Gui.network_recv_history (gui_after_schedule r x y st) ->
            Gui.time_points s = push (Gui.time_points st) (now r)
            /\ Gui.cpu_history s = push_each 0 (cpu_usage r) (Gui.cpu_history st)
            /\ ((Gui.memory_history s = Gui.memory_history st
                 /\ Gui.network_sent_history s = Gui.network_sent_history st
                 /\ Gui.network_recv_history s = Gui.network_recv_history st)
                \/ (exists v, Gui.memory_history s = push (Gui.memory_history st) v
                      /\ Gui.network_sent_history s = Gui.network_sent_history st
                      /\ Gui.network_recv_history s = Gui.network_recv_history st)
                \/ (exists v x y, Gui.memory_history s = push (Gui.memory_history st) v
                      /\ Gui.network_sent_history s = push (Gui.network_sent_history st) x
                      /\ Gui.network_recv_history s = push (Gui.network_recv_history st) y))).
  { intros s -> -> -> -> ->. split; [reflexivity|]. split; [reflexivity|].
    right. right. eexists _, x, y. repeat split. }
  destruct (N && Gui.enable_notifications (Gui.config st)).
  - destruct (mean (cpu_usage r)) as [avg|e].
    + destruct (transitions_frame N avg (percent (memory r)) (gui_after_schedule r x y st))
        as (_ & Hc & Hm & Hr & Hs & Ht & _).
      apply Hdone; cbn [Gui.set_prev Gui.time_points Gui.cpu_history Gui.memory_history
                         Gui.network_sent_history Gui.network_recv_history]; assumption.
    + apply Hdone; reflexivity.
  - apply Hdone; reflexivity.
Qed.

Lemma gui_inv_tick (N : bool) (r : reading) (st : Gui.state) :
  gui_bounded st /\ gui_aligned st ->
  gui_bounded (Gui.update_data_tick N r st) /\ gui_aligned (Gui.update_data_tick N r st).
Proof.
  intros [Hb Ha].
  destruct (gui_tick_histories N r st (proj1 Ha)) as (Ht & Hc & Hrest).
  unfold gui_bounded, gui_aligned. rewrite Ht, Hc.
  destruct Hrest as [(-> & -> & ->)|[(v & -> & -> & ->)|(v & x & y & -> & -> & ->)]].
  - split; [eapply series_bounded_tick; [exact Hb|..] | eapply series_aligned_tick; [exact Ha|]]; auto.
  - split; [eapply series_bounded_tick; [exact Hb|..] | eapply series_aligned_tick; [exact Ha|]]; eauto 8.
  - split; [eapply series_bounded_tick; [exact Hb|..] | eapply series_aligned_tick; [exact Ha|]]; eauto 10.
Qed.

Lemma gui_inv_fresh (st : Gui.state) (ncores : nat) :
  Gui.time_points st = [] -> Gui.cpu_history st = replicate ncores [] ->
  Gui.memory_history st = [] -> Gui.network_sent_history st = [] ->
  Gui.network_recv_history st = [] ->
  gui_bounded st /\ gui_aligned st.
Proof.
  intros Ht Hc Hm Hs Hr. unfold gui_bounded, gui_aligned, series_bounded, series_aligned.
  rewrite Ht, Hc, Hm, Hs, Hr. cbn [length].
  repeat split; try lia; apply Forall_replicate; cbn; lia.
Qed.

Lemma gui_inv_perform (N : bool) (a : action) (st : Gui.state) :
  gui_bounded st /\ gui_aligned st ->
  gui_bounded (perform N st a) /\ gui_aligned (perform N st a).
Proof.
  intros H. destruct a as [[r|e]|ncores|theme interval history notifications];
    cbn [perform gui_update_pass].
  - apply gui_inv_tick, H.
  - exact H.
  - apply (gui_inv_fresh _ ncores); reflexivity.
  - exact H.
Qed.

Lemma gui_inv_session (N : bool) (actions : list action) (st : Gui.state) :
  gui_bounded st /\ gui_aligned st ->
  gui_bounded (session N actions st) /\ gui_aligned (session N actions st).
Proof.
  revert st. induction actions as [|a actions IH]; intros st H; [exact H|].
  cbn [session fold_left]. apply IH, gui_inv_perform, H.
Qed.

Lemma gui_inv_init (ncores : nat) (net0 : net_io) (t0 : F64.float) :
  gui_bounded (Gui.init ncores net0 t0) /\ gui_aligned (Gui.init ncores net0 t0).
Proof. apply (gui_inv_fresh _ ncores); reflexivity. Qed.


(** X2: in the feature-rich GUI, between passes of the update loop: from
    start-up and through any sequence of passes (those that fail and those
    whose provider calls raise included) and saved settings, as long as the
    graphs are not reset, the two network series have the same length, they
    are not longer than the memory series, the memory series is not longer
    than the time series, and no CPU series is longer than the time series.
    A pass that fails leaves the later series behind, it never lets one of
    them get ahead. *)
Theorem X2_gui_histories_aligned (N : bool) (actions : list action) (ncores : nat)
    (net0 : net_io) (t0 : F64.float) :
  forallb no_reset actions = true ->
  let st := session N actions (Gui.init ncores net0 t0) in
  length (Gui.network_sent_history st) = length (Gui.network_recv_history st)
  /\ (length (Gui.network_sent_history st) <= length (Gui.memory_history st))%nat
  /\ (length (Gui.memory_history st) <= length (Gui.time_points st))%nat
  /\ Forall (fun h => (length h <= length (Gui.time_points st))%nat) (Gui.cpu_history st).
Proof.
  intros _ st.
  exact (proj2 (gui_inv_session N actions _ (gui_inv_init ncores net0 t0))).
Qed.

Lemma X2_gui_histories_aligned_witness :
  let actions :=
    [ Pass (Ok (Sample.at_time 1 10 2000));
      Pass (Raise (Other "PermissionError"));
      SaveSettings "dark" 2 30 false;
      Pass (Ok (Sample.at_time 1 10 2000));
      Pass (Ok (Cases.reading_of 2 [10; 20] 50 3000)) ] in
  let st := session true actions Sample.gui0 in
  forallb no_reset actions = true
  /\ length (Gui.network_sent_history st) = length (Gui.network_recv_history st)
  /\ (length (Gui.memory_history st) <= length (Gui.time_points st))%nat
  /\ length (Gui.time_points st) = 3%nat
  /\ length (Gui.memory_history st) = 2%nat
  /\ length (Gui.network_sent_history st) = 1%nat.
Proof.
  intros actions st.
  assert (H : forallb no_reset actions = true) by reflexivity.
  destruct (X2_gui_histories_aligned true actions 1 (Sample.counters 1000) (F64.of_Z 0) H)
    as (Hsr & _ & Hmt & _).
  split; [exact H | split; [exact Hsr | split; [exact Hmt |]]].
  repeat split; reflexivity.
Defined.

(** ** The histories of the basic GUI *)

Lemma basic_tick_histories (r : reading) (st : BasicGui.state) :
  length (BasicGui.network_sent_history st) = length (BasicGui.network_recv_history st) ->
  let st' := snd (BasicGui.update_data_tick r st) in
  BasicGui.time_points st' = push (BasicGui.time_points st) (now r)
  /\ BasicGui.cpu_history st' = push_each 0 (cpu_usage r) (BasicGui.cpu_history st)
  /\ ((BasicGui.memory_history st' = BasicGui.memory_history st
       /\ BasicGui.network_sent_history st' = BasicGui.network_sent_history st
       /\ BasicGui.network_recv_history st' = BasicGui.network_recv_history st)
      \/ (exists v, BasicGui.memory_history st' = push (BasicGui.memory_history st) v
                    /\ BasicGui.network_sent_history st' = BasicGui.network_sent_history st
                    /\ BasicGui.network_recv_history st' = BasicGui.network_recv_history st)
      \/ (exists v x y,
             BasicGui.memory_history st' = push (BasicGui.memory_history st) v
             /\ BasicGui.network_sent_history st' = push (BasicGui.network_sent_history st) x
             /\ BasicGui.network_recv_history st' = push (BasicGui.network_recv_history st) y)).
Proof.
  intros Hlen st'. subst st'. rewrite (basic_tick_eq r st Hlen). unfold basic_tick_spec.
  destruct (length (cpu_usage r) <=? length (BasicGui.cpu_history st))%nat.
  2:{ split; [reflexivity|]. split; [reflexivity|]. left. repeat split. }
  destruct (per_sec (bytes_sent _) _ _) as [x|e].
  2:{ split; [reflexivity|]. split; [reflexivity|]. right. left. eexists. repeat split. }
  destruct (per_sec (bytes_recv _) _ _) as [y|e].
  2:{ split; [reflexivity|]. split; [reflexivity|]. right. left. eexists. repeat split. }
  split; [reflexivity|]. split; [reflexivity|].
  right. right. eexists _, x, y. repeat split.
Qed.

Lemma basic_inv_tick (r : reading) (st : BasicGui.state) :
  basic_bounded st /\ basic_aligned st ->
  basic_bounded (snd (BasicGui.update_data_tick r st))
  /\ basic_aligned (snd (BasicGui.update_data_tick r st)).
Proof.
  intros [Hb Ha].
  destruct (basic_tick_histories r st (proj1 Ha)) as (Ht & Hc & Hrest).
  unfold basic_bounded, basic_aligned. rewrite Ht, Hc.
  destruct Hrest as [(-> & -> & ->)|[(v & -> & -> & ->)|(v & x & y & -> & -> & ->)]].
  - split; [eapply series_bounded_tick; [exact Hb|..] | eapply series_aligned_tick; [exact Ha|]]; auto.
  - split; [eapply series_bounded_tick; [exact Hb|..] | eapply series_aligned_tick; [exact Ha|]]; eauto 8.
  - split; [eapply series_bounded_tick; [exact Hb|..] | eapply series_aligned_tick; [exact Ha|]]; eauto 10.
Qed.

Lemma basic_inv_update_data (rs : list reading) (st : BasicGui.state) :
  basic_bounded st /\ basic_aligned st ->
  basic_bounded (snd (BasicGui.update_data rs st))
  /\ basic_aligned (snd (BasicGui.update_data rs st)).
Proof.
  revert st. induction rs as [|r rs IH]; intros st H; [exact H|].
  cbn [BasicGui.update_data]. unfold Run.bind.
  pose proof (basic_inv_tick r st H) as Hstep.
  destruct (BasicGui.update_data_tick r st) as [[[]|e] st1]; cbn [snd] in *.
  - apply IH, Hstep.
  - exact Hstep.
Qed.

Lemma basic_inv_init (ncores : nat) (net0 : net_io) (t0 : F64.float) :
  basic_bounded (BasicGui.init ncores net0 t0) /\ basic_aligned (BasicGui.init ncores net0 t0).
Proof.
  unfold basic_bounded, basic_aligned, series_bounded, series_aligned. cbn.
  repeat split; try lia; apply Forall_replicate; cbn; lia.
Qed.

(** X3: in the basic GUI, after any number of ticks from start-up, also when
    the loop has ended on an exception, every series holds at most 60
    values, the two network series have the same length and are not longer
    than the memory series, which is not longer than the time series, and
    no CPU series is longer than the time series. *)
Theorem X3_basic_histories_invariant (rs : list reading) (ncores : nat) (net0 : net_io)
    (t0 : F64.float) :
  let st := snd (BasicGui.update_data rs (BasicGui.init ncores net0 t0)) in
  ((length (BasicGui.time_points st) <= 60)%nat
   /\ Forall (fun h => (length h <= 60)%nat) (BasicGui.cpu_history st)
   /\ (length (BasicGui.memory_history st) <= 60)%nat
   /\ (length (BasicGui.network_sent_history st) <= 60)%nat
   /\ (length (BasicGui.network_recv_history st) <= 60)%nat)
  /\ (length (BasicGui.network_sent_history st) = length (BasicGui.network_recv_history st)
      /\ (length (BasicGui.network_sent_history st) <= length (BasicGui.memory_history st))%nat
      /\ (length (BasicGui.memory_history st) <= length (BasicGui.time_points st))%nat
      /\ Forall (fun h => (length h <= length (BasicGui.time_points st))%nat)
           (BasicGui.cpu_history st)).
Proof.
  intros st. exact (basic_inv_update_data rs _ (basic_inv_init ncores net0 t0)).
Qed.

(** * Which passes fail *)

Lemma float_of_int_error (z : Z) (e : exn) : float_of_int z = Raise e -> e = OverflowError.
Proof. unfold float_of_int. destruct (F64.of_Z z); congruence. Qed.

(** The rate of a counter, case by case: the difference is converted
    first, then the elapsed time is tested. *)
Lemma per_sec_cases (curr prev : Z) (dt : F64.float) :
  per_sec curr prev dt =
  if too_large (curr - prev) then Raise OverflowError
  else if F64.is_zero dt then Raise ZeroDivisionError
  else Ok (F64.div (F64.of_Z (curr - prev)) dt).
Proof.
  unfold per_sec, truediv, too_large, float_of_int. cbn [to_float].
  unfold float_of_int. destruct (F64.of_Z (curr - prev)); cbn [Py.bind]; reflexivity.
Qed.

(** The mean of the loads, case by case. *)
Lemma mean_cases (l : list F64.float) :
  match mean l with
  | Raise e =>
      e = (if is_empty l then ZeroDivisionError else OverflowError)
      /\ (is_empty l = false -> too_large (Z.of_nat (length l)) = true)
  | Ok _ => is_empty l = false /\ too_large (Z.of_nat (length l)) = false
  end.
Proof.
  destruct l as [|u l]; [split; [reflexivity | discriminate]|].
  unfold mean, truediv, too_large. cbn [to_float Py.bind is_empty].
  destruct (float_of_int (Z.of_nat (length (u :: l)))) as [y|e] eqn:Hy; cbn [Py.bind].
  - assert (Hn : Z.of_nat (length (u :: l)) <> 0) by (rewrite length_cons; lia).
    rewrite (float_of_int_not_zero _ y Hn Hy). split; reflexivity.
  - split; [apply (float_of_int_error _ _ Hy) | reflexivity].
Qed.

Lemma too_large_small (z : Z) : - 2 ^ 1023 < z < 2 ^ 1023 -> too_large z = false.
Proof. intros H. unfold too_large. destruct (float_of_int_ok z H) as [x ->]. reflexivity. Qed.

(** The body of a pass of the feature-rich GUI, case by case. *)
Lemma gui_tick_cases (N : bool) (r : reading) (st : Gui.state) :
  length (Gui.network_sent_history st) = length (Gui.network_recv_history st) ->
  let dt := F64.sub (current_time r) (Gui.prev_time st) in
  let x := F64.div (F64.of_Z (bytes_sent (current_net_io r) - bytes_sent (Gui.prev_net_io st)))
             dt in
  let y := F64.div (F64.of_Z (bytes_recv (current_net_io r) - bytes_recv (Gui.prev_net_io st)))
             dt in
  match gui_tick_error N r st with
  | Some e =>
      exists s,
        Gui.update_data_tick N r st = Gui.print_error e s
        /\ Gui.prev_net_io s = Gui.prev_net_io st
        /\ Gui.prev_time s = Gui.prev_time st
        /\ Gui.printed s = Gui.printed st
        /\ Gui.config s = Gui.config st
  | None =>
      exists s,
        Gui.update_data_tick N r st = Gui.set_prev (current_net_io r) (current_time r) s
        /\ Gui.printed s = Gui.printed st
        /\ Gui.scheduled s = Gui.scheduled (gui_after_schedule r x y st)
        /\ Gui.config s = Gui.config st
  end.
Proof.
  intros Hlen dt x y. rewrite (gui_tick_eq N r st Hlen).
  unfold gui_tick_spec, gui_tick_error. fold dt.
  destruct (length (cpu_usage r) <=? length (Gui.cpu_history st))%nat; cbn [negb].
  2:{ eexists. split; [reflexivity|]. repeat split. }
  rewrite !per_sec_cases. fold x y.
  destruct (too_large (bytes_sent _ - _)).
  { eexists. split; [reflexivity|]. repeat split. }
  destruct (F64.is_zero dt).
  { eexists. split; [reflexivity|]. repeat split. }
  destruct (too_large (bytes_recv _ - _)).
  { eexists. split; [reflexivity|]. repeat split. }
  cbv zeta.
  destruct (N && Gui.enable_notifications (Gui.config st)).
  2:{ eexists. split; [reflexivity|]. repeat split. }
  pose proof (mean_cases (cpu_usage r)) as Hm.
  destruct (mean (cpu_usage r)) as [avg|e].
  - destruct Hm as [-> ->].
    destruct (transitions_frame N avg (percent (memory r)) (gui_after_schedule r x y st))
      as (Hc & _ & _ & _ & _ & _ & _ & _ & Hsch & Hp).
    eexists. split; [reflexivity|].
    rewrite Hp, Hsch, Hc. repeat split.
  - destruct Hm as [-> Hl]. destruct (is_empty (cpu_usage r)).
    + eexists. split; [reflexivity|]. repeat split.
    + rewrite Hl by reflexivity. eexists. split; [reflexivity|]. repeat split.
Qed.

(** X4: what the handler of the loop of the feature-rich GUI prints for a
    pass that starts with network series of equal length, during which the
    thread of the window neither resets the graphs nor saves settings. It
    prints what a provider call raised; else [IndexError] when the reading
    has more loads than there are CPU series; else [OverflowError] when the
    difference of the send counters is too large for a float; else
    [ZeroDivisionError] when the elapsed time is zero; else [OverflowError]
    for the receive counters; else, when the alerting is on,
    [ZeroDivisionError] for a reading without loads ([OverflowError] for
    more loads than a float can count); and nothing otherwise. A pass that
    fails keeps the previous counters and time; a pass that does not fail
    has a reading, prints nothing, schedules its six display updates and
    makes the reading the previous one. *)
Theorem X4_gui_pass_failure (N : bool) (p : result reading) (st : Gui.state) :
  length (Gui.network_sent_history st) = length (Gui.network_recv_history st) ->
  let st' := gui_update_pass N p st in
  match gui_pass_error N p st with
  | Some e =>
      Gui.printed st' = Gui.printed st ++ [e]
      /\ Gui.prev_net_io st' = Gui.prev_net_io st
      /\ Gui.prev_time st' = Gui.prev_time st
  | None =>
      Gui.printed st' = Gui.printed st
      /\ length (Gui.scheduled st') = (length (Gui.scheduled st) + 6)%nat
      /\ exists r,
          p = Ok r
          /\ Gui.prev_net_io st' = current_net_io r
          /\ Gui.prev_time st' = current_time r
  end.
Proof.
  intros Hlen st'. subst st'. destruct p as [r|e]; cbn [gui_update_pass gui_pass_error].
  2:{ repeat split. }
  pose proof (gui_tick_cases N r st Hlen) as H. cbv zeta in H.
  destruct (gui_tick_error N r st) as [e|].
  - destruct H as (s & -> & Hpn & Hpt & Hp & _). gui_fields.
    rewrite Hp, Hpn, Hpt. repeat split.
  - destruct H as (s & -> & Hp & Hsch & _). gui_fields.
    rewrite Hp, Hsch. unfold gui_after_schedule. gui_fields. rewrite length_app.
    split; [reflexivity|]. split; [reflexivity|]. exists r. repeat split.
Qed.

Lemma X4_gui_pass_failure_witness :
  let st := Sample.gui0 in
  let huge := {| current_time := F64.of_Z 1;
                 cpu_usage := [F64.of_Z 10];
                 memory := Sample.memory_at 50;
                 disk_info := [];
                 current_net_io := Sample.counters (2 ^ 1024);
                 now := "12:00:01" |} in
  length (Gui.network_sent_history st) = length (Gui.network_recv_history st)
  /\ Gui.printed (gui_update_pass true (Raise (Other "PermissionError")) st)
     = [Other "PermissionError"]
  /\ Gui.printed (gui_update_pass true (Ok (Cases.reading_of 1 [10; 20] 50 3000)) st)
     = [IndexError]
  /\ Gui.printed (gui_update_pass true (Ok huge) st) = [OverflowError]
  /\ Gui.printed (gui_update_pass true (Ok (Sample.at_time 0 10 3000)) st)
     = [ZeroDivisionError]
  /\ Gui.printed (gui_update_pass true (Ok (Cases.reading_of 1 [] 50 3000)) st)
     = [ZeroDivisionError]
  /\ Gui.printed (gui_update_pass true (Ok (Sample.at_time 1 10 3000)) st) = []
  /\ Gui.prev_net_io (gui_update_pass true (Ok (Sample.at_time 1 10 3000)) st)
     = Sample.counters 3000.
Proof.
  intros st huge.
  assert (H : length (Gui.network_sent_history st) = length (Gui.network_recv_history st))
    by reflexivity.
  split; [exact H|].
  split; [exact (proj1 (X4_gui_pass_failure true (Raise (Other "PermissionError")) st H))|].
  split; [exact (proj1 (X4_gui_pass_failure true (Ok (Cases.reading_of 1 [10; 20] 50 3000))
                           st H))|].
  split; [exact (proj1 (X4_gui_pass_failure true (Ok huge) st H))|].
  split; [exact (proj1 (X4_gui_pass_failure true (Ok (Sample.at_time 0 10 3000)) st H))|].
  split; [exact (proj1 (X4_gui_pass_failure true (Ok (Cases.reading_of 1 [] 50 3000)) st H))|].
  destruct (X4_gui_pass_failure true (Ok (Sample.at_time 1 10 3000)) st H)
    as (Hp & _ & r & Hr & Hn & _).
  split; [exact Hp|]. rewrite Hn. injection Hr as <-. reflexivity.
Defined.

(** X5: what a pass of the feature-rich GUI writes, for network series of
    equal length, when the thread of the window does not reset the graphs
    during the pass. A pass in which a provider call raises writes no series
    and schedules nothing. A pass that has a reading always writes the time
    series and the CPU series; it writes the memory series when the reading
    has no more loads than there are CPU series; it writes the two network
    series and schedules the six display updates when, moreover, both rates
    are computed: the elapsed time is not zero and the differences of the
    counters convert to floats. So a pass that fails in the alerting has
    recorded and scheduled everything. *)
Theorem X5_gui_pass_writes (N : bool) (p : result reading) (st : Gui.state) :
  length (Gui.network_sent_history st) = length (Gui.network_recv_history st) ->
  let st' := gui_update_pass N p st in
  match p with
  | Raise _ =>
      Gui.time_points st' = Gui.time_points st
      /\ Gui.cpu_history st' = Gui.cpu_history st
      /\ Gui.memory_history st' = Gui.memory_history st
      /\ Gui.network_sent_history st' = Gui.network_sent_history st
      /\ Gui.network_recv_history st' = Gui.network_recv_history st
      /\ Gui.scheduled st' = Gui.scheduled st
  | Ok r =>
      let dt := F64.sub (current_time r) (Gui.prev_time st) in
      let sent := bytes_sent (current_net_io r) - bytes_sent (Gui.prev_net_io st) in
      let recv := bytes_recv (current_net_io r) - bytes_recv (Gui.prev_net_io st) in
      let fits := (length (cpu_usage r) <=? length (Gui.cpu_history st))%nat in
      let rated := negb (too_large sent) && negb (F64.is_zero dt) && negb (too_large recv) in
      Gui.time_points st' = push (Gui.time_points st) (now r)
      /\ Gui.cpu_history st' = push_each 0 (cpu_usage r) (Gui.cpu_history st)
      /\ Gui.memory_history st' =
         (if fits then push (Gui.memory_history st) (percent (memory r))
          else Gui.memory_history st)
      /\ if fits && rated
         then
           let x := F64.div (F64.of_Z sent) dt in
           let y := F64.div (F64.of_Z recv) dt in
           Gui.network_sent_history st' = push (Gui.network_sent_history st) x
           /\ Gui.network_recv_history st' = push (Gui.network_recv_history st) y
           /\ Gui.scheduled st' =
              Gui.scheduled st ++
              [ Gui.update_ui_cpu (cpu_usage r);
                Gui.update_ui_memory (memory r);
                Gui.update_ui_disk (disk_info r);
                Gui.update_ui_network (current_net_io r) x y;
                Gui.update_ui_system_info;
                Gui.update_dashboard (cpu_usage r) (memory r) (current_net_io r) x y ]
         else Gui.network_sent_history st' = Gui.network_sent_history st
              /\ Gui.network_recv_history st' = Gui.network_recv_history st
              /\ Gui.scheduled st' = Gui.scheduled st
  end.
Proof.
  intros Hlen st'. subst st'. destruct p as [r|e].
  2:{ cbn [gui_update_pass]. repeat split. }
  cbv iota. intros dt sent recv fits rated. subst fits rated sent recv.
  unfold gui_update_pass.
  rewrite (gui_tick_eq N r st Hlen). unfold gui_tick_spec. fold dt.
  destruct (length (cpu_usage r) <=? length (Gui.cpu_history st))%nat; cbn [andb];
    [|repeat split].
  rewrite !per_sec_cases.
  destruct (too_large (bytes_sent _ - _)); cbn [negb andb]; [repeat split|].
  destruct (F64.is_zero dt); cbn [negb andb]; [repeat split|].
  destruct (too_large (bytes_recv _ - _)); cbn [negb andb]; [repeat split|].
  cbv zeta.
  set (x := F64.div (F64.of_Z (bytes_sent _ - _)) dt).
  set (y := F64.div (F64.of_Z (bytes_recv _ - _)) dt).
  assert (Hdone : forall s,
            Gui.time_points s = Gui.time_points (gui_after_schedule r x y st) ->
            Gui.cpu_history s = Gui.cpu_history (gui_after_schedule r x y st) ->
            Gui.memory_history s = Gui.memory_history (gui_after_schedule r x y st) ->
            Gui.network_sent_history s = Gui.network_sent_history (gui_after_schedule r x y st) ->
            Gui.network_recv_history s = Gui.network_recv_history (gui_after_schedule r x y st) ->
            Gui.scheduled s = Gui.scheduled (gui_after_schedule r x y st) ->
            Gui.time_points s = push (Gui.time_points st) (now r)
            /\ Gui.cpu_history s = push_each 0 (cpu_usage r) (Gui.cpu_history st)
            /\ Gui.memory_history s = push (Gui.memory_history st) (percent (memory r))
            /\ Gui.network_sent_history s = push (Gui.network_sent_history st) x
            /\ Gui.network_recv_history s = push (Gui.network_recv_history st) y
            /\ Gui.scheduled s =
               Gui.scheduled st ++
               [ Gui.update_ui_cpu (cpu_usage r);
                 Gui.update_ui_memory (memory r);
                 Gui.update_ui_disk (disk_info r);
                 Gui.update_ui_network (current_net_io r) x y;
                 Gui.update_ui_system_info;
                 Gui.update_dashboard (cpu_usage r) (memory r) (current_net_io r) x y ]).
  { intros s -> -> -> -> -> ->. repeat split. }
  destruct (N && Gui.enable_notifications (Gui.config st)).
  - destruct (mean (cpu_usage r)) as [avg|e].
    + destruct (transitions_frame N avg (percent (memory r)) (gui_after_schedule r x y st))
        as (_ & Hc & Hm & Hrh & Hsh & Ht & _ & _ & Hsch & _).
      apply Hdone; gui_fields; assumption.
    + apply Hdone; reflexivity.
  - apply Hdone; reflexivity.
Qed.

Lemma X5_gui_pass_writes_witness :
  let r := Cases.reading_of 1 [] 50 3000 in
  let st := Sample.gui0 in
  length (Gui.network_sent_history st) = length (Gui.network_recv_history st)
  /\ Gui.memory_history (gui_update_pass true (Ok r) st) = [F64.of_Z 50]
  /\ Gui.network_sent_history (gui_update_pass true (Ok r) st) = [F64.of_Z 2000]
  /\ Gui.printed (gui_update_pass true (Ok r) st) = [ZeroDivisionError]
  /\ Gui.time_points (gui_update_pass true (Raise (Other "PermissionError")) st) = [].
Proof.
  intros r st.
  assert (H : length (Gui.network_sent_history st) = length (Gui.network_recv_history st))
    by reflexivity.
  destruct (X5_gui_pass_writes true (Ok r) st H) as (_ & _ & Hm & Hn).
  destruct (X5_gui_pass_writes true (Raise (Other "PermissionError")) st H) as (Ht & _).
  cbv zeta in Hn. change (_ && _) with true in Hn. cbv iota in Hn.
  destruct Hn as (Hs & _).
  split; [exact H | split; [exact Hm | split; [rewrite Hs; reflexivity |]]].
  split; [reflexivity | exact Ht].
Defined.
(** ** A machine that reports more cores than there are series *)

Lemma gui_tick_too_many_cores (N : bool) (r : reading) (st : Gui.state) :
  length (Gui.network_sent_history st) = length (Gui.network_recv_history st) ->
  (length (Gui.cpu_history st) < length (cpu_usage r))%nat ->
  Gui.update_data_tick N r st = Gui.print_error IndexError (gui_after_cpu r st).
Proof.
  intros Hlen Hcores. rewrite (gui_tick_eq N r st Hlen). unfold gui_tick_spec.
  destruct (Nat.leb_spec (length (cpu_usage r)) (length (Gui.cpu_history st))); [lia|].
  reflexivity.
Qed.

(** X6: while the readings have more loads than there are CPU series, every
    tick of the feature-rich GUI prints [IndexError]; the memory and
    network series, the scheduled display updates, the notifications and
    the previous reading never change, and the number of CPU series stays
    the same; the time series goes on (as do the CPU series there are). *)
Theorem X6_gui_more_cores_than_series (N : bool) (rs : list reading) (st : Gui.state) :
  length (Gui.network_sent_history st) = length (Gui.network_recv_history st) ->
  Forall (fun r => (length (Gui.cpu_history st) < length (cpu_usage r))%nat) rs ->
  let st' := Gui.update_data N rs st in
  Gui.printed st' = Gui.printed st ++ replicate (length rs) IndexError
  /\ Gui.memory_history st' = Gui.memory_history st
  /\ Gui.network_sent_history st' = Gui.network_sent_history st
  /\ Gui.network_recv_history st' = Gui.network_recv_history st
  /\ Gui.scheduled st' = Gui.scheduled st
  /\ Gui.notified st' = Gui.notified st
  /\ Gui.prev_net_io st' = Gui.prev_net_io st
  /\ Gui.prev_time st' = Gui.prev_time st
  /\ length (Gui.cpu_history st') = length (Gui.cpu_history st)
  /\ Gui.time_points st' = fold_left push (map now rs) (Gui.time_points st).
Proof.
  intros Hlen Hall st'. subst st'. revert st Hlen Hall.
  induction rs as [|r rs IH]; intros st Hlen Hall.
  - cbn. rewrite app_nil_r. repeat split.
  - apply Forall_cons in Hall as [Hr Hall].
    cbn [Gui.update_data fold_left].
    change (fold_left (fun s r0 => Gui.update_data_tick N r0 s) rs (Gui.update_data_tick N r st))
      with (Gui.update_data N rs (Gui.update_data_tick N r st)).
    rewrite (gui_tick_too_many_cores N r st Hlen Hr).
    specialize (IH (Gui.print_error IndexError (gui_after_cpu r st))).
    unfold gui_after_cpu in IH |- *. revert IH. gui_fields. rewrite push_each_length.
    intros IH. destruct (IH Hlen Hall) as (Hp & Hm & Hs & Hrv & Hsch & Hn & Hpn & Hpt & Hc & Ht).
    rewrite Hp, Hm, Hs, Hrv, Hsch, Hn, Hpn, Hpt, Hc, Ht.
    cbn [length replicate map fold_left]. rewrite <- app_assoc. repeat split.
Qed.

Lemma X6_gui_more_cores_than_series_witness :
  let rs := [Cases.reading_of 1 [10; 20] 50 3000; Cases.reading_of 2 [30; 40] 50 5000] in
  let st := Sample.gui0 in
  length (Gui.network_sent_history st) = length (Gui.network_recv_history st)
  /\ Forall (fun r => (length (Gui.cpu_history st) < length (cpu_usage r))%nat) rs
  /\ Gui.printed (Gui.update_data true rs st) = [IndexError; IndexError]
  /\ Gui.memory_history (Gui.update_data true rs st) = []
  /\ Gui.cpu_history (Gui.update_data true rs st) = [[F64.of_Z 10; F64.of_Z 30]].
Proof.
  intros rs st.
  assert (H1 : length (Gui.network_sent_history st) = length (Gui.network_recv_history st))
    by reflexivity.
  assert (H2 : Forall (fun r => (length (Gui.cpu_history st) < length (cpu_usage r))%nat) rs).
  { repeat constructor. }
  destruct (X6_gui_more_cores_than_series true rs st H1 H2) as (Hp & Hm & _).
  split; [exact H1 | split; [exact H2 | split; [exact Hp | split; [exact Hm | reflexivity]]]].
Defined.

(** ** The basic GUI: the first failing pass ends the update thread *)

(** X7: in the basic GUI a pass raises what a provider call raised; else
    [IndexError] when the reading has more loads than there are CPU series;
    else [OverflowError] when the difference of the send counters is too
    large for a float; else [ZeroDivisionError] when the elapsed time is
    zero; else [OverflowError] for the receive counters. Nothing catches it:
    the loop ends there, no later pass takes place, and the network series,
    the scheduled display updates and the previous reading are as before
    that pass. Otherwise the pass has a reading and completes: it records
    the two rates, schedules its five display updates, makes the reading the
    previous one, and the loop goes on. (For network series of equal length,
    as the loop keeps them.) *)
Theorem X7_basic_pass_failure (p : result reading) (ps : list (result reading))
    (st : BasicGui.state) :
  length (BasicGui.network_sent_history st) = length (BasicGui.network_recv_history st) ->
  let out := basic_update_pass p st in
  match basic_pass_error p st with
  | Some e =>
      fst out = Raise e
      /\ basic_update_loop (p :: ps) st = out
      /\ BasicGui.network_sent_history (snd out) = BasicGui.network_sent_history st
      /\ BasicGui.network_recv_history (snd out) = BasicGui.network_recv_history st
      /\ BasicGui.scheduled (snd out) = BasicGui.scheduled st
      /\ BasicGui.prev_net_io (snd out) = BasicGui.prev_net_io st
      /\ BasicGui.prev_time (snd out) = BasicGui.prev_time st
  | None =>
      fst out = Ok tt
      /\ basic_update_loop (p :: ps) st = basic_update_loop ps (snd out)
      /\ exists r,
          p = Ok r
          /\ let dt := F64.sub (current_time r) (BasicGui.prev_time st) in
             let x := F64.div (F64.of_Z (bytes_sent (current_net_io r)
                                         - bytes_sent (BasicGui.prev_net_io st))) dt in
             let y := F64.div (F64.of_Z (bytes_recv (current_net_io r)
                                         - bytes_recv (BasicGui.prev_net_io st))) dt in
             BasicGui.network_sent_history (snd out)
             = push (BasicGui.network_sent_history st) x
             /\ BasicGui.network_recv_history (snd out)
                = push (BasicGui.network_recv_history st) y
             /\ BasicGui.scheduled (snd out) =
                BasicGui.scheduled st ++
                [ BasicGui.update_ui_cpu (cpu_usage r);
                  BasicGui.update_ui_memory (memory r);
                  BasicGui.update_ui_disk (disk_info r);
                  BasicGui.update_ui_network (current_net_io r) x y;
                  BasicGui.update_ui_system_info ]
             /\ BasicGui.prev_net_io (snd out) = current_net_io r
             /\ BasicGui.prev_time (snd out) = current_time r
  end.
Proof.
  intros Hlen out. subst out. cbn [basic_update_loop]. unfold Run.bind at 1 2.
  destruct p as [r|e]; cbn [basic_update_pass basic_pass_error].
  2:{ unfold Run.lift. repeat split. }
  rewrite (basic_tick_eq r st Hlen). unfold basic_tick_spec, basic_tick_error.
  destruct (length (cpu_usage r) <=? length (BasicGui.cpu_history st))%nat; cbn [negb];
    [|repeat split].
  rewrite !per_sec_cases.
  destruct (too_large (bytes_sent _ - _)); [repeat split|].
  destruct (F64.is_zero _); [repeat split|].
  destruct (too_large (bytes_recv _ - _)); [repeat split|].
  split; [reflexivity|]. split; [reflexivity|]. exists r. split; [reflexivity|].
  cbv zeta. cbn [snd]. unfold basic_after_memory, basic_after_cpu. basic_fields.
  repeat split.
Qed.

Lemma X7_basic_pass_failure_witness :
  let st := Sample.basic0 in
  let later := [Ok (Sample.at_time 2 10 5000)] in
  length (BasicGui.network_sent_history st) = length (BasicGui.network_recv_history st)
  /\ fst (basic_update_loop (Raise (Other "PermissionError") :: later) st)
     = Raise (Other "PermissionError")
  /\ fst (basic_update_loop (Ok (Cases.reading_of 1 [10; 20] 50 3000) :: later) st)
     = Raise IndexError
  /\ fst (basic_update_loop (Ok (Sample.at_time 0 10 3000) :: later) st)
     = Raise ZeroDivisionError
  /\ BasicGui.network_sent_history
       (snd (basic_update_loop (Ok (Sample.at_time 0 10 3000) :: later) st)) = []
  /\ BasicGui.network_sent_history
       (snd (basic_update_loop (Ok (Sample.at_time 1 10 3000) :: later) st))
     = [F64.of_Z 2000; F64.of_Z 2000].
Proof.
  intros st later.
  assert (H : length (BasicGui.network_sent_history st)
              = length (BasicGui.network_recv_history st)) by reflexivity.
  destruct (X7_basic_pass_failure (Raise (Other "PermissionError")) later st H)
    as (E1 & L1 & _).
  destruct (X7_basic_pass_failure (Ok (Cases.reading_of 1 [10; 20] 50 3000)) later st H)
    as (E2 & L2 & _).
  destruct (X7_basic_pass_failure (Ok (Sample.at_time 0 10 3000)) later st H)
    as (E3 & L3 & S3 & _).
  split; [exact H|].
  split; [rewrite L1; exact E1|]. split; [rewrite L2; exact E2|].
  split; [rewrite L3; exact E3|]. split; [rewrite L3; exact S3|].
  reflexivity.
Defined.
(** * Alerting over a run of the update loop *)

Lemma cpu_alerts_notified (s1 s2 : Gui.state) :
  Gui.notified s1 = Gui.notified s2 -> cpu_alerts s1 = cpu_alerts s2.
Proof. unfold cpu_alerts. intros ->. reflexivity. Qed.

Lemma memory_alerts_notified (s1 s2 : Gui.state) :
  Gui.notified s1 = Gui.notified s2 -> memory_alerts s1 = memory_alerts s2.
Proof. unfold memory_alerts. intros ->. reflexivity. Qed.

Lemma alerts_deliver (n : Gui.notification) (st : Gui.state) :
  cpu_alerts (Gui.deliver n st) =
  (cpu_alerts st + if String.eqb (Gui.message n) (Gui.message Gui.cpu_alert) then 1 else 0)%nat
  /\ memory_alerts (Gui.deliver n st) =
     (memory_alerts st
      + if String.eqb (Gui.message n) (Gui.message Gui.memory_alert) then 1 else 0)%nat.
Proof.
  unfold cpu_alerts, memory_alerts. cbn [Gui.notified Gui.deliver].
  rewrite !List.filter_app, !length_app. cbn [List.filter].
  split.
  - destruct (String.eqb (Gui.message n) (Gui.message Gui.cpu_alert)); reflexivity.
  - destruct (String.eqb (Gui.message n) (Gui.message Gui.memory_alert)); reflexivity.
Qed.

(** What the CPU branch of the alerting does to its flag and to the
    number of CPU alerts; the memory branch leaves both. *)
Lemma cpu_transition_effect (N : bool) (avg : F64.float) (st : Gui.state) :
  let s := cpu_transition N avg st in
  (Gui.cpu_notified s, cpu_alerts s) =
  (if F64.gtb_Z avg 90 && negb (Gui.cpu_notified st)
   then (true, (cpu_alerts st + if N then 1 else 0)%nat)
   else if F64.ltb_Z avg 70 && Gui.cpu_notified st
   then (false, cpu_alerts st)
   else (Gui.cpu_notified st, cpu_alerts st))
  /\ Gui.memory_notified s = Gui.memory_notified st
  /\ memory_alerts s = memory_alerts st.
Proof.
  unfold cpu_transition, raise_alert.
  destruct (F64.gtb_Z avg 90 && negb (Gui.cpu_notified st)).
  - destruct N.
    + destruct (alerts_deliver Gui.cpu_alert st) as [Hc Hm].
      cbn [Gui.cpu_notified Gui.memory_notified Gui.set_cpu_notified].
      rewrite (cpu_alerts_notified _ (Gui.deliver Gui.cpu_alert st)) by reflexivity.
      rewrite (memory_alerts_notified _ (Gui.deliver Gui.cpu_alert st)) by reflexivity.
      rewrite Hc, Hm. cbn. rewrite Nat.add_0_r. repeat split.
    + cbn [Gui.cpu_notified Gui.memory_notified Gui.set_cpu_notified].
      rewrite (cpu_alerts_notified _ st), (memory_alerts_notified _ st) by reflexivity.
      rewrite Nat.add_0_r. repeat split.
  - destruct (F64.ltb_Z avg 70 && Gui.cpu_notified st).
    + cbn [Gui.cpu_notified Gui.memory_notified Gui.set_cpu_notified].
      rewrite (cpu_alerts_notified _ st), (memory_alerts_notified _ st) by reflexivity.
      repeat split.
    + repeat split.
Qed.

Lemma memory_transition_effect (N : bool) (pct : F64.float) (st : Gui.state) :
  let s := memory_transition N pct st in
  (Gui.memory_notified s, memory_alerts s) =
  (if F64.gtb_Z pct 85 && negb (Gui.memory_notified st)
   then (true, (memory_alerts st + if N then 1 else 0)%nat)
   else if F64.ltb_Z pct 75 && Gui.memory_notified st
   then (false, memory_alerts st)
   else (Gui.memory_notified st, memory_alerts st))
  /\ Gui.cpu_notified s = Gui.cpu_notified st
  /\ cpu_alerts s = cpu_alerts st.
Proof.
  unfold memory_transition, raise_alert.
  destruct (F64.gtb_Z pct 85 && negb (Gui.memory_notified st)).
  - destruct N.
    + destruct (alerts_deliver Gui.memory_alert st) as [Hc Hm].
      cbn [Gui.cpu_notified Gui.memory_notified Gui.set_memory_notified].
      rewrite (cpu_alerts_notified _ (Gui.deliver Gui.memory_alert st)) by reflexivity.
      rewrite (memory_alerts_notified _ (Gui.deliver Gui.memory_alert st)) by reflexivity.
      rewrite Hc, Hm. cbn. rewrite Nat.add_0_r. repeat split.
    + cbn [Gui.cpu_notified Gui.memory_notified Gui.set_memory_notified].
      rewrite (cpu_alerts_notified _ st), (memory_alerts_notified _ st) by reflexivity.
      rewrite Nat.add_0_r. repeat split.
  - destruct (F64.ltb_Z pct 75 && Gui.memory_notified st).
    + cbn [Gui.cpu_notified Gui.memory_notified Gui.set_memory_notified].
      rewrite (cpu_alerts_notified _ st), (memory_alerts_notified _ st) by reflexivity.
      repeat split.
    + repeat split.
Qed.

(** X8: the memory alert of [check_thresholds], transition by transition.
    When the mean of the CPU loads cannot be computed the call raises and
    changes nothing.  Otherwise: not alerted, the flag is set exactly when
    the percentage is above 85, and one memory alert is delivered then (if
    the notifier is available); alerted, the flag stays unless the
    percentage is below 75, and no memory alert is delivered. *)
Theorem X8_memory_alert_hysteresis (N : bool) (cpu : list F64.float) (mem : memory_info)
    (st : Gui.state) :
  let out := Gui.check_thresholds N cpu mem st in
  let pct := percent mem in
  match mean cpu with
  | Raise e => out = (Raise e, st)
  | Ok _ =>
      fst out = Ok tt
      /\ if Gui.memory_notified st
         then Gui.memory_notified (snd out) = negb (F64.ltb_Z pct 75)
              /\ memory_alerts (snd out) = memory_alerts st
         else Gui.memory_notified (snd out) = F64.gtb_Z pct 85
              /\ memory_alerts (snd out) =
                 (memory_alerts st + if F64.gtb_Z pct 85 && N then 1 else 0)%nat
  end.
Proof.
  intros out pct. subst out. rewrite gui_check_thresholds_eq.
  destruct (mean cpu) as [avg|e]; [|reflexivity].
  cbn [fst snd]. split; [reflexivity|].
  destruct (cpu_transition_effect N avg st) as (_ & Hflag & Hcount).
  destruct (memory_transition_effect N (percent mem) (cpu_transition N avg st)) as (E & _).
  rewrite Hflag, Hcount in E. fold pct in E |- *.
  destruct (Gui.memory_notified st), (F64.gtb_Z pct 85), (F64.ltb_Z pct 75), N;
    cbn in E |- *; injection E as -> ->; split; try reflexivity; lia.
Qed.

(** What a tick does to the CPU flag and to the number of CPU alerts. *)
Lemma gui_tick_cpu_alert (N : bool) (r : reading) (st : Gui.state) :
  length (Gui.network_sent_history st) = length (Gui.network_recv_history st) ->
  let st' := Gui.update_data_tick N r st in
  (Gui.cpu_notified st' = Gui.cpu_notified st /\ cpu_alerts st' = cpu_alerts st)
  \/ exists avg,
      mean (cpu_usage r) = Ok avg
      /\ N && Gui.enable_notifications (Gui.config st) = true
      /\ (Gui.cpu_notified st', cpu_alerts st') =
         (if F64.gtb_Z avg 90 && negb (Gui.cpu_notified st)
          then (true, (cpu_alerts st + if N then 1 else 0)%nat)
          else if F64.ltb_Z avg 70 && Gui.cpu_notified st
          then (false, cpu_alerts st)
          else (Gui.cpu_notified st, cpu_alerts st)).
Proof.
  intros Hlen st'. subst st'. rewrite (gui_tick_eq N r st Hlen). unfold gui_tick_spec.
  destruct (length (cpu_usage r) <=? length (Gui.cpu_history st))%nat;
    [|left; split; reflexivity].
  destruct (per_sec (bytes_sent _) _ _) as [x|e]; [|left; split; reflexivity].
  destruct (per_sec (bytes_recv _) _ _) as [y|e]; [|left; split; reflexivity].
  cbv zeta.
  destruct (N && Gui.enable_notifications (Gui.config st)) eqn:Hon;
    [|left; split; reflexivity].
  destruct (mean (cpu_usage r)) as [avg|e]; [|left; split; reflexivity].
  right. exists avg. split; [reflexivity|]. split; [reflexivity|].
  destruct (cpu_transition_effect N avg (gui_after_schedule r x y st)) as (E & _).
  destruct (memory_transition_effect N (percent (memory r))
              (cpu_transition N avg (gui_after_schedule r x y st))) as (_ & Hf & Hc).
  cbn [Gui.cpu_notified Gui.set_prev].
  rewrite (cpu_alerts_notified (Gui.set_prev _ _ _)
             (memory_transition N (percent (memory r))
                (cpu_transition N avg (gui_after_schedule r x y st)))) by reflexivity.
  rewrite Hf, Hc, E. reflexivity.
Qed.

(** X9: over any run of ticks of the feature-rich GUI in which the mean CPU
    load never is below 70, at most one CPU alert is delivered; none is
    when the alert was already raised, and the alert then stays raised. *)
Theorem X9_cpu_alert_not_repeated (N : bool) (rs : list reading) (st : Gui.state) :
  length (Gui.network_sent_history st) = length (Gui.network_recv_history st) ->
  Forall (fun r => forall avg, mean (cpu_usage r) = Ok avg -> F64.ltb_Z avg 70 = false) rs ->
  let st' := Gui.update_data N rs st in
  (cpu_alerts st' <= cpu_alerts st + 1)%nat
  /\ (Gui.cpu_notified st = true ->
      Gui.cpu_notified st' = true /\ cpu_alerts st' = cpu_alerts st).
Proof.
  intros Hlen Hall st'. subst st'. revert st Hlen Hall.
  induction rs as [|r rs IH]; intros st Hlen Hall.
  - cbn. split; [lia|]. intros H. split; [exact H | reflexivity].
  - apply Forall_cons in Hall as [Hr Hall].
    cbn [Gui.update_data fold_left].
    change (fold_left (fun s r0 => Gui.update_data_tick N r0 s) rs (Gui.update_data_tick N r st))
      with (Gui.update_data N rs (Gui.update_data_tick N r st)).
    destruct (IH (Gui.update_data_tick N r st) (gui_tick_equal_length N r st Hlen) Hall)
      as [IH1 IH2].
    destruct (gui_tick_cpu_alert N r st Hlen) as [[Hf Hc]|(avg & Hmean & _ & E)].
    + rewrite Hf, Hc in *. split; [exact IH1 | exact IH2].
    + rewrite (Hr avg Hmean) in E. cbn [andb] in E.
      destruct (F64.gtb_Z avg 90 && negb (Gui.cpu_notified st)) eqn:Hraise.
      * injection E as Hf Hc. destruct (IH2 Hf) as [Hf' Hc'].
        apply andb_true_iff in Hraise as [_ Hnot].
        split; [rewrite Hc', Hc; destruct N; lia|].
        intros Hflag. rewrite Hflag in Hnot. discriminate.
      * injection E as Hf Hc. rewrite Hf, Hc in *. split; [exact IH1 | exact IH2].
Qed.

Lemma X9_cpu_alert_not_repeated_witness :
  let rs := [Sample.at_time 1 95 2000; Sample.at_time 2 85 3000; Sample.at_time 3 99 4000] in
  let st := Sample.gui0 in
  length (Gui.network_sent_history st) = length (Gui.network_recv_history st)
  /\ Forall (fun r => forall avg, mean (cpu_usage r) = Ok avg -> F64.ltb_Z avg 70 = false) rs
  /\ (cpu_alerts (Gui.update_data true rs st) <= cpu_alerts st + 1)%nat
  /\ Gui.notified (Gui.update_data true rs st) = [Gui.cpu_alert].
Proof.
  intros rs st.
  assert (H1 : length (Gui.network_sent_history st) = length (Gui.network_recv_history st))
    by reflexivity.
  assert (H2 : Forall (fun r => forall avg, mean (cpu_usage r) = Ok avg ->
                                 F64.ltb_Z avg 70 = false) rs).
  { repeat constructor; intros avg [= <-]; reflexivity. }
  destruct (X9_cpu_alert_not_repeated true rs st H1 H2) as [H _].
  split; [exact H1 | split; [exact H2 | split; [exact H | reflexivity]]].
Defined.

(** ** Notifications switched off *)

Lemma gui_tick_silent (N : bool) (r : reading) (st : Gui.state) :
  length (Gui.network_sent_history st) = length (Gui.network_recv_history st) ->
  N && Gui.enable_notifications (Gui.config st) = false ->
  let st' := Gui.update_data_tick N r st in
  Gui.config st' = Gui.config st
  /\ Gui.notified st' = Gui.notified st
  /\ Gui.cpu_notified st' = Gui.cpu_notified st
  /\ Gui.memory_notified st' = Gui.memory_notified st.
Proof.
  intros Hlen Hoff st'. subst st'. rewrite (gui_tick_eq N r st Hlen). unfold gui_tick_spec.
  rewrite Hoff.
  destruct (length (cpu_usage r) <=? length (Gui.cpu_history st))%nat; [|repeat split].
  destruct (per_sec (bytes_sent _) _ _) as [x|e]; [|repeat split].
  destruct (per_sec (bytes_recv _) _ _) as [y|e]; repeat split.
Qed.

(** X10: when the notifier is missing or notifications are disabled in the
    settings, no run of ticks delivers a notification or touches the two
    alert flags. *)
Theorem X10_notifications_switched_off (N : bool) (rs : list reading) (st : Gui.state) :
  length (Gui.network_sent_history st) = length (Gui.network_recv_history st) ->
  N && Gui.enable_notifications (Gui.config st) = false ->
  let st' := Gui.update_data N rs st in
  Gui.notified st' = Gui.notified st
  /\ Gui.cpu_notified st' = Gui.cpu_notified st
  /\ Gui.memory_notified st' = Gui.memory_notified st.
Proof.
  intros Hlen Hoff st'. subst st'. revert st Hlen Hoff.
  induction rs as [|r rs IH]; intros st Hlen Hoff; [repeat split|].
  cbn [Gui.update_data fold_left].
  change (fold_left (fun s r0 => Gui.update_data_tick N r0 s) rs (Gui.update_data_tick N r st))
    with (Gui.update_data N rs (Gui.update_data_tick N r st)).
  destruct (gui_tick_silent N r st Hlen Hoff) as (Hc & Hn & Hf & Hm).
  destruct (IH (Gui.update_data_tick N r st) (gui_tick_equal_length N r st Hlen))
    as (IHn & IHf & IHm).
  - rewrite Hc. exact Hoff.
  - rewrite IHn, IHf, IHm, Hn, Hf, Hm. repeat split.
Qed.

Lemma X10_notifications_switched_off_witness :
  let st := Gui.save_settings "dark" 1 60 false Sample.gui0 in
  let rs := [Sample.at_time 1 95 2000; Sample.at_time 2 99 3000] in
  length (Gui.network_sent_history st) = length (Gui.network_recv_history st)
  /\ true && Gui.enable_notifications (Gui.config st) = false
  /\ Gui.notified (Gui.update_data true rs st) = []
  /\ Gui.cpu_notified (Gui.update_data true rs st) = false.
Proof.
  intros st rs.
  assert (H1 : length (Gui.network_sent_history st) = length (Gui.network_recv_history st))
    by reflexivity.
  assert (H2 : true && Gui.enable_notifications (Gui.config st) = false) by reflexivity.
  destruct (X10_notifications_switched_off true rs st H1 H2) as (Hn & Hf & _).
  split; [exact H1 | split; [exact H2 | split; [exact Hn | exact Hf]]].
Defined.

(** * The CSV export *)

Lemma for_range_ext {St : Type} (f g : nat -> Run.M St unit) (i n : nat) (s : St) :
  (forall k, (i <= k < i + n)%nat -> forall s', f k s' = g k s') ->
  Csv.for_range f i n s = Csv.for_range g i n s.
Proof.
  revert i s. induction n as [|n IH]; intros i s H; [reflexivity|].
  cbn [Csv.for_range]. unfold Run.bind. rewrite (H i) by lia.
  destruct (g i s) as [[[]|e] s']; [|reflexivity].
  apply IH. intros k Hk. apply H. lia.
Qed.

(** A loop whose rows are all computed writes them all, in order. *)
Lemma write_rows_ok (f : nat -> result (list string)) (g : nat -> list string) (i n : nat)
    (rows : list (list string)) :
  (forall k, (i <= k < i + n)%nat -> f k = Ok (g k)) ->
  Csv.for_range (fun k => Run.bind (Run.lift (f k)) (fun row => Csv.writerow row)) i n rows =
  (Ok tt, rows ++ map g (seq i n)).
Proof.
  revert i rows. induction n as [|n IH]; intros i rows H.
  - cbn. rewrite app_nil_r. reflexivity.
  - cbn [Csv.for_range seq map]. unfold Run.bind at 1. rewrite bind_lift, (H i) by lia.
    unfold Csv.writerow, Run.modify. rewrite IH by (intros k Hk; apply H; lia).
    rewrite <- app_assoc. reflexivity.
Qed.

Lemma format_2f_item (h : list F64.float) (i : nat) :
  format_2f (Csv.item_or_0 h i) = Ok (Csv.cell h i).
Proof. unfold Csv.item_or_0, Csv.cell. destruct (h !! i); reflexivity. Qed.

Lemma avg_cpu_ok (i : nat) (cpu_data : list (list F64.float)) :
  cpu_data <> [] -> Z.of_nat (length cpu_data) < 2 ^ 1023 ->
  exists avg, Csv.avg_cpu i cpu_data = Ok avg.
Proof.
  intros Hne Hlen. unfold Csv.avg_cpu.
  destruct (Csv.cpu_column i cpu_data) as [|u col].
  - destruct cpu_data; [congruence|]. eexists. reflexivity.
  - unfold truediv. cbn [to_float Py.bind].
    destruct (Z.of_nat (length cpu_data)) as [|p|p] eqn:Hn; [|  | lia].
    + destruct cpu_data; [congruence | cbn in Hn; lia].
    + destruct (of_Z_pos_not_zero p Hlen) as (y & -> & Hy). cbn [Py.bind]. rewrite Hy.
      eexists. reflexivity.
Qed.

(** The rows of the export, when every row can be computed. *)
Lemma csv_rows_computed (clock : nat -> string) (st : Gui.state) :
  Gui.cpu_history st <> [] ->
  Z.of_nat (length (Gui.cpu_history st)) < 2 ^ 1023 ->
  exists g : nat -> list string,
    (forall i, Csv.csv_row (clock i) st i = Ok (g i))
    /\ forall i p,
        Gui.memory_history st !! i = Some p ->
        exists avg,
          Csv.avg_cpu i (Gui.cpu_history st) = Ok avg
          /\ g i = [ default (clock i) (Gui.time_points st !! i);
                     F64.format_2f avg;
                     F64.format_2f p;
                     Csv.cell (Gui.network_sent_history st) i;
                     Csv.cell (Gui.network_recv_history st) i ].
Proof.
  intros Hne Hlen.
  set (avg := fun i => match Csv.avg_cpu i (Gui.cpu_history st) with
                       | Ok a => a
                       | Raise _ => F64.zero
                       end).
  exists (fun i => [ default (clock i) (Gui.time_points st !! i);
                     F64.format_2f (avg i);
                     Csv.cell (Gui.memory_history st) i;
                     Csv.cell (Gui.network_sent_history st) i;
                     Csv.cell (Gui.network_recv_history st) i ]).
  split.
  - intros i. unfold Csv.csv_row, avg.
    destruct (avg_cpu_ok i (Gui.cpu_history st) Hne Hlen) as [a ->]. cbn [Py.bind].
    change (format_2f (Float a)) with (Ok (F64.format_2f a)). cbn [Py.bind].
    rewrite !format_2f_item. cbn [Py.bind].
    destruct (Gui.time_points st !! i); reflexivity.
  - intros i p Hp. destruct (avg_cpu_ok i (Gui.cpu_history st) Hne Hlen) as [a Ha].
    exists a. split; [exact Ha|]. unfold avg. rewrite Ha.
    unfold Csv.cell at 1. rewrite Hp. reflexivity.
Qed.

(** The loop over the rows on a file system: it hands the rows to the
    writer in order, up to the first write that fails. *)
Lemma write_rows_on_ok (fs : Csv.file_system) (f : nat -> result (list string))
    (g : nat -> list string) (i n : nat) (rows : list (list string)) :
  (forall k, (i <= k < i + n)%nat -> f k = Ok (g k)) ->
  (forall j, (j < n)%nat -> Csv.write_row fs (length rows + j) = Ok tt) ->
  Csv.for_range (fun k => Run.bind (Run.lift (f k)) (fun row => Csv.writerow_on fs row)) i n rows
  = (Ok tt, rows ++ map g (seq i n)).
Proof.
  revert i rows. induction n as [|n IH]; intros i rows Hf Hw.
  - cbn. rewrite app_nil_r. reflexivity.
  - cbn [Csv.for_range seq map]. unfold Run.bind at 1. rewrite bind_lift, (Hf i) by lia.
    unfold Csv.writerow_on. rewrite bind_get.
    pose proof (Hw 0%nat ltac:(lia)) as H0. rewrite Nat.add_0_r in H0.
    rewrite bind_lift, H0. unfold Run.modify.
    rewrite IH.
    + rewrite <- app_assoc. reflexivity.
    + intros k Hk. apply Hf. lia.
    + intros j Hj. rewrite length_app. cbn [length].
      replace (length rows + 1 + j)%nat with (length rows + S j)%nat by lia.
      apply Hw. lia.
Qed.

Lemma write_rows_on_fails (fs : Csv.file_system) (f : nat -> result (list string))
    (g : nat -> list string) (i n j : nat) (e : exn) (rows : list (list string)) :
  (forall k, (i <= k < i + n)%nat -> f k = Ok (g k)) ->
  (j < n)%nat ->
  (forall j', (j' < j)%nat -> Csv.write_row fs (length rows + j') = Ok tt) ->
  Csv.write_row fs (length rows + j) = Raise e ->
  Csv.for_range (fun k => Run.bind (Run.lift (f k)) (fun row => Csv.writerow_on fs row)) i n rows
  = (Raise e, rows ++ map g (seq i j)).
Proof.
  revert i j rows. induction n as [|n IH]; intros i j rows Hf Hj Hw He; [lia|].
  cbn [Csv.for_range]. unfold Run.bind at 1. rewrite bind_lift, (Hf i) by lia.
  unfold Csv.writerow_on. rewrite bind_get.
  destruct j as [|j].
  - rewrite Nat.add_0_r in He. rewrite bind_lift, He. cbn. rewrite app_nil_r. reflexivity.
  - pose proof (Hw 0%nat ltac:(lia)) as H0. rewrite Nat.add_0_r in H0.
    rewrite bind_lift, H0. unfold Run.modify.
    rewrite (IH (S i) j).
    + cbn [seq map]. rewrite <- app_assoc. reflexivity.
    + intros k Hk. apply Hf. lia.
    + lia.
    + intros j' Hj'. rewrite length_app. cbn [length].
      replace (length rows + 1 + j')%nat with (length rows + S j')%nat by lia.
      apply Hw. lia.
    + rewrite length_app. cbn [length].
      replace (length rows + 1 + j)%nat with (length rows + S j)%nat by lia. exact He.
Qed.

(** On a file system on which nothing fails, the export is
    [Csv.export_to_csv]. *)
Lemma export_to_csv_on_healthy (filename : string) (clock : nat -> string) (st : Gui.state) :
  Csv.export_to_csv_on Csv.healthy filename clock st = Csv.export_to_csv filename clock st.
Proof.
  unfold Csv.export_to_csv_on, Csv.export_to_csv.
  destruct (Panels.truthy filename); [|reflexivity]. cbn [Csv.open_file Csv.healthy].
  assert (E : Csv.write_csv_on Csv.healthy clock st [] = Csv.write_csv clock st []).
  { unfold Csv.write_csv_on, Csv.write_csv. unfold Run.bind at 1 3.
    unfold Csv.writerow_on at 1, Csv.writerow at 1.
    rewrite bind_get. cbn [Csv.write_row Csv.healthy]. rewrite bind_lift.
    unfold Run.modify. apply for_range_ext. intros k _ s'.
    unfold Run.bind, Run.lift. destruct (Csv.csv_row (clock k) st k); reflexivity. }
  rewrite E. cbn [Csv.close_file Csv.healthy].
  destruct (Csv.write_csv clock st []) as [[[]|e] rows]; reflexivity.
Qed.

(** X11: [export_to_csv] on any file system, when there is at least one CPU
    series (and fewer than [2^1023] of them) and the update thread does not
    write the series meanwhile. A cancelled file dialog ends the call. When
    [open] raises, the failure dialog is shown and nothing is written. When
    the file is opened and every write succeeds, the header and one row per
    value of the memory series are written, and the success dialog is shown,
    unless the closing of the file raises. When the [j]-th write raises, the
    rows before it have been written and the failure dialog is shown. Row
    [i] holds the recorded time (the current time when there is none), the
    sum of the [i]-th CPU values divided by the number of CPU series, the
    [i]-th memory value, and the [i]-th network rates, or 0.00 where a
    network series is shorter, all with two decimals. *)
Theorem X11_export_to_csv_rows (fs : Csv.file_system) (filename : string)
    (clock : nat -> string) (st : Gui.state) :
  Gui.cpu_history st <> [] ->
  Z.of_nat (length (Gui.cpu_history st)) < 2 ^ 1023 ->
  let n := length (Gui.memory_history st) in
  let export := Csv.export_to_csv_on fs filename clock st in
  exists rows,
    length rows = n
    /\ (forall i p,
          Gui.memory_history st !! i = Some p ->
          exists avg,
            Csv.avg_cpu i (Gui.cpu_history st) = Ok avg
            /\ rows !! i =
               Some [ default (clock i) (Gui.time_points st !! i);
                      F64.format_2f avg;
                      F64.format_2f p;
                      Csv.cell (Gui.network_sent_history st) i;
                      Csv.cell (Gui.network_recv_history st) i ])
    /\ (Panels.truthy filename = false -> export = None)
    /\ (Panels.truthy filename = true ->
        forall e, Csv.open_file fs filename = Raise e ->
        export = Some ([], Csv.showerror_export_failed e))
    /\ (Panels.truthy filename = true ->
        Csv.open_file fs filename = Ok tt ->
        (forall k, (k <= n)%nat -> Csv.write_row fs k = Ok tt) ->
        export = Some (Csv.header :: rows,
                       match Csv.close_file fs with
                       | Ok _ => Csv.showinfo_export_successful
                       | Raise e => Csv.showerror_export_failed e
                       end))
    /\ (Panels.truthy filename = true ->
        Csv.open_file fs filename = Ok tt ->
        forall j e,
          (j <= n)%nat ->
          (forall k, (k < j)%nat -> Csv.write_row fs k = Ok tt) ->
          Csv.write_row fs j = Raise e ->
          export = Some (take j (Csv.header :: rows),
                         Csv.showerror_export_failed
                           match Csv.close_file fs with
                           | Ok _ => e
                           | Raise e' => e'
                           end)).
Proof.
  intros Hne Hlen n export. subst export.
  destruct (csv_rows_computed clock st Hne Hlen) as (g & Hrow & Hg).
  exists (map g (seq 0 n)).
  split; [rewrite length_map, length_seq; reflexivity|].
  split.
  { intros i p Hp. destruct (Hg i p Hp) as (avg & Ha & Hgi).
    exists avg. split; [exact Ha|].
    pose proof (lookup_lt_Some _ _ _ Hp) as Hi.
    rewrite list_lookup_fmap, lookup_seq_lt by exact Hi.
    cbn [fmap option_fmap option_map Nat.add]. rewrite Hgi. reflexivity. }
  unfold Csv.export_to_csv_on.
  split; [intros ->; reflexivity|].
  split; [intros -> e ->; reflexivity|].
  split.
  - intros -> -> Hw. unfold Csv.write_csv_on.
    unfold Run.bind at 1, Csv.writerow_on at 1. rewrite bind_get.
    cbn [length]. rewrite bind_lift, (Hw 0%nat) by lia. unfold Run.modify. cbn [app].
    fold n.
    rewrite (write_rows_on_ok fs _ g);
      [| intros k _; apply Hrow | intros j Hj; apply Hw; cbn [length]; lia].
    cbn [app]. destruct (Csv.close_file fs) as [[]|e]; reflexivity.
  - intros -> -> j e Hj Hw He. unfold Csv.write_csv_on.
    unfold Run.bind at 1, Csv.writerow_on at 1. rewrite bind_get. cbn [length].
    destruct j as [|j].
    + rewrite bind_lift, He. cbn [take].
      destruct (Csv.close_file fs) as [[]|e']; reflexivity.
    + rewrite bind_lift, (Hw 0%nat) by lia. unfold Run.modify. cbn [app]. fold n.
      rewrite (write_rows_on_fails fs _ g 0 n j e);
        [| intros k _; apply Hrow | lia | intros j' Hj'; apply Hw; cbn [length]; lia
         | exact He].
      cbn [app take].
      assert (Et : take j (map g (seq 0 n)) = map g (seq 0 j)).
      { rewrite <- fmap_take. f_equal. rewrite take_seq. f_equal. lia. }
      rewrite Et. destruct (Csv.close_file fs) as [[]|e']; reflexivity.
Qed.

Lemma X11_export_to_csv_rows_witness :
  let st := Gui.update_data true [Sample.at_time 1 10 2000; Sample.at_time 2 30 5000]
              Sample.gui0 in
  let clock := fun _ : nat => "13:00:00"%string in
  let full := {| Csv.open_file := fun _ => Ok tt;
                 Csv.write_row := fun k => if (k <? 2)%nat then Ok tt else Raise (Other "OSError");
                 Csv.close_file := Ok tt |} in
  let read_only := {| Csv.open_file := fun _ => Raise (Other "PermissionError");
                      Csv.write_row := fun _ => Ok tt;
                      Csv.close_file := Ok tt |} in
  Gui.cpu_history st <> []
  /\ Z.of_nat (length (Gui.cpu_history st)) < 2 ^ 1023
  /\ Csv.export_to_csv_on Csv.healthy "vitals.csv" clock st
     = Some ([ Csv.header;
               ["12:00:00"; "10.00"; "50.00"; "1000.00"; "0.00"];
               ["12:00:00"; "30.00"; "50.00"; "3000.00"; "0.00"] ]%string,
             Csv.showinfo_export_successful)
  /\ Csv.export_to_csv_on full "vitals.csv" clock st
     = Some ([ Csv.header; ["12:00:00"; "10.00"; "50.00"; "1000.00"; "0.00"] ]%string,
             Csv.showerror_export_failed (Other "OSError"))
  /\ Csv.export_to_csv_on read_only "vitals.csv" clock st
     = Some ([], Csv.showerror_export_failed (Other "PermissionError"))
  /\ Csv.export_to_csv_on Csv.healthy "" clock st = None.
Proof.
  intros st clock full read_only.
  assert (H1 : Gui.cpu_history st <> []) by discriminate.
  assert (H2 : Z.of_nat (length (Gui.cpu_history st)) < 2 ^ 1023) by reflexivity.
  destruct (X11_export_to_csv_rows read_only "vitals.csv" clock st H1 H2)
    as (rows & _ & _ & _ & Hopen & _).
  destruct (X11_export_to_csv_rows Csv.healthy "" clock st H1 H2)
    as (rows' & _ & _ & Hnone & _).
  split; [exact H1 | split; [exact H2 |]].
  split; [reflexivity | split; [reflexivity |]].
  split; [exact (Hopen eq_refl _ eq_refl) | exact (Hnone eq_refl)].
Defined.

(** X12: without any CPU series and with a memory series that is not empty,
    [export_to_csv] fails on the first row with [ZeroDivisionError]: the
    file holds the header only and the failure dialog is shown. *)
Theorem X12_export_to_csv_no_cpu_series (filename : string) (clock : nat -> string)
    (st : Gui.state) :
  Panels.truthy filename = true ->
  Gui.cpu_history st = [] ->
  Gui.memory_history st <> [] ->
  Csv.export_to_csv filename clock st
  = Some ([Csv.header], Csv.showerror_export_failed ZeroDivisionError).
Proof.
  intros Hname Hcpu Hmem. unfold Csv.export_to_csv, Csv.write_csv. rewrite Hname.
  unfold Run.bind at 1, Csv.writerow at 1, Run.modify at 1. cbn [app].
  destruct (Gui.memory_history st) as [|p mh]; [congruence|].
  cbn [length Csv.for_range]. unfold Run.bind at 1. rewrite bind_lift.
  unfold Csv.csv_row, Csv.avg_cpu. rewrite Hcpu. reflexivity.
Qed.

Lemma X12_export_to_csv_no_cpu_series_witness :
  let st := Gui.update_data false [Cases.reading_of 1 [] 50 2000]
              (Gui.init 0 (Sample.counters 1000) (F64.of_Z 0)) in
  Panels.truthy "vitals.csv" = true
  /\ Gui.cpu_history st = []
  /\ Gui.memory_history st <> []
  /\ Csv.export_to_csv "vitals.csv" (fun _ => "13:00:00"%string) st
     = Some ([Csv.header], Csv.showerror_export_failed ZeroDivisionError).
Proof.
  intros st.
  assert (H1 : Panels.truthy "vitals.csv" = true) by reflexivity.
  assert (H2 : Gui.cpu_history st = []) by reflexivity.
  assert (H3 : Gui.memory_history st <> []) by discriminate.
  split; [exact H1 | split; [exact H2 | split; [exact H3 |]]].
  exact (X12_export_to_csv_no_cpu_series "vitals.csv" _ st H1 H2 H3).
Defined.

(** X13: the export reads the clock only for the rows past the end of the
    time series: for the series as one export finds them, two clocks that
    agree on those rows give the same export, on every file system. So an
    export of series read between two passes, where the time series is as
    long as the memory series, does not depend on the clock; one that finds
    the time series shorter, as in the midst of a pass, stamps the last rows
    with the current time. *)
Theorem X13_export_to_csv_clock (fs : Csv.file_system) (filename : string)
    (clock1 clock2 : nat -> string) (st : Gui.state) :
  (forall i,
      (length (Gui.time_points st) <= i < length (Gui.memory_history st))%nat ->
      clock1 i = clock2 i) ->
  Csv.export_to_csv_on fs filename clock1 st = Csv.export_to_csv_on fs filename clock2 st
  /\ Csv.export_to_csv filename clock1 st = Csv.export_to_csv filename clock2 st.
Proof.
  intros Hclock.
  assert (E : forall fs', Csv.export_to_csv_on fs' filename clock1 st
                          = Csv.export_to_csv_on fs' filename clock2 st).
  { intros fs'. unfold Csv.export_to_csv_on.
    assert (Ew : Csv.write_csv_on fs' clock1 st [] = Csv.write_csv_on fs' clock2 st []).
    { unfold Csv.write_csv_on. unfold Run.bind at 1 3.
      destruct (Csv.writerow_on fs' Csv.header []) as [[[]|e] rows]; [|reflexivity].
      apply for_range_ext. intros k Hk s'. unfold Csv.csv_row.
      destruct (Gui.time_points st !! k) as [t|] eqn:Ht; [reflexivity|].
      apply lookup_ge_None in Ht. rewrite (Hclock k) by lia. reflexivity. }
    rewrite Ew. reflexivity. }
  split; [apply E|]. rewrite <- !export_to_csv_on_healthy. apply E.
Qed.

Lemma X13_export_to_csv_clock_witness :
  let st := Gui.set_time_points (fun h => drop 1 h)
              (Gui.update_data true [Sample.at_time 1 10 2000] Sample.gui0) in
  let clock1 := fun i : nat => if (i =? 0)%nat then "13:00:00"%string else "a"%string in
  let clock2 := fun i : nat => if (i =? 0)%nat then "13:00:00"%string else "b"%string in
  (forall i,
      (length (Gui.time_points st) <= i < length (Gui.memory_history st))%nat ->
      clock1 i = clock2 i)
  /\ Csv.export_to_csv "vitals.csv" clock1 st = Csv.export_to_csv "vitals.csv" clock2 st
  /\ Csv.export_to_csv "vitals.csv" clock1 st
     = Some ([ Csv.header; ["13:00:00"; "10.00"; "50.00"; "1000.00"; "0.00"] ]%string,
             Csv.showinfo_export_successful).
Proof.
  intros st clock1 clock2.
  assert (H : forall i,
             (length (Gui.time_points st) <= i < length (Gui.memory_history st))%nat ->
             clock1 i = clock2 i).
  { intros i Hi. change (length (Gui.time_points st)) with 0%nat in Hi.
    change (length (Gui.memory_history st)) with 1%nat in Hi.
    assert (i = 0%nat) as -> by lia. reflexivity. }
  destruct (X13_export_to_csv_clock Csv.healthy "vitals.csv" clock1 clock2 st H) as [_ E].
  split; [exact H | split; [exact E | reflexivity]].
Defined.
(** * The size formatter on rates *)

Lemma shr_record_of_loc_m (m : Z) (l : location) : shr_m (shr_record_of_loc m l) = m.
Proof. destruct l as [|[| |]]; reflexivity. Qed.

Lemma shr_nonneg (mrs : shr_record) (e n : Z) :
  0 <= shr_m mrs -> 0 <= shr_m (fst (shr mrs e n)).
Proof.
  intros H. destruct n as [|p|p]; cbn [shr fst]; try exact H.
  rewrite shr_m_iter by exact H. apply Z.div_pos; [exact H | apply Z.pow_pos_nonneg; lia].
Qed.

(** Rounding a mantissa that is not negative never gives a NaN. *)
Lemma binary_round_aux_not_nan (s : bool) (m e : Z) (l : location) :
  0 <= m -> binary_round_aux F64.prec F64.emax s m e l <> S754_nan.
Proof.
  intros Hm. unfold binary_round_aux, shr_fexp.
  match goal with
  | |- context [shr (shr_record_of_loc m l) e ?n] =>
      pose proof (shr_nonneg (shr_record_of_loc m l) e n) as H1;
      destruct (shr (shr_record_of_loc m l) e n) as [mrs' e']
  end.
  rewrite shr_record_of_loc_m in H1. specialize (H1 Hm). cbn [fst] in H1.
  pose proof (round_nearest_even_bounds (shr_m mrs') (loc_of_shr_record mrs')) as Hr.
  set (m2 := round_nearest_even (shr_m mrs') (loc_of_shr_record mrs')) in *.
  match goal with
  | |- context [shr (shr_record_of_loc m2 loc_Exact) e' ?n] =>
      pose proof (shr_nonneg (shr_record_of_loc m2 loc_Exact) e' n) as H2;
      destruct (shr (shr_record_of_loc m2 loc_Exact) e' n) as [mrs'' e'']
  end.
  rewrite shr_record_of_loc_m in H2. cbn [fst] in H2.
  destruct (shr_m mrs'') as [|p|p].
  - discriminate.
  - destruct (e'' <=? F64.emax - F64.prec); discriminate.
  - lia.
Qed.

Lemma of_Z_not_nan (z : Z) : F64.of_Z z <> S754_nan.
Proof.
  unfold F64.of_Z, binary_normalize. destruct z as [|p|p]; [discriminate | |];
    unfold binary_round; destruct (shl_align _ _ _) as [mz ez];
    apply binary_round_aux_not_nan; lia.
Qed.

Lemma of_Z_sign_neg (z : Z) : z < 0 -> F64.has_sign true (F64.of_Z z).
Proof.
  intros Hz. unfold F64.of_Z, binary_normalize.
  destruct z as [|p|p]; [lia | lia |].
  unfold binary_round. destruct (shl_align _ _ _) as [mz ez].
  apply binary_round_aux_sign.
Qed.

(** Dividing a finite float by a positive one: the sign is kept, and the
    quotient is not a NaN. *)
Lemma div_by_positive (s : bool) (x y : F64.float) :
  F64.has_sign s x -> x <> S754_nan -> (forall s', x <> S754_infinity s') ->
  F64.ltb F64.zero y = true ->
  F64.has_sign s (F64.div x y) /\ F64.div x y <> S754_nan.
Proof.
  intros Hs Hnan Hinf Hy.
  destruct y as [sy|sy| |sy my ey]; try discriminate Hy;
    destruct sy; try discriminate Hy;
    destruct x as [sx|sx| |sx mx ex]; cbn [F64.has_sign] in Hs; subst;
      unfold F64.div, SFdiv; rewrite ?xorb_false_r;
      try (split; [reflexivity | discriminate]);
      try congruence;
      try (exfalso; exact (Hinf _ eq_refl)).
  assert (Hq : 0 <= fst (fst (SFdiv_core_binary F64.prec F64.emax (Zpos mx) ex (Zpos my) ey))).
  { unfold SFdiv_core_binary.
    match goal with
    | |- context [Z.div_eucl ?a ?b] =>
        assert (Ha : 0 <= a);
        [| generalize (Z.div_pos a b Ha ltac:(lia)); unfold Z.div;
           destruct (Z.div_eucl a b) as [q r]; cbn [fst]; intros H; exact H]
    end.
    destruct (ex - ey - _) as [|p|p]; try lia.
    apply Z.shiftl_nonneg. lia. }
  destruct (SFdiv_core_binary _ _ _ _ _ _) as [[mz ez] lz]. cbn [fst] in Hq.
  split; [apply binary_round_aux_sign | apply binary_round_aux_not_nan; exact Hq].
Qed.

(** A float that carries a minus sign is under [1024.0]. *)
Lemma minus_sign_under_1024 (x : F64.float) :
  F64.has_sign true x -> x <> S754_nan -> lt_float (Float x) Cli.f1024 = true.
Proof.
  change Cli.f1024 with (S754_finite false 4503599627370496 (-42)).
  destruct x as [s|s| |s m e]; cbn [F64.has_sign]; intros Hs Hnan; subst;
    try reflexivity; congruence.
Qed.

Lemma float_of_int_inv (z : Z) (x : F64.float) :
  float_of_int z = Ok x -> x = F64.of_Z z /\ forall s, x <> S754_infinity s.
Proof.
  unfold float_of_int. destruct (F64.of_Z z); intros [= <-]; split; congruence.
Qed.

(** X14: the rate of a counter that decreased over a positive elapsed time
    carries a minus sign, is not a NaN, and [size_formatter] never scales
    it: whatever its magnitude, it is rendered with two decimals in B. *)
Theorem X14_size_formatter_decreasing_counter (curr prev : Z) (dt x : F64.float) :
  curr < prev ->
  F64.ltb F64.zero dt = true ->
  per_sec curr prev dt = Ok x ->
  F64.has_sign true x
  /\ x <> S754_nan
  /\ Cli.size_formatter (Float x) = Ok (String.append (F64.format_2f x) " B").
Proof.
  intros Hlt Hdt. unfold per_sec, truediv. cbn [to_float].
  destruct (float_of_int (curr - prev)) as [x0|e] eqn:Hf; cbn [Py.bind]; [|discriminate].
  rewrite (positive_not_zero _ Hdt). intros [= <-].
  destruct (float_of_int_inv _ _ Hf) as [-> Hinf].
  destruct (div_by_positive true (F64.of_Z (curr - prev)) dt
              (of_Z_sign_neg (curr - prev) ltac:(lia)) (of_Z_not_nan _) Hinf Hdt) as [H1 H2].
  split; [exact H1|]. split; [exact H2|].
  unfold Cli.size_formatter, Cli.units. cbn [Cli.size_formatter_from].
  rewrite (minus_sign_under_1024 _ H1 H2). reflexivity.
Qed.

Lemma X14_size_formatter_decreasing_counter_witness :
  0 < 5000000
  /\ F64.ltb F64.zero (F64.of_Z 1) = true
  /\ per_sec 0 5000000 (F64.of_Z 1) = Ok (F64.of_Z (-5000000))
  /\ Cli.size_formatter (Float (F64.of_Z (-5000000))) = Ok "-5000000.00 B"%string.
Proof.
  assert (H1 : 0 < 5000000) by lia.
  assert (H2 : F64.ltb F64.zero (F64.of_Z 1) = true) by reflexivity.
  assert (H3 : per_sec 0 5000000 (F64.of_Z 1) = Ok (F64.of_Z (-5000000))) by reflexivity.
  destruct (X14_size_formatter_decreasing_counter 0 5000000 (F64.of_Z 1) _ H1 H2 H3)
    as (_ & _ & E).
  split; [exact H1 | split; [exact H2 | split; [exact H3 |]]].
  rewrite E. reflexivity.
Defined.

(** ** Rates that are not negative *)

(** The loop on a positive float with a full mantissa: every division is
    exact, so the number rendered is the float itself at a lower exponent. *)
Lemma size_formatter_from_normal (us : list string) (m : positive) (e : Z) :
  Zpos (digits2_pos m) = 53 -> e <= 971 ->
  Cli.size_formatter_from us (Float (S754_finite false m e)) =
  Ok (String.append
        (F64.format_2f (S754_finite false m (e - 10 * Z.of_nat (divisions (length us) e))))
        (String " " (nth (divisions (length us) e) (us ++ ["PB"%string]) ""%string))).
Proof.
  intros Hd. revert e. induction us as [|u us IH]; intros e He.
  - cbn [Cli.size_formatter_from length divisions nth app]. unfold format_2f.
    cbn [to_float Py.bind]. replace (e - 10 * Z.of_nat 0) with e by lia. reflexivity.
  - cbn [Cli.size_formatter_from length divisions lt_float].
    rewrite (ltb_normal_1024 m e Hd).
    destruct (Z.ltb_spec e (-42)) as [Hlt|Hge].
    + unfold format_2f. cbn [to_float Py.bind nth app].
      replace (e - 10 * Z.of_nat 0) with e by lia. reflexivity.
    + unfold truediv. cbn [to_float Py.bind].
      change (F64.is_zero Cli.f1024) with false. cbv iota. cbn [Py.bind].
      rewrite div_1024_exact by (try exact Hd; lia).
      rewrite IH by lia. cbn [nth app].
      replace (e - 10 - 10 * Z.of_nat (divisions (length us) (e - 10)))
        with (e - 10 * Z.of_nat (S (divisions (length us) (e - 10)))) by lia.
      reflexivity.
Qed.

(** The integer part of a positive float with a full mantissa is under
    [2^n] exactly when the exponent says so. *)
Lemma int_of_float_lt_pow2 (m : positive) (e v n : Z) :
  Zpos (digits2_pos m) = 53 -> 0 <= n ->
  Text.int_of_float (S754_finite false m e) = Some v ->
  (v <? 2 ^ n) = (e + 53 <=? n).
Proof.
  intros Hd Hn. cbn [Text.int_of_float]. intros [= <-].
  pose proof (digits2_pos_gt m) as Hhi. pose proof (digits2_pos_lower m) as Hlo.
  rewrite Hd in Hhi, Hlo. change (53 - 1) with 52 in Hlo.
  destruct e as [|p|p].
  - rewrite Z.pow_0_r, Z.mul_1_r.
    destruct (Z.ltb_spec (Zpos m) (2 ^ n)) as [H|H];
      destruct (Z.leb_spec (0 + 53) n) as [H'|H']; try reflexivity; exfalso.
    + assert (2 ^ n <= 2 ^ 52) by (apply Z.pow_le_mono_r; lia). lia.
    + assert (2 ^ 53 <= 2 ^ n) by (apply Z.pow_le_mono_r; lia). lia.
  - assert (Hp : 0 < 2 ^ Zpos p) by (apply Z.pow_pos_nonneg; lia).
    destruct (Z.ltb_spec (Zpos m * 2 ^ Zpos p) (2 ^ n)) as [H|H];
      destruct (Z.leb_spec (Zpos p + 53) n) as [H'|H']; try reflexivity; exfalso.
    + assert (2 ^ n <= 2 ^ (52 + Zpos p)) by (apply Z.pow_le_mono_r; lia).
      rewrite Z.pow_add_r in * by lia. nia.
    + assert (2 ^ (53 + Zpos p) <= 2 ^ n) by (apply Z.pow_le_mono_r; lia).
      rewrite Z.pow_add_r in * by lia. nia.
  - assert (Hp : 0 < 2 ^ Zpos p) by (apply Z.pow_pos_nonneg; lia).
    destruct (Z.ltb_spec (Zpos m / 2 ^ Zpos p) (2 ^ n)) as [H|H];
      destruct (Z.leb_spec (Zneg p + 53) n) as [H'|H']; try reflexivity; exfalso.
    + assert (Hm : Zpos m < 2 ^ n * 2 ^ Zpos p).
      { destruct (Z_lt_le_dec (Zpos m) (2 ^ n * 2 ^ Zpos p)) as [G|G]; [exact G|exfalso].
        assert (2 ^ n <= Zpos m / 2 ^ Zpos p) by (apply Z.div_le_lower_bound; lia). lia. }
      rewrite <- Z.pow_add_r in Hm by lia.
      assert (2 ^ (n + Zpos p) <= 2 ^ 52) by (apply Z.pow_le_mono_r; lia). lia.
    + assert (Hm : Zpos m / 2 ^ Zpos p < 2 ^ n).
      { apply Z.div_lt_upper_bound; [exact Hp|]. rewrite <- Z.pow_add_r by lia.
        assert (2 ^ 53 <= 2 ^ (Zpos p + n)) by (apply Z.pow_le_mono_r; lia). lia. }
      lia.
Qed.

Lemma divisions_unit_index (m : positive) (e v : Z) :
  Zpos (digits2_pos m) = 53 ->
  Text.int_of_float (S754_finite false m e) = Some v ->
  divisions 5 e = unit_index v.
Proof.
  intros Hd Hv. unfold unit_index, find_unit, divisions.
  assert (E : forall j : nat,
             (v <? 1024 * 1024 ^ Z.of_nat j) = (e - 10 * Z.of_nat j <? -42)).
  { intros j. rewrite pow_1024.
    rewrite (int_of_float_lt_pow2 m e v (10 + 10 * Z.of_nat j) Hd ltac:(lia) Hv).
    destruct (Z.leb_spec (e + 53) (10 + 10 * Z.of_nat j));
      destruct (Z.ltb_spec (e - 10 * Z.of_nat j) (-42)); try reflexivity; lia. }
  rewrite (E 0%nat), (E 1%nat), (E 2%nat), (E 3%nat), (E 4%nat).
  replace (e - 10 * Z.of_nat 0) with e by lia.
  replace (e - 10 * Z.of_nat 1) with (e - 10) by lia.
  replace (e - 10 * Z.of_nat 2) with (e - 10 - 10) by lia.
  replace (e - 10 * Z.of_nat 3) with (e - 10 - 10 - 10) by lia.
  replace (e - 10 * Z.of_nat 4) with (e - 10 - 10 - 10 - 10) by lia.
  destruct (e <? -42); [reflexivity|].
  destruct (e - 10 <? -42); [reflexivity|].
  destruct (e - 10 - 10 <? -42); [reflexivity|].
  destruct (e - 10 - 10 - 10 <? -42); [reflexivity|].
  destruct (e - 10 - 10 - 10 - 10 <? -42); reflexivity.
Qed.

(** X15: on a positive float with a full mantissa [m] and exponent [e] (every
    normal binary64 number), [size_formatter] picks the unit of the integer
    part of the float, as for a byte count, and renders [m * 2^e / 1024^k]
    exactly rounded to two decimals: the divisions by 1024.0 lose nothing. *)
Theorem X15_size_formatter_positive_rate (m : positive) (e : Z) :
  Zpos (digits2_pos m) = 53 -> e <= 971 ->
  let x := S754_finite false m e in
  exists v,
    Text.int_of_float x = Some v
    /\ 0 <= v
    /\ Cli.size_formatter (Float x) =
       Ok (String.append
             (F64.render_hundredths false
                (F64.hundredths m (e - 10 * Z.of_nat (unit_index v))))
             (String " " (unit_name (unit_index v)))).
Proof.
  intros Hd He x.
  destruct (Text.int_of_float x) as [v|] eqn:Hv; [|discriminate].
  exists v. split; [reflexivity|]. split.
  - cbn [Text.int_of_float x] in Hv. injection Hv as <-.
    destruct e as [|p|p].
    + lia.
    + apply Z.mul_nonneg_nonneg; [lia | apply Z.pow_nonneg; lia].
    + apply Z.div_pos; [lia | apply Z.pow_pos_nonneg; lia].
  - unfold Cli.size_formatter, x.
    rewrite (size_formatter_from_normal Cli.units m e Hd He).
    change (length Cli.units) with 5%nat.
    rewrite (divisions_unit_index m e v Hd Hv). reflexivity.
Qed.

Lemma X15_size_formatter_positive_rate_witness :
  let m := F64.normal_mantissa 3145728 in
  Zpos (digits2_pos m) = 53
  /\ -31 <= 971
  /\ F64.of_Z 3145728 = S754_finite false m (-31)
  /\ Text.int_of_float (F64.of_Z 3145728) = Some 3145728
  /\ unit_index 3145728 = 2%nat
  /\ Cli.size_formatter (Float (F64.of_Z 3145728)) = Ok "3.00 MB"%string.
Proof.
  intros m.
  assert (H1 : Zpos (digits2_pos m) = 53) by reflexivity.
  assert (H2 : -31 <= 971) by lia.
  destruct (X15_size_formatter_positive_rate m (-31) H1 H2) as (v & Hv & _ & E).
  split; [exact H1 | split; [exact H2|]].
  split; [reflexivity|]. split; [reflexivity|]. split; [reflexivity|].
  change (F64.of_Z 3145728) with (S754_finite false m (-31)).
  rewrite E. cbn in Hv. injection Hv as <-. reflexivity.
Defined.

(** ** Any float *)

Lemma scale_1024_succ (x : F64.float) (k : nat) :
  scale_1024 (F64.div x Cli.f1024) k = scale_1024 x (S k).
Proof. unfold scale_1024. rewrite Nat.iter_succ_r. reflexivity. Qed.

Lemma size_formatter_from_float (us : list string) (x : F64.float) :
  exists k,
    (k <= length us)%nat
    /\ Cli.size_formatter_from us (Float x) =
       Ok (String.append (F64.format_2f (scale_1024 x k))
             (String " " (nth k (us ++ ["PB"%string]) ""%string)))
    /\ (forall j, (j < k)%nat -> F64.ltb (scale_1024 x j) Cli.f1024 = false)
    /\ ((k < length us)%nat -> F64.ltb (scale_1024 x k) Cli.f1024 = true).
Proof.
  revert x. induction us as [|u us IH]; intros x.
  - exists 0%nat. cbn [length]. split; [lia|]. split; [reflexivity|]. split; intros; lia.
  - cbn [Cli.size_formatter_from lt_float length].
    destruct (F64.ltb x Cli.f1024) eqn:Hlt.
    + exists 0%nat. split; [lia|]. split; [reflexivity|]. split; [intros; lia|].
      intros _. exact Hlt.
    + unfold truediv. cbn [to_float Py.bind].
      change (F64.is_zero Cli.f1024) with false. cbv iota. cbn [Py.bind].
      destruct (IH (F64.div x Cli.f1024)) as (k & Hk & E & Hbelow & Hfit).
      exists (S k). split; [lia|]. split; [|split].
      * rewrite E, scale_1024_succ. reflexivity.
      * intros j Hj. destruct j as [|j]; [exact Hlt|].
        rewrite <- scale_1024_succ. apply Hbelow. lia.
      * intros Hlen. rewrite <- scale_1024_succ. apply Hfit. lia.
Qed.

(** X16: on a float [size_formatter] never raises.  It renders the float
    divided [k] times by 1024.0, where [k] is the first index under 5 at
    which the quotient is under 1024.0, and 5 (PB) when there is none.  A
    NaN is shown as "nan PB", plus infinity as "inf PB", minus infinity as
    "-inf B". *)
Theorem X16_size_formatter_any_float (x : F64.float) :
  (exists k,
      (k <= 5)%nat
      /\ Cli.size_formatter (Float x) =
         Ok (String.append (F64.format_2f (scale_1024 x k)) (String " " (unit_name k)))
      /\ (forall j, (j < k)%nat -> F64.ltb (scale_1024 x j) Cli.f1024 = false)
      /\ ((k <= 4)%nat -> F64.ltb (scale_1024 x k) Cli.f1024 = true))
  /\ Cli.size_formatter (Float S754_nan) = Ok "nan PB"%string
  /\ Cli.size_formatter (Float (S754_infinity false)) = Ok "inf PB"%string
  /\ Cli.size_formatter (Float (S754_infinity true)) = Ok "-inf B"%string.
Proof.
  split; [|repeat split; reflexivity].
  destruct (size_formatter_from_float Cli.units x) as (k & Hk & E & Hbelow & Hfit).
  exists k. split; [exact Hk|]. split; [exact E|]. split; [exact Hbelow|].
  intros H4. apply Hfit. cbn. lia.
Qed.

(** * The CPU table of the terminal dashboard *)

(** Dividing a float with a full mantissa by a power of two only lowers
    the exponent. *)
Lemma div_pow2_exact (s : bool) (m : positive) (e d : Z) :
  Zpos (digits2_pos m) = 53 -> -1021 <= e - d <= 1023 ->
  F64.div (S754_finite s m e) (S754_finite false 4503599627370496 d)
  = S754_finite s m (e - d - 52).
Proof.
  intros Hd He.
  unfold F64.div, SFdiv, SFdiv_core_binary. cbn [Zdigits2]. rewrite Hd.
  change (Zpos (digits2_pos 4503599627370496)) with 53.
  assert (Hf : Z.min (fexp F64.prec F64.emax (53 + e - (53 + d))) (e - d) = e - d - 53).
  { unfold fexp, emin, F64.prec, F64.emax. lia. }
  rewrite Hf.
  replace (e - d - (e - d - 53)) with 53 by lia.
  cbv iota.
  assert (Hdiv : Z.div_eucl (Z.shiftl (Zpos m) 53) 4503599627370496 = (Zpos m~0, 0)).
  { rewrite Z.shiftl_mul_pow2 by lia.
    generalize (Z.div_eucl_eq (Zpos m * 2 ^ 53) 4503599627370496 ltac:(lia)).
    generalize (Z.mod_pos_bound (Zpos m * 2 ^ 53) 4503599627370496 ltac:(lia)).
    unfold Z.modulo, Z.div.
    destruct (Z.div_eucl (Zpos m * 2 ^ 53) 4503599627370496) as [q r].
    intros Hr Hqr. change (2 ^ 53) with (2 * 4503599627370496) in Hqr.
    assert (q = 2 * Zpos m) by nia. assert (r = 0) by nia. subst. reflexivity. }
  rewrite Hdiv, xorb_false_r.
  change (new_location 4503599627370496 0) with loc_Exact.
  unfold binary_round_aux, shr_fexp. cbn [Zdigits2 shr_record_of_loc digits2_pos].
  rewrite Pos2Z.inj_succ, Hd.
  assert (Hf1 : fexp F64.prec F64.emax (Z.succ 53 + (e - d - 53)) - (e - d - 53) = 1).
  { unfold fexp, emin, F64.prec, F64.emax. lia. }
  rewrite Hf1.
  cbn [shr SpecFloat.iter_pos shr_1 shr_m loc_of_shr_record orb round_nearest_even Zdigits2].
  rewrite Hd.
  assert (Hf2 : fexp F64.prec F64.emax (53 + (e - d - 53 + 1)) - (e - d - 53 + 1) = 0).
  { unfold fexp, emin, F64.prec, F64.emax. lia. }
  rewrite Hf2. cbn [shr shr_m].
  replace (e - d - 53 + 1 <=? F64.emax - F64.prec) with true.
  - f_equal. lia.
  - symmetry. apply Z.leb_le. unfold F64.emax, F64.prec. lia.
Qed.

Lemma halve_normal (m : positive) (e : Z) :
  Zpos (digits2_pos m) = 53 -> -1072 <= e <= 972 ->
  truediv (Float (S754_finite false m e)) (Int 2) = Ok (S754_finite false m (e - 1)).
Proof.
  intros Hd He. unfold truediv. cbn [to_float Py.bind].
  change (float_of_int 2) with (Ok (S754_finite false 4503599627370496 (-51))).
  cbn [Py.bind F64.is_zero].
  rewrite div_pow2_exact by (try exact Hd; lia). do 2 f_equal. lia.
Qed.

(** The row of a load between 0 and 100. *)
Lemma cpu_table_row_percentage (i : nat) (p : F64.float) :
  Panels.percentage p ->
  exists n,
    Panels.cpu_table_row i p =
    Some {| Panels.core_label := String.append "Core " (str_int (Z.of_nat i));
            Panels.usage_text := String.append (Text.format_1f p) "%";
            Panels.bar := Text.str_mul Panels.block n;
            Panels.bar_style := Panels.load_color p |}
    /\ 0 <= n <= 50
    /\ F64.ltb_Z p (2 * n) = false
    /\ F64.ltb_Z p (2 * n + 2) = true.
Proof.
  intros Hp. destruct p as [s|s| |[|] m e]; cbn [Panels.percentage] in Hp; try contradiction.
  - exists 0. split; [|split; [lia | split; reflexivity]].
    unfold Panels.cpu_table_row, truediv. cbn [to_float Py.bind].
    change (float_of_int 2) with (Ok (S754_finite false 4503599627370496 (-51))).
    cbn [Py.bind F64.is_zero F64.div SFdiv Text.int_of_float]. reflexivity.
  - destruct Hp as (Hd & He & H100).
    pose proof (digits2_pos_lower m) as Hlo. rewrite Hd in Hlo. change (53 - 1) with 52 in Hlo.
    change (2 ^ 52) with 4503599627370496 in Hlo.
    unfold F64.gtb_Z, F64.compare_Z in H100.
    destruct e as [|q|q].
    { exfalso. change (2 ^ 0) with 1 in H100.
      destruct (Z.compare_spec (Zpos m * 1) 100); try discriminate; lia. }
    { exfalso. pose proof (Z.pow_pos_nonneg 2 (Zpos q) ltac:(lia) ltac:(lia)).
      destruct (Z.compare_spec (Zpos m * 2 ^ Zpos q) 100); try discriminate; nia. }
    assert (Hq : 0 < 2 ^ Zpos q) by (apply Z.pow_pos_nonneg; lia).
    assert (Hle : Zpos m <= 100 * 2 ^ Zpos q).
    { destruct (Z.compare_spec (Zpos m) (100 * 2 ^ Zpos q)); try discriminate; lia. }
    assert (Hpow : 2 ^ Zpos (q + 1) = 2 * 2 ^ Zpos q).
    { rewrite Pos2Z.inj_add, Z.pow_add_r, Z.pow_1_r by lia. lia. }
    set (n := Zpos m / 2 ^ Zpos (q + 1)).
    assert (Hn : n * (2 * 2 ^ Zpos q) <= Zpos m < (n + 1) * (2 * 2 ^ Zpos q)).
    { unfold n. rewrite Hpow.
      pose proof (Z.mul_div_le (Zpos m) (2 * 2 ^ Zpos q) ltac:(lia)).
      pose proof (Z.mul_succ_div_gt (Zpos m) (2 * 2 ^ Zpos q) ltac:(lia)). lia. }
    exists n. split; [|split; [|split]].
    + unfold Panels.cpu_table_row.
      rewrite (halve_normal m (Zneg q) Hd) by lia.
      change (Zneg q - 1) with (Zneg (q + 1)). cbn [Text.int_of_float]. reflexivity.
    + split.
      * apply Z.div_pos; [lia | apply Z.pow_pos_nonneg; lia].
      * destruct (Z_le_gt_dec n 50) as [H|H]; [exact H | exfalso; nia].
    + unfold F64.ltb_Z, F64.compare_Z.
      destruct (Z.compare_spec (Zpos m) (2 * n * 2 ^ Zpos q)); try reflexivity; exfalso; nia.
    + unfold F64.ltb_Z, F64.compare_Z.
      destruct (Z.compare_spec (Zpos m) ((2 * n + 2) * 2 ^ Zpos q));
        try reflexivity; exfalso; nia.
Qed.

Lemma generate_cpu_table_from_ok (l : list F64.float) (i : nat) :
  Forall Panels.percentage l ->
  exists rows,
    Panels.generate_cpu_table_from i l = Some rows
    /\ length rows = length l
    /\ forall j p,
        l !! j = Some p ->
        exists n,
          rows !! j =
          Some {| Panels.core_label := String.append "Core " (str_int (Z.of_nat (i + j)));
                  Panels.usage_text := String.append (Text.format_1f p) "%";
                  Panels.bar := Text.str_mul Panels.block n;
                  Panels.bar_style := Panels.load_color p |}
          /\ 0 <= n <= 50
          /\ F64.ltb_Z p (2 * n) = false
          /\ F64.ltb_Z p (2 * n + 2) = true.
Proof.
  revert i. induction l as [|p l IH]; intros i Hall.
  - exists []. split; [reflexivity|]. split; [reflexivity|]. intros j q Hj. discriminate.
  - apply Forall_cons in Hall as [Hp Hall].
    destruct (cpu_table_row_percentage i p Hp) as (n & Hrow & Hn).
    destruct (IH (S i) Hall) as (rows & Hrows & Hlen & Hall').
    eexists. cbn [Panels.generate_cpu_table_from]. rewrite Hrow, Hrows.
    split; [reflexivity|]. split; [cbn [length]; rewrite Hlen; reflexivity|].
    intros j q Hj. destruct j as [|j].
    + cbn in Hj. injection Hj as <-. exists n. rewrite Nat.add_0_r.
      split; [reflexivity | exact Hn].
    + cbn in Hj. destruct (Hall' j q Hj) as (n' & Hr & Hn').
      exists n'. replace (i + S j)%nat with (S i + j)%nat by lia.
      split; [exact Hr | exact Hn'].
Qed.

Lemma generate_cpu_table_from_none (l : list F64.float) (i : nat) (p : F64.float) :
  In p l -> (forall k, Panels.cpu_table_row k p = None) ->
  Panels.generate_cpu_table_from i l = None.
Proof.
  revert i. induction l as [|q l IH]; intros i Hin Hnone; [contradiction|].
  cbn [Panels.generate_cpu_table_from]. destruct Hin as [->|Hin].
  - rewrite Hnone. reflexivity.
  - destruct (Panels.cpu_table_row i q); [|reflexivity].
    rewrite (IH (S i) Hin Hnone). reflexivity.
Qed.

(** X17: for loads between 0 and 100 (a zero, or a positive float with a full
    mantissa that is at most 100), [generate_cpu_table] gives one row per
    load, in order, labelled with the index of the core; the bar of a load
    [p] repeats the block [n] times, where [n] is the integer part of
    [p / 2]: [2n <= p < 2n + 2], and [n] is at most 50. *)
Theorem X17_generate_cpu_table_bars (cpu_usage : list F64.float) :
  Forall Panels.percentage cpu_usage ->
  exists rows,
    Panels.generate_cpu_table cpu_usage = Some rows
    /\ length rows = length cpu_usage
    /\ forall i p,
        cpu_usage !! i = Some p ->
        exists n,
          rows !! i =
          Some {| Panels.core_label := String.append "Core " (str_int (Z.of_nat i));
                  Panels.usage_text := String.append (Text.format_1f p) "%";
                  Panels.bar := Text.str_mul Panels.block n;
                  Panels.bar_style := Panels.load_color p |}
          /\ 0 <= n <= 50
          /\ F64.ltb_Z p (2 * n) = false
          /\ F64.ltb_Z p (2 * n + 2) = true.
Proof.
  intros Hall. exact (generate_cpu_table_from_ok cpu_usage 0 Hall).
Qed.

Lemma X17_generate_cpu_table_bars_witness :
  let loads := [F64.of_Z 0; F64.of_Z 7; F64.of_Z 99; F64.of_Z 100] in
  Forall Panels.percentage loads
  /\ (exists rows, Panels.generate_cpu_table loads = Some rows /\ length rows = 4%nat)
  /\ option_map (map (fun row => (Panels.core_label row, Panels.usage_text row,
                                  Panels.bar_style row)))
       (Panels.generate_cpu_table loads)
     = Some [ ("Core 0", "0.0%", "green"); ("Core 1", "7.0%", "green");
              ("Core 2", "99.0%", "red"); ("Core 3", "100.0%", "red") ]%string
  /\ option_map (map (fun row => Panels.bar row)) (Panels.generate_cpu_table loads)
     = Some [ Text.str_mul Panels.block 0; Text.str_mul Panels.block 3;
              Text.str_mul Panels.block 49; Text.str_mul Panels.block 50 ].
Proof.
  intros loads.
  assert (H : Forall Panels.percentage loads).
  { repeat first [ apply Forall_cons; split | apply Forall_nil ];
      vm_compute; try exact I; repeat split; discriminate. }
  destruct (X17_generate_cpu_table_bars loads H) as (rows & E & L & _).
  split; [exact H|]. split; [exists rows; split; [exact E | exact L]|].
  split; vm_compute; reflexivity.
Defined.

(** X18: [generate_cpu_table] raises when one of the loads is a NaN or an
    infinity ([int] cannot convert it): no table is produced. *)
Theorem X18_generate_cpu_table_not_finite (cpu_usage : list F64.float) (p : F64.float) :
  In p cpu_usage ->
  Text.int_of_float p = None ->
  Panels.generate_cpu_table cpu_usage = None.
Proof.
  intros Hin Hp. apply (generate_cpu_table_from_none cpu_usage 0 p Hin).
  intros k. unfold Panels.cpu_table_row, truediv. cbn [to_float Py.bind].
  change (float_of_int 2) with (Ok (S754_finite false 4503599627370496 (-51))).
  cbn [Py.bind F64.is_zero].
  destruct p as [s|s| |s m e]; try discriminate Hp; reflexivity.
Qed.

Lemma X18_generate_cpu_table_not_finite_witness :
  In S754_nan [F64.of_Z 10; S754_nan]
  /\ Text.int_of_float S754_nan = None
  /\ Panels.generate_cpu_table [F64.of_Z 10; S754_nan] = None.
Proof.
  assert (H1 : In S754_nan [F64.of_Z 10; S754_nan]) by (right; left; reflexivity).
  assert (H2 : Text.int_of_float S754_nan = None) by reflexivity.
  split; [exact H1 | split; [exact H2|]].
  exact (X18_generate_cpu_table_not_finite _ _ H1 H2).
Defined.

(** * The uptime line and the list of disks *)

(** X19: for the seconds of a [timedelta] (0 to 86399) the uptime line shows
    between 0 and 23 hours and between 0 and 59 minutes, and together they
    are the seconds rounded down to the minute. *)
Theorem X19_uptime_fields (uptime : Panels.timedelta) :
  0 <= Panels.seconds uptime < 86400 ->
  let h := Panels.uptime_hours uptime in
  let m := Panels.uptime_minutes uptime in
  0 <= h <= 23
  /\ 0 <= m <= 59
  /\ 3600 * h + 60 * m <= Panels.seconds uptime < 3600 * h + 60 * m + 60
  /\ Panels.uptime_text uptime =
     String.append (str_int (Panels.days uptime))
       (String.append " days, "
          (String.append (str_int h)
             (String.append " hours, " (String.append (str_int m) " minutes")))).
Proof.
  intros Hs h m. subst h m. unfold Panels.uptime_hours, Panels.uptime_minutes.
  set (s := Panels.seconds uptime) in *.
  pose proof (Z.div_mod s 3600 ltac:(lia)) as E1.
  pose proof (Z.mod_pos_bound s 3600 ltac:(lia)) as B1.
  pose proof (Z.div_mod s 60 ltac:(lia)) as E2.
  pose proof (Z.mod_pos_bound s 60 ltac:(lia)) as B2.
  pose proof (Z.div_mod (s / 60) 60 ltac:(lia)) as E3.
  pose proof (Z.mod_pos_bound (s / 60) 60 ltac:(lia)) as B3.
  assert (E4 : s / 60 / 60 = s / 3600) by (rewrite Z.div_div by lia; reflexivity).
  rewrite E4 in E3.
  repeat split; try lia.
Qed.

Lemma X19_uptime_fields_witness :
  let uptime := {| Panels.days := 3; Panels.seconds := 86399 |} in
  0 <= Panels.seconds uptime < 86400
  /\ Panels.uptime_hours uptime = 23
  /\ Panels.uptime_minutes uptime = 59
  /\ Panels.uptime_text uptime = "3 days, 23 hours, 59 minutes"%string.
Proof.
  intros uptime.
  assert (H : 0 <= Panels.seconds uptime < 86400) by (cbn; lia).
  destruct (X19_uptime_fields uptime H) as (_ & _ & _ & E).
  split; [exact H | split; [reflexivity | split; [reflexivity|]]].
  rewrite E. reflexivity.
Defined.

(** X20: [get_disk_info] returns one entry per partition that has a file
    system type, in order, with the figures that [disk_usage] gives for its
    mount point; a partition without a type is skipped and [disk_usage] is
    not asked about it.  The call raises exactly when [disk_usage] raises
    for one of the partitions that have a type. *)
Theorem X20_get_disk_info_partitions (disk_usage : string -> option Panels.usage)
    (partitions : list Panels.partition) :
  let typed := List.filter (fun p => Panels.truthy (Panels.part_fstype p)) partitions in
  match Panels.get_disk_info disk_usage partitions with
  | None =>
      exists p, In p typed /\ disk_usage (Panels.part_mountpoint p) = None
  | Some disks =>
      map device disks = map Panels.part_device typed
      /\ map mountpoint disks = map Panels.part_mountpoint typed
      /\ map fstype disks = map Panels.part_fstype typed
      /\ Forall (fun d => Panels.truthy (fstype d) = true
                          /\ exists u, disk_usage (mountpoint d) = Some u
                               /\ disk_total d = Panels.usage_total u
                               /\ disk_used d = Panels.usage_used u
                               /\ disk_free d = Panels.usage_free u
                               /\ disk_percent d = Panels.usage_percent u) disks
  end.
Proof.
  intros typed. subst typed. induction partitions as [|p ps IH].
  - cbn. repeat split. constructor.
  - cbn [Panels.get_disk_info List.filter].
    destruct (Panels.truthy (Panels.part_fstype p)) eqn:Hp.
    + destruct (disk_usage (Panels.part_mountpoint p)) as [u|] eqn:Hu.
      * destruct (Panels.get_disk_info disk_usage ps) as [ds|].
        -- destruct IH as (Hd & Hm & Hf & Hall). cbn [map].
           rewrite Hd, Hm, Hf. repeat split.
           constructor; [|exact Hall]. cbn. split; [exact Hp|].
           exists u. repeat split. exact Hu.
        -- destruct IH as (q & Hin & Hq). exists q. split; [right; exact Hin | exact Hq].
      * exists p. split; [left; reflexivity | exact Hu].
    + exact IH.
Qed.

(** * The pause of the update thread *)

Lemma gui_tick_config (N : bool) (r : reading) (st : Gui.state) :
  length (Gui.network_sent_history st) = length (Gui.network_recv_history st) ->
  Gui.config (Gui.update_data_tick N r st) = Gui.config st.
Proof.
  intros Hlen. pose proof (gui_tick_cases N r st Hlen) as H. cbv zeta in H.
  destruct (gui_tick_error N r st).
  - destruct H as (s & -> & _ & _ & _ & Hc). exact Hc.
  - destruct H as (s & -> & _ & _ & Hc). exact Hc.
Qed.

(** A pass leaves the settings alone and the two network series equally
    long. *)
Lemma gui_pass_keeps (N : bool) (p : result reading) (st : Gui.state) :
  length (Gui.network_sent_history st) = length (Gui.network_recv_history st) ->
  Gui.config (gui_update_pass N p st) = Gui.config st
  /\ length (Gui.network_sent_history (gui_update_pass N p st))
     = length (Gui.network_recv_history (gui_update_pass N p st)).
Proof.
  intros Hlen. destruct p as [r|e]; cbn [gui_update_pass].
  - split; [apply gui_tick_config, Hlen | apply gui_tick_equal_length, Hlen].
  - split; [reflexivity | exact Hlen].
Qed.

(** X21: over passes between which no settings are saved (and from network
    series of equal length, as the loop keeps them), the update thread goes
    through every pass as long as [time.sleep] returns for the update
    interval, which no pass changes. When [time.sleep] raises for it,
    outside the [try], the thread ends after the pass under way, whatever
    passes would follow: so it is for a negative interval saved in the
    settings, which [time.sleep] refuses. *)
Theorem X21_update_thread_pause (sleep_returns : Z -> bool) (N : bool)
    (ps : list (result reading)) (st : Gui.state) :
  length (Gui.network_sent_history st) = length (Gui.network_recv_history st) ->
  (forall interval, interval < 0 -> sleep_returns interval = false) ->
  update_thread sleep_returns N ps st =
  (if sleep_returns (Gui.update_interval (Gui.config st))
   then (gui_update_loop N ps st, true)
   else match ps with
        | [] => (st, true)
        | p :: _ => (gui_update_pass N p st, false)
        end)
  /\ (Gui.update_interval (Gui.config st) < 0 ->
      forall p ps', ps = p :: ps' ->
      update_thread sleep_returns N ps st = (gui_update_pass N p st, false)).
Proof.
  intros Hlen Hneg.
  assert (E : forall ps st,
             length (Gui.network_sent_history st) = length (Gui.network_recv_history st) ->
             update_thread sleep_returns N ps st =
             if sleep_returns (Gui.update_interval (Gui.config st))
             then (gui_update_loop N ps st, true)
             else match ps with
                  | [] => (st, true)
                  | p :: _ => (gui_update_pass N p st, false)
                  end).
  { clear ps st Hlen. induction ps as [|p ps IH]; intros st Hlen.
    - cbn. destruct (sleep_returns _); reflexivity.
    - cbn [update_thread]. destruct (gui_pass_keeps N p st Hlen) as [Hc Hl].
      rewrite Hc.
      destruct (sleep_returns (Gui.update_interval (Gui.config st))) eqn:Hs; [|reflexivity].
      rewrite (IH _ Hl), Hc, Hs. reflexivity. }
  split; [apply E, Hlen|].
  intros Hint p ps' ->. rewrite (E _ _ Hlen), (Hneg _ Hint). reflexivity.
Qed.

Lemma X21_update_thread_pause_witness :
  let sleep_returns := fun interval => (0 <=? interval) && (interval <=? 9223372036) in
  let st := Gui.save_settings "dark" (-1) 60 true Sample.gui0 in
  let ps := [Ok (Sample.at_time 1 10 2000); Raise (Other "PermissionError");
             Ok (Sample.at_time 3 10 4000)] in
  length (Gui.network_sent_history st) = length (Gui.network_recv_history st)
  /\ (forall interval, interval < 0 -> sleep_returns interval = false)
  /\ update_thread sleep_returns true ps st
     = (Gui.update_data_tick true (Sample.at_time 1 10 2000) st, false)
  /\ Gui.network_sent_history (fst (update_thread sleep_returns true ps st)) = [F64.of_Z 1000]
  /\ Gui.network_sent_history (fst (update_thread sleep_returns true ps Sample.gui0))
     = [F64.of_Z 1000; F64.of_Z 1000].
Proof.
  intros sleep_returns st ps.
  assert (H : length (Gui.network_sent_history st) = length (Gui.network_recv_history st))
    by reflexivity.
  assert (Hneg : forall interval, interval < 0 -> sleep_returns interval = false).
  { intros z Hz. unfold sleep_returns. destruct (Z.leb_spec 0 z); [lia | reflexivity]. }
  destruct (X21_update_thread_pause sleep_returns true ps st H Hneg) as [_ E].
  split; [exact H | split; [exact Hneg |]].
  split; [exact (E eq_refl _ _ eq_refl) | split; reflexivity].
Defined.
(** * The CPU alert, transition by transition *)

(** X22: the CPU alert of [check_thresholds], transition by transition.
    When the mean of the loads cannot be computed (no load at all) the call
    raises and changes nothing.  Otherwise: not alerted, the flag is set
    exactly when the mean is above 90, and one CPU alert is delivered then
    (if the notifier is available); alerted, the flag stays unless the mean
    is below 70, and no CPU alert is delivered. *)
Theorem X22_cpu_alert_hysteresis (N : bool) (cpu : list F64.float) (mem : memory_info)
    (st : Gui.state) :
  let out := Gui.check_thresholds N cpu mem st in
  match mean cpu with
  | Raise e => out = (Raise e, st)
  | Ok avg =>
      fst out = Ok tt
      /\ if Gui.cpu_notified st
         then Gui.cpu_notified (snd out) = negb (F64.ltb_Z avg 70)
              /\ cpu_alerts (snd out) = cpu_alerts st
         else Gui.cpu_notified (snd out) = F64.gtb_Z avg 90
              /\ cpu_alerts (snd out) =
                 (cpu_alerts st + if F64.gtb_Z avg 90 && N then 1 else 0)%nat
  end.
Proof.
  intros out. subst out. rewrite gui_check_thresholds_eq.
  destruct (mean cpu) as [avg|e]; [|reflexivity].
  cbn [fst snd]. split; [reflexivity|].
  destruct (cpu_transition_effect N avg st) as (E & _).
  destruct (memory_transition_effect N (percent mem) (cpu_transition N avg st))
    as (_ & Hflag & Hcount).
  rewrite Hflag, Hcount.
  destruct (Gui.cpu_notified st), (F64.gtb_Z avg 90), (F64.ltb_Z avg 70), N;
    cbn in E |- *; injection E as -> ->; split; try reflexivity; lia.
Qed.

(** * The splash screen *)

Lemma splash_run_more (fuel : nat) (pv : num) (vs : list F64.float) :
  Splash.run fuel pv = Ok (vs, true) -> Splash.run (S fuel) pv = Ok (vs, true).
Proof.
  revert pv vs. induction fuel as [|fuel IH]; intros pv vs H; [discriminate|].
  cbn [Splash.run] in H. change (Splash.run (S (S fuel)) pv)
    with (Py.bind (Splash.animate_progress pv)
            (fun out =>
               match out with
               | (pv', Some v, _) =>
                   Py.bind (Splash.run (S fuel) pv') (fun rest => Ok (v :: fst rest, snd rest))
               | (_, None, _) => Ok ([], true)
               end)).
  destruct (Splash.animate_progress pv) as [[[pv' [v|]] sch]|e]; cbn [Py.bind] in *;
    try exact H.
  destruct (Splash.run fuel pv') as [[vs' b]|e] eqn:Hrun; cbn [Py.bind fst snd] in H;
    [|discriminate].
  injection H as <- ->. rewrite (IH pv' vs' Hrun). reflexivity.
Qed.

(** X23: the animation of the splash screen ends: started at 0, it sets the
    progress bar 50 times, each value before the last under 1, and the call
    after them schedules the destruction of the window, no call before.
    The step is the float nearest to 2/100, and fifty of them add up to
    more than 1: the last value set on the bar is 1.0000000000000004. *)
Theorem X23_splash_animation_frames (k : nat) :
  F64.div (F64.of_Z 2) (F64.of_Z 100) = Splash.step
  /\ exists values,
      Splash.run (51 + k) (Int 0) = Ok (values, true)
      /\ length values = 50%nat
      /\ last values = Some (S754_finite false 4503599627370498 (-52))
      /\ F64.gtb_Z (S754_finite false 4503599627370498 (-52)) 1 = true
      /\ Forall (fun v => F64.ltb_Z v 1 = true) (List.removelast values)
      /\ (forall fuel, (fuel <= 50)%nat ->
            exists vs, Splash.run fuel (Int 0) = Ok (vs, false)).
Proof.
  split; [vm_compute; reflexivity|].
  destruct (Splash.run 51 (Int 0)) as [[values b]|e] eqn:Hrun;
    [|vm_compute in Hrun; discriminate].
  assert (Hb : b = true) by (vm_compute in Hrun; congruence). subst b.
  exists values. split; [|split; [|split; [|split; [|split]]]].
  - induction k as [|k IH]; [exact Hrun|].
    replace (51 + S k)%nat with (S (51 + k)) by lia. apply splash_run_more, IH.
  - vm_compute in Hrun. injection Hrun as <-. reflexivity.
  - vm_compute in Hrun. injection Hrun as <-. reflexivity.
  - reflexivity.
  - vm_compute in Hrun. injection Hrun as <-. repeat constructor.
  - intros fuel Hf.
    do 51 (destruct fuel as [|fuel]; [eexists; vm_compute; reflexivity|]). lia.
Qed.

(** * The CPU tab *)

Lemma truediv_100 (u : F64.float) :
  truediv (Float u) (Int 100) = Ok (F64.div u (F64.of_Z 100)).
Proof.
  unfold truediv. cbn [to_float Py.bind].
  change (float_of_int 100) with (Ok (F64.of_Z 100)). cbn [Py.bind].
  change (F64.is_zero (F64.of_Z 100)) with false. reflexivity.
Qed.

(** The loop over the loads, from index [i] on: it writes the bars and
    the labels that exist, and nothing else. *)
Lemma cpu_tab_loop (us : list F64.float) (i : nat) (w : CpuTab.widgets) :
  length (CpuTab.cpu_labels w) = length (CpuTab.cpu_bars w) ->
  exists w',
    Run.for_enumerate CpuTab.update_bar i us w = (Ok tt, w')
    /\ CpuTab.plotted w' = CpuTab.plotted w
    /\ CpuTab.legend w' = CpuTab.legend w
    /\ length (CpuTab.cpu_bars w') = length (CpuTab.cpu_bars w)
    /\ length (CpuTab.cpu_labels w') = length (CpuTab.cpu_labels w)
    /\ forall j,
        CpuTab.cpu_bars w' !! j =
        (if (i <=? j)%nat && (j <? length (CpuTab.cpu_bars w))%nat
         then match us !! (j - i)%nat with
              | Some u => Some (F64.div u (F64.of_Z 100))
              | None => CpuTab.cpu_bars w !! j
              end
         else CpuTab.cpu_bars w !! j)
        /\ CpuTab.cpu_labels w' !! j =
           (if (i <=? j)%nat && (j <? length (CpuTab.cpu_bars w))%nat
            then match us !! (j - i)%nat with
                 | Some u => Some (CpuTab.label_text j u)
                 | None => CpuTab.cpu_labels w !! j
                 end
            else CpuTab.cpu_labels w !! j).
Proof.
  revert i w. induction us as [|u us IH]; intros i w Hlen.
  - exists w. split; [reflexivity|]. do 4 (split; [reflexivity|]).
    intros j. destruct ((i <=? j)%nat && (j <? length (CpuTab.cpu_bars w))%nat);
      split; reflexivity.
  - cbn [Run.for_enumerate]. unfold Run.bind at 1. unfold CpuTab.update_bar at 1.
    run_step.
    destruct (Nat.ltb_spec i (length (CpuTab.cpu_bars w))) as [Hi|Hi].
    + run_step. rewrite truediv_100. run_step.
      cbn [CpuTab.cpu_labels CpuTab.set_cpu_bars].
      destruct (lookup_lt_is_Some_2 (CpuTab.cpu_labels w) i ltac:(lia)) as [old Hold].
      rewrite Hold. unfold Run.modify at 1. cbv beta iota.
      set (w1 := CpuTab.set_cpu_labels _ (CpuTab.set_cpu_bars _ w)).
      destruct (IH (S i) w1) as (w' & Hrun & Hp & Hl & Hb & Hlab & Hlook).
      { subst w1. cbn. rewrite !length_insert. exact Hlen. }
      exists w'. split; [exact Hrun|].
      subst w1. cbn [CpuTab.plotted CpuTab.legend CpuTab.cpu_bars CpuTab.cpu_labels
                      CpuTab.set_cpu_bars CpuTab.set_cpu_labels] in *.
      rewrite !length_insert in *.
      split; [exact Hp|]. split; [exact Hl|]. split; [exact Hb|]. split; [exact Hlab|].
      intros j. destruct (Hlook j) as [Hbj Hlj]. rewrite Hbj, Hlj. clear Hbj Hlj Hlook.
      destruct (Nat.leb_spec (S i) j) as [H1|H1]; destruct (Nat.leb_spec i j) as [H2|H2];
        try lia; cbn [andb].
      * destruct (Nat.ltb_spec j (length (CpuTab.cpu_bars w))) as [H3|H3].
        -- replace (j - i)%nat with (S (j - S i)) by lia. cbn [lookup list_lookup].
           rewrite !list_lookup_insert_ne by lia. split; reflexivity.
        -- rewrite !list_lookup_insert_ne by lia. split; reflexivity.
      * assert (j = i) by lia. subst j.
        destruct (Nat.ltb_spec i (length (CpuTab.cpu_bars w))) as [H3|H3]; [|lia].
        rewrite Nat.sub_diag. cbn [lookup list_lookup].
        rewrite !list_lookup_insert_eq by lia. split; reflexivity.
      * rewrite !list_lookup_insert_ne by lia. split; reflexivity.
    + unfold Run.ret at 1. cbv beta iota.
      destruct (IH (S i) w Hlen) as (w' & Hrun & Hp & Hl & Hb & Hlab & Hlook).
      exists w'. split; [exact Hrun|].
      split; [exact Hp|]. split; [exact Hl|]. split; [exact Hb|]. split; [exact Hlab|].
      intros j. destruct (Hlook j) as [Hbj Hlj]. rewrite Hbj, Hlj.
      destruct (Nat.leb_spec (S i) j), (Nat.leb_spec i j),
        (Nat.ltb_spec j (length (CpuTab.cpu_bars w))); try lia; cbn [andb]; split; reflexivity.
Qed.

Lemma lines_from_not_empty (hs : list (list F64.float)) (i : nat) :
  Forall (fun line => snd line <> []) (CpuTab.lines_from i hs).
Proof.
  revert i. induction hs as [|h hs IH]; intros i; cbn [CpuTab.lines_from]; [constructor|].
  destruct h as [|v h]; cbn [is_empty]; [apply IH|].
  constructor; [discriminate | apply IH].
Qed.

(** X24: [update_ui_cpu] of the feature-rich GUI never raises when there is
    one label per bar.  Bar [i] is set to the [i]-th load divided by 100
    and its label to the load with one decimal; loads past the last bar
    are ignored, bars past the last load keep their value.  When the
    window has a graph, it plots the CPU series that are not empty and
    shows the legend for at most 8 series; without one nothing is drawn. *)
Theorem X24_update_ui_cpu_bars (has_graph : bool) (cpu_history : list (list F64.float))
    (cpu_usage : list F64.float) (w : CpuTab.widgets) :
  length (CpuTab.cpu_labels w) = length (CpuTab.cpu_bars w) ->
  exists w',
    CpuTab.update_ui_cpu has_graph cpu_history cpu_usage w = (Ok tt, w')
    /\ length (CpuTab.cpu_bars w') = length (CpuTab.cpu_bars w)
    /\ length (CpuTab.cpu_labels w') = length (CpuTab.cpu_labels w)
    /\ (forall i u,
          cpu_usage !! i = Some u -> (i < length (CpuTab.cpu_bars w))%nat ->
          CpuTab.cpu_bars w' !! i = Some (F64.div u (F64.of_Z 100))
          /\ CpuTab.cpu_labels w' !! i = Some (CpuTab.label_text i u))
    /\ (forall i,
          (length cpu_usage <= i)%nat ->
          CpuTab.cpu_bars w' !! i = CpuTab.cpu_bars w !! i
          /\ CpuTab.cpu_labels w' !! i = CpuTab.cpu_labels w !! i)
    /\ if has_graph
       then CpuTab.plotted w' = CpuTab.lines_from 0 cpu_history
            /\ Forall (fun line => snd line <> []) (CpuTab.plotted w')
            /\ CpuTab.legend w' = (length cpu_history <=? 8)%nat
       else CpuTab.plotted w' = CpuTab.plotted w
            /\ CpuTab.legend w' = CpuTab.legend w.
Proof.
  intros Hlen.
  destruct (cpu_tab_loop cpu_usage 0 w Hlen) as (w1 & Hrun & Hp & Hl & Hb & Hlab & Hlook).
  unfold CpuTab.update_ui_cpu. erewrite bind_outcome by exact Hrun.
  assert (Hset : forall i u,
            cpu_usage !! i = Some u -> (i < length (CpuTab.cpu_bars w))%nat ->
            CpuTab.cpu_bars w1 !! i = Some (F64.div u (F64.of_Z 100))
            /\ CpuTab.cpu_labels w1 !! i = Some (CpuTab.label_text i u)).
  { intros i u Hu Hi. destruct (Hlook i) as [Hbi Hli]. rewrite Hbi, Hli.
    cbn [Nat.leb andb]. destruct (Nat.ltb_spec i (length (CpuTab.cpu_bars w))); [|lia].
    rewrite Nat.sub_0_r, Hu. split; reflexivity. }
  assert (Hkept : forall i,
            (length cpu_usage <= i)%nat ->
            CpuTab.cpu_bars w1 !! i = CpuTab.cpu_bars w !! i
            /\ CpuTab.cpu_labels w1 !! i = CpuTab.cpu_labels w !! i).
  { intros i Hi. destruct (Hlook i) as [Hbi Hli]. rewrite Hbi, Hli.
    cbn [Nat.leb andb]. rewrite Nat.sub_0_r.
    rewrite (proj2 (lookup_ge_None cpu_usage i)) by exact Hi.
    destruct (i <? length (CpuTab.cpu_bars w))%nat; split; reflexivity. }
  destruct has_graph.
  - unfold Run.modify. eexists. split; [reflexivity|].
    cbn [CpuTab.cpu_bars CpuTab.cpu_labels CpuTab.plotted CpuTab.legend CpuTab.set_graph].
    split; [exact Hb|]. split; [exact Hlab|]. split; [exact Hset|]. split; [exact Hkept|].
    split; [reflexivity|]. split; [apply lines_from_not_empty | reflexivity].
  - exists w1. split; [reflexivity|].
    split; [exact Hb|]. split; [exact Hlab|]. split; [exact Hset|]. split; [exact Hkept|].
    split; [exact Hp | exact Hl].
Qed.

Lemma X24_update_ui_cpu_bars_witness :
  let w := {| CpuTab.cpu_bars := [F64.zero; F64.zero];
              CpuTab.cpu_labels := ["Core 0: 0%"; "Core 1: 0%"]%string;
              CpuTab.plotted := [];
              CpuTab.legend := false |} in
  let loads := [F64.of_Z 50; F64.of_Z 100; F64.of_Z 75] in
  length (CpuTab.cpu_labels w) = length (CpuTab.cpu_bars w)
  /\ (exists w',
        CpuTab.update_ui_cpu true [[F64.of_Z 50]; []] loads w = (Ok tt, w')
        /\ length (CpuTab.cpu_bars w') = 2%nat)
  /\ option_map CpuTab.cpu_labels
       (match CpuTab.update_ui_cpu true [[F64.of_Z 50]; []] loads w with
        | (Ok _, w') => Some w'
        | _ => None
        end)
     = Some ["Core 0: 50.0%"; "Core 1: 100.0%"]%string.
Proof.
  intros w loads.
  assert (H : length (CpuTab.cpu_labels w) = length (CpuTab.cpu_bars w)) by reflexivity.
  destruct (X24_update_ui_cpu_bars true [[F64.of_Z 50]; []] loads w H) as (w' & E & L & _).
  split; [exact H|]. split; [exists w'; split; [exact E | exact L]|].
  vm_compute. reflexivity.
Defined.

(** * The two graphical front-ends side by side *)

Lemma same_series_tick (N : bool) (r : reading) (b : BasicGui.state) (g : Gui.state) :
  same_series b g ->
  length (Gui.network_sent_history g) = length (Gui.network_recv_history g) ->
  cpu_usage r <> [] -> Z.of_nat (length (cpu_usage r)) < 2 ^ 1023 ->
  fst (BasicGui.update_data_tick r b) = Ok tt ->
  same_series (snd (BasicGui.update_data_tick r b)) (Gui.update_data_tick N r g)
  /\ Gui.printed (Gui.update_data_tick N r g) = Gui.printed g.
Proof.
  intros (Ht & Hc & Hm & Hs & Hr & Hpn & Hpt) Hlen Hne Hsmall.
  rewrite (basic_tick_eq r b) by (rewrite Hs, Hr; exact Hlen).
  rewrite (gui_tick_eq N r g Hlen).
  unfold basic_tick_spec, gui_tick_spec. rewrite Hc, Hpn, Hpt.
  destruct (length (cpu_usage r) <=? length (Gui.cpu_history g))%nat; [|discriminate].
  destruct (per_sec (bytes_sent _) _ _) as [x|e]; [|discriminate].
  destruct (per_sec (bytes_recv _) _ _) as [y|e]; [|discriminate].
  intros _. cbv zeta. cbn [snd].
  assert (Hdone : forall s,
            Gui.time_points s = Gui.time_points (gui_after_schedule r x y g) ->
            Gui.cpu_history s = Gui.cpu_history (gui_after_schedule r x y g) ->
            Gui.memory_history s = Gui.memory_history (gui_after_schedule r x y g) ->
            Gui.network_sent_history s = Gui.network_sent_history (gui_after_schedule r x y g) ->
            Gui.network_recv_history s = Gui.network_recv_history (gui_after_schedule r x y g) ->
            Gui.printed s = Gui.printed g ->
            same_series
              (BasicGui.set_prev (current_net_io r) (current_time r)
                 (BasicGui.schedule
                    [ BasicGui.update_ui_cpu (cpu_usage r);
                      BasicGui.update_ui_memory (memory r);
                      BasicGui.update_ui_disk (disk_info r);
                      BasicGui.update_ui_network (current_net_io r) x y;
                      BasicGui.update_ui_system_info ]
                    (BasicGui.set_network_recv_history (fun h => push h y)
                       (BasicGui.set_network_sent_history (fun h => push h x)
                          (basic_after_memory r b)))))
              (Gui.set_prev (current_net_io r) (current_time r) s)
            /\ Gui.printed (Gui.set_prev (current_net_io r) (current_time r) s)
               = Gui.printed g).
  { intros s E1 E2 E3 E4 E5 E6. split; [|exact E6].
    unfold same_series, basic_after_memory, basic_after_cpu. basic_fields.
    cbn [Gui.time_points Gui.cpu_history Gui.memory_history Gui.network_sent_history
         Gui.network_recv_history Gui.prev_net_io Gui.prev_time Gui.set_prev].
    rewrite E1, E2, E3, E4, E5.
    unfold gui_after_schedule, gui_after_memory, gui_after_cpu. gui_fields.
    rewrite Ht, Hc, Hm, Hs, Hr. repeat split. }
  destruct (N && Gui.enable_notifications (Gui.config g)).
  - destruct (mean_ok (cpu_usage r) Hne Hsmall) as [avg ->].
    destruct (transitions_frame N avg (percent (memory r)) (gui_after_schedule r x y g))
      as (_ & E2 & E3 & E5 & E4 & E1 & _ & _ & _ & E6).
    apply Hdone; assumption.
  - apply Hdone; reflexivity.
Qed.

Lemma same_series_update_data (N : bool) (rs : list reading) (b : BasicGui.state)
    (g : Gui.state) :
  same_series b g ->
  length (Gui.network_sent_history g) = length (Gui.network_recv_history g) ->
  Forall (fun r => cpu_usage r <> [] /\ Z.of_nat (length (cpu_usage r)) < 2 ^ 1023) rs ->
  fst (BasicGui.update_data rs b) = Ok tt ->
  same_series (snd (BasicGui.update_data rs b)) (Gui.update_data N rs g)
  /\ Gui.printed (Gui.update_data N rs g) = Gui.printed g.
Proof.
  revert b g. induction rs as [|r rs IH]; intros b g Hsame Hlen Hall Hok.
  - split; [exact Hsame | reflexivity].
  - apply Forall_cons in Hall as [[Hne Hsmall] Hall].
    cbn [BasicGui.update_data Gui.update_data fold_left] in *. unfold Run.bind in *.
    change (fold_left (fun s r0 => Gui.update_data_tick N r0 s) rs (Gui.update_data_tick N r g))
      with (Gui.update_data N rs (Gui.update_data_tick N r g)).
    pose proof (same_series_tick N r b g Hsame Hlen Hne Hsmall) as Hstep.
    destruct (BasicGui.update_data_tick r b) as [[[]|e] b1]; cbn [fst snd] in *;
      [|discriminate].
    destruct (Hstep eq_refl) as [Hsame1 Hp1].
    destruct (IH b1 (Gui.update_data_tick N r g) Hsame1
                (gui_tick_equal_length N r g Hlen) Hall Hok) as [Hsame2 Hp2].
    split; [exact Hsame2 | rewrite Hp2; exact Hp1].
Qed.

(** X25: on the same readings, each with at least one load, whenever the
    loop of the basic GUI completes, the feature-rich GUI holds the same
    five histories and the same previous reading, and has printed no
    error. *)
Theorem X25_gui_records_what_basic_gui_records (N : bool) (rs : list reading) (ncores : nat)
    (net0 : net_io) (t0 : F64.float) :
  Forall (fun r => cpu_usage r <> [] /\ Z.of_nat (length (cpu_usage r)) < 2 ^ 1023) rs ->
  fst (BasicGui.update_data rs (BasicGui.init ncores net0 t0)) = Ok tt ->
  let b := snd (BasicGui.update_data rs (BasicGui.init ncores net0 t0)) in
  let g := Gui.update_data N rs (Gui.init ncores net0 t0) in
  BasicGui.time_points b = Gui.time_points g
  /\ BasicGui.cpu_history b = Gui.cpu_history g
  /\ BasicGui.memory_history b = Gui.memory_history g
  /\ BasicGui.network_sent_history b = Gui.network_sent_history g
  /\ BasicGui.network_recv_history b = Gui.network_recv_history g
  /\ BasicGui.prev_net_io b = Gui.prev_net_io g
  /\ BasicGui.prev_time b = Gui.prev_time g
  /\ Gui.printed g = [].
Proof.
  intros Hall Hok b g.
  destruct (same_series_update_data N rs (BasicGui.init ncores net0 t0)
              (Gui.init ncores net0 t0)) as [Hsame Hp]; try assumption.
  - repeat split.
  - reflexivity.
  - destruct Hsame as (H1 & H2 & H3 & H4 & H5 & H6 & H7).
    repeat split; assumption.
Qed.

Lemma X25_gui_records_what_basic_gui_records_witness :
  let rs := [Sample.at_time 1 95 2000; Sample.at_time 2 20 5000] in
  Forall (fun r => cpu_usage r <> [] /\ Z.of_nat (length (cpu_usage r)) < 2 ^ 1023) rs
  /\ fst (BasicGui.update_data rs Sample.basic0) = Ok tt
  /\ BasicGui.network_sent_history (snd (BasicGui.update_data rs Sample.basic0))
     = Gui.network_sent_history (Gui.update_data true rs Sample.gui0)
  /\ Gui.network_sent_history (Gui.update_data true rs Sample.gui0)
     = [F64.of_Z 1000; F64.of_Z 3000].
Proof.
  intros rs.
  assert (H1 : Forall (fun r => cpu_usage r <> []
                                /\ Z.of_nat (length (cpu_usage r)) < 2 ^ 1023) rs).
  { repeat constructor; discriminate. }
  assert (H2 : fst (BasicGui.update_data rs Sample.basic0) = Ok tt) by reflexivity.
  destruct (X25_gui_records_what_basic_gui_records true rs 1 (Sample.counters 1000) (F64.of_Z 0)
              H1 H2) as (_ & _ & _ & Hs & _).
  split; [exact H1 | split; [exact H2 | split; [exact Hs | reflexivity]]].
Defined.
